(** * lol-ranking: the ranking and day-statistics engine of the chat bot

    A shallow embedding of [app/main.go] and the properties of its
    leaderboard aggregation, rank ordering, day-window computation,
    match tally and roster persistence.

    Conventions of the embedding:
    - a Go [string] is a [string] of bytes; a Go [int]/[int64] is a [Z]
      (the values handled here stay far from the 64-bit limits);
    - a Go [map] literal is a [gmap] looked up with the zero default;
    - a [(T, error)] result is a [Result T];
    - the handlers run in a small state monad over a [World] that holds
      the process globals, the roster file, the clock and the trace of
      effects ([time.Sleep], remote calls, chat messages);
    - the remote service and the chat transport are oracles: the outcome of
      a call is a function of its arguments. *)

From Stdlib Require Import ZArith List String Ascii Bool Lia Permutation Sorted.
From stdpp Require Import base gmap strings list.

Local Open Scope string_scope.
Local Open Scope Z_scope.

(** ** Results *)

Inductive Result (A : Type) : Type :=
| Ok (a : A)
| Err (msg : string).
Arguments Ok {A} a.
Arguments Err {A} msg.

Definition isErr {A} (r : Result A) : bool :=
  match r with Ok _ => false | Err _ => true end.

(** ** Package [strings] on byte strings *)

Module Strings.

Definition byte (c : ascii) : N := N_of_ascii c.

Fixpoint mapBytes (f : ascii -> ascii) (s : string) : string :=
  match s with
  | EmptyString => EmptyString
  | String c s' => String (f c) (mapBytes f s')
  end.

Fixpoint allBytes (p : ascii -> bool) (s : string) : bool :=
  match s with
  | EmptyString => true
  | String c s' => p c && allBytes p s'
  end.

(** [c < utf8.RuneSelf] *)
Definition isASCIIByte (c : ascii) : bool := (byte c <? 128)%N.
Definition isASCII (s : string) : bool := allBytes isASCIIByte s.

Definition isLowerByte (c : ascii) : bool := ((97 <=? byte c) && (byte c <=? 122))%N.
Definition isUpperByte (c : ascii) : bool := ((65 <=? byte c) && (byte c <=? 90))%N.

(** [c -= 'a' - 'A'] on ['a'..'z'] *)
Definition upperByte (c : ascii) : ascii :=
  if isLowerByte c then ascii_of_N (byte c - 32) else c.

(** [c += 'a' - 'A'] on ['A'..'Z'] *)
Definition lowerByte (c : ascii) : ascii :=
  if isUpperByte c then ascii_of_N (byte c + 32) else c.

(** [strings.ToUpper]: the library maps the bytes of an ASCII-only string
    directly and falls back to a rune-wise [unicode.ToUpper] as soon as one
    byte is [>= 0x80]; the fallback is the parameter [unicodeUpper]. *)
Definition ToUpper (unicodeUpper : string -> string) (s : string) : string :=
  if isASCII s then mapBytes upperByte s else unicodeUpper s.

(** ASCII case folding of two labels, byte by byte. *)
Fixpoint EqualFold (a b : string) : bool :=
  match a, b with
  | EmptyString, EmptyString => true
  | String x a', String y b' =>
      Ascii.eqb (upperByte x) (upperByte y) && EqualFold a' b'
  | _, _ => false
  end.

(** [strings.HasPrefix] *)
Definition HasPrefix (s p : string) : bool := String.prefix p s.

(** [strings.TrimPrefix] *)
Definition TrimPrefix (s p : string) : string :=
  if HasPrefix s p then String.substring (String.length p) (String.length s - String.length p) s
  else s.

(** [strings.Split(s, sep)] for a one-byte separator, the only form the
    program uses ("#", ",", " " and the line feed). *)
Fixpoint Split (s : string) (sep : ascii) : list string :=
  match s with
  | EmptyString => [EmptyString]
  | String c s' =>
      if Ascii.eqb c sep then EmptyString :: Split s' sep
      else match Split s' sep with
           | [] => [String c EmptyString]
           | x :: xs => String c x :: xs
           end
  end.

(** [strings.SplitN(s, sep, 2)] for a one-byte separator: cut at the first
    occurrence. *)
Fixpoint SplitN2 (s : string) (sep : ascii) : list string :=
  match s with
  | EmptyString => [EmptyString]
  | String c s' =>
      if Ascii.eqb c sep then [EmptyString; s']
      else match SplitN2 s' sep with
           | [] => [String c EmptyString]
           | x :: xs => String c x :: xs
           end
  end.

(** [strings.Join] *)
Fixpoint Join (l : list string) (sep : string) : string :=
  match l with
  | [] => EmptyString
  | [x] => x
  | x :: rest => x ++ sep ++ Join rest sep
  end.

(** [strings.TrimRight(s, cutset)] for a one-byte cutset. *)
Fixpoint TrimRight (s : string) (c : ascii) : string :=
  match s with
  | EmptyString => EmptyString
  | String a s' =>
      match TrimRight s' c with
      | EmptyString => if Ascii.eqb a c then EmptyString else String a EmptyString
      | t => String a t
      end
  end.

Fixpoint TrimLeftFunc (p : ascii -> bool) (s : string) : string :=
  match s with
  | EmptyString => EmptyString
  | String a s' => if p a then TrimLeftFunc p s' else s
  end.

Fixpoint TrimRightFunc (p : ascii -> bool) (s : string) : string :=
  match s with
  | EmptyString => EmptyString
  | String a s' =>
      match TrimRightFunc p s' with
      | EmptyString => if p a then EmptyString else String a EmptyString
      | t => String a t
      end
  end.

(** The ASCII white space of [strings.TrimSpace]: tab, line feed, vertical
    tab, form feed, carriage return and space. *)
Definition isSpaceByte (c : ascii) : bool :=
  ((9 <=? byte c) && (byte c <=? 13) || (byte c =? 32))%N.

(** [strings.TrimSpace] (on the ASCII white space). *)
Definition TrimSpace (s : string) : string :=
  TrimRightFunc isSpaceByte (TrimLeftFunc isSpaceByte s).

End Strings.

Import Strings.

(** ** Package [fmt]: the [%d] verb *)

Module Fmt.

Definition digitChar (d : Z) : ascii := ascii_of_N (Z.to_N (48 + d)).

Fixpoint digitsFuel (fuel : nat) (n : Z) (acc : string) : string :=
  match fuel with
  | O => acc
  | S fuel' =>
      let acc' := String (digitChar (n mod 10)) acc in
      if n <? 10 then acc' else digitsFuel fuel' (n / 10) acc'
  end.

Definition natDigits (n : Z) : string :=
  digitsFuel (S (Z.to_nat (Z.log2 n))) n EmptyString.

(** [%d] *)
Definition d (n : Z) : string :=
  if n <? 0 then "-" ++ natDigits (- n) else natDigits n.

(** [%02d] and [%04d] on a non-negative number. *)
Fixpoint padTo (fuel width : nat) (s : string) : string :=
  match fuel with
  | O => s
  | S fuel' =>
      if (String.length s <? width)%nat then padTo fuel' width ("0" ++ s) else s
  end.

Definition padZero (width : nat) (s : string) : string := padTo width width s.

End Fmt.

(** ** Data model *)

Record AccountDTO := { acc_PUUID : string; acc_GameName : string; acc_TagLine : string }.

Record SummonerDTO := { sum_ID : string; sum_AccountID : string; sum_PUUID : string; sum_Name : string }.

Record LeagueEntryDTO := {
  QueueType : string;
  entry_Tier : string;
  entry_Rank : string;
  entry_LeaguePoints : Z;
  Wins : Z;
  Losses : Z
}.

Record PlayerRankInfo := {
  RiotID : string;
  Tier : string;
  Rank : string;
  LeaguePoints : Z;
  TierValue : Z;
  RankValue : Z
}.

Record ParticipantDTO := { part_PUUID : string; Win : bool }.

Record MatchDTO := {
  GameCreation : Z;
  QueueID : Z;
  Participants : list ParticipantDTO
}.

Definition rankedSoloQueueID : Z := 420.

(** ** Package [time], in the fixed zone the program uses

    A [time.Time] is represented by its instant in Unix seconds: the
    program reads the wall clock only through [Year]/[Month]/[Day]/[Hour],
    rebuilds instants with [time.Date] and [AddDate], and hands [Unix()]
    to the remote service, so the sub-second part never reaches a result.
    Calendar arithmetic is the proleptic Gregorian calendar, computed on
    400-year eras with the year starting in March. *)

Module Time.

Definition secondsPerDay : Z := 86400.

(** [time.FixedZone("Asia/Tokyo", 9*60*60)] *)
Definition jst : Z := 9 * 60 * 60.

Definition daysBeforeYearOfEra (yoe : Z) : Z := yoe * 365 + yoe / 4 - yoe / 100.

(** Days from 1970-01-01 to the civil date [y]-[m]-[d]; linear in [d], so
    a day of 0 or 32 overflows into the neighbouring month as [time.Date]
    specifies. *)
Definition daysFromCivil (y m d : Z) : Z :=
  let y' := if m <=? 2 then y - 1 else y in
  let era := y' / 400 in
  let yoe := y' mod 400 in
  let mp := if 2 <? m then m - 3 else m + 9 in
  let doy := (153 * mp + 2) / 5 + d - 1 in
  let doe := daysBeforeYearOfEra yoe + doy in
  era * 146097 + doe - 719468.

(** The civil date of a day number. *)
Definition civilFromDays (z : Z) : Z * Z * Z :=
  let z' := z + 719468 in
  let era := z' / 146097 in
  let doe := z' mod 146097 in
  let yoe := (doe - doe / 1460 + doe / 36524 - doe / 146096) / 365 in
  let y := yoe + era * 400 in
  let doy := doe - daysBeforeYearOfEra yoe in
  let mp := (5 * doy + 2) / 153 in
  let d := doy - (153 * mp + 2) / 5 + 1 in
  let m := if mp <? 10 then mp + 3 else mp - 9 in
  (if m <=? 2 then y + 1 else y, m, d).

(** [time.Date(year, month, day, hour, min, sec, 0, loc)]: the month is
    normalised into the year; seconds, minutes, hours and days overflow
    linearly into the instant. *)
Definition Date (year month day hour min sec : Z) (loc : Z) : Z :=
  let m0 := month - 1 in
  let year' := year + m0 / 12 in
  let month' := m0 mod 12 + 1 in
  daysFromCivil year' month' day * secondsPerDay
  + hour * 3600 + min * 60 + sec - loc.

(** Day number and second of the day of an instant, on the wall clock of
    [loc]. *)
Definition localDay (t loc : Z) : Z := (t + loc) / secondsPerDay.
Definition localSecond (t loc : Z) : Z := (t + loc) mod secondsPerDay.

Definition Year (t loc : Z) : Z := fst (fst (civilFromDays (localDay t loc))).
Definition Month (t loc : Z) : Z := snd (fst (civilFromDays (localDay t loc))).
Definition Day (t loc : Z) : Z := snd (civilFromDays (localDay t loc)).
Definition Hour (t loc : Z) : Z := localSecond t loc / 3600.
Definition Minute (t loc : Z) : Z := (localSecond t loc mod 3600) / 60.
Definition Second (t loc : Z) : Z := localSecond t loc mod 60.

(** [t.AddDate(years, months, days)] *)
Definition AddDate (t loc : Z) (years months days : Z) : Z :=
  Date (Year t loc + years) (Month t loc + months) (Day t loc + days)
       (Hour t loc) (Minute t loc) (Second t loc) loc.

Definition isLeap (year : Z) : bool :=
  (year mod 4 =? 0) && (negb (year mod 100 =? 0) || (year mod 400 =? 0)).

Definition daysIn (month year : Z) : Z :=
  if month =? 2 then (if isLeap year then 29 else 28)
  else if (month =? 4) || (month =? 6) || (month =? 9) || (month =? 11) then 30
  else 31.

Definition isDigit (c : ascii) : bool := ((48 <=? byte c) && (byte c <=? 57))%N.
Definition digitVal (c : ascii) : Z := Z.of_N (byte c) - 48.

(** [time.ParseInLocation("20060102", value, loc)]: a four-digit year, a
    two-digit month and a two-digit day with nothing after them; the month
    must lie in 1..12 and the day in the month. *)
Definition ParseInLocation_20060102 (value : string) (loc : Z) : Result Z :=
  match value with
  | String y1 (String y2 (String y3 (String y4
      (String m1 (String m2 (String d1 (String d2 EmptyString))))))) =>
      if forallb isDigit [y1; y2; y3; y4; m1; m2; d1; d2] then
        let year := digitVal y1 * 1000 + digitVal y2 * 100 + digitVal y3 * 10 + digitVal y4 in
        let month := digitVal m1 * 10 + digitVal m2 in
        let day := digitVal d1 * 10 + digitVal d2 in
        if (month <=? 0) || (12 <? month) then Err "month out of range"
        else if (day <? 1) || (daysIn month year <? day) then Err "day out of range"
        else Ok (Date year month day 0 0 0 loc)
      else Err "cannot parse"
  | _ => Err "cannot parse"
  end.

(** [t.Format("2006/01/02")] *)
Definition Format_2006_01_02 (t loc : Z) : string :=
  Fmt.padZero 4 (Fmt.d (Year t loc)) ++ "/" ++ Fmt.padZero 2 (Fmt.d (Month t loc))
  ++ "/" ++ Fmt.padZero 2 (Fmt.d (Day t loc)).

End Time.

(** ** Package [sort] *)

Module Sort.

Section Stable.
Context {A : Type} (less : A -> A -> bool).

(** One pass of the library's insertion sort: the new element travels
    towards the front while it is [less] than its left neighbour. The
    prefix is held back to front, its last element first. *)
Fixpoint insertBack (x : A) (revPrefix : list A) : list A :=
  match revPrefix with
  | [] => [x]
  | y :: r => if less x y then y :: insertBack x r else x :: revPrefix
  end.

(** [sort.SliceStable]: the slice is sorted by stable insertion. The
    library sorts blocks of the slice by this insertion and merges them
    stably; the sorted arrangement that keeps equal elements in their order
    is unique (lemma [SliceStable_unique] below, for the comparison the
    program uses), so both give the same slice. *)
Definition SliceStable (l : list A) : list A :=
  rev (fold_left (fun acc x => insertBack x acc) l []).

End Stable.

End Sort.

(** ** The world the handlers run in *)

(** [append(slice, x)] *)
Definition sliceAppend {A} (slice : list A) (x : A) : list A := (slice ++ [x])%list.

(** The roster file [../.env] as [os.ReadFile] sees it. *)
Inductive FileState :=
| FileAbsent
| FileContent (content : string)
| FileUnreadable.

(** The effects of a handler: [time.Sleep(apiRequestDelay)], the five
    remote calls, and the messages sent or edited in the channel. Log
    lines are not recorded. *)
Inductive Event :=
| EvSleep
| EvAccount (gameName tagLine : string)
| EvSummoner (puuid : string)
| EvLeague (summonerID : string)
| EvMatchIDs (puuid : string) (startTime endTime queue count : Z)
| EvMatchDetails (matchID : string)
| EvSend (text : string)
| EvEdit (text : string).

(** The state a handler reads and writes: the global [lolPlayersEnv], the
    roster file and whether it can be written, the instant [time.Now()]
    returns, and the effects so far (oldest first). *)
Record World := {
  lolPlayersEnv : list string;
  envFile : FileState;
  envWritable : bool;
  clock : Z;
  trace : list Event
}.

Definition M (A : Type) : Type := World -> A * World.

Definition ret {A} (a : A) : M A := fun w => (a, w).

Definition bind {A B} (m : M A) (k : A -> M B) : M B :=
  fun w => let (a, w') := m w in k a w'.

Notation "'let*' x := m 'in' k" := (bind m (fun x => k))
  (at level 10, x name, m at level 100, k at level 200).
Notation "'exec' m 'in' k" := (bind m (fun _ => k))
  (at level 10, m at level 100, k at level 200).

Definition emit (e : Event) : M unit :=
  fun w => (tt, {| lolPlayersEnv := lolPlayersEnv w; envFile := envFile w;
                   envWritable := envWritable w; clock := clock w;
                   trace := trace w ++ [e] |}).

(** A [for ... range] loop threading the variables the body assigns. *)
Fixpoint forEach {A S} (l : list A) (body : S -> A -> M S) (s : S) : M S :=
  match l with
  | [] => ret s
  | x :: xs => let* s' := body s x in forEach xs body s'
  end.

(** [time.Sleep(apiRequestDelay)] *)
Definition sleepDelay : M unit := emit EvSleep.

(** [time.Now()] *)
Definition timeNow : M Z := fun w => (clock w, w).

(** A Go [error]: [None] is [nil]. *)
Definition error : Type := option string.

Inductive ReadResult :=
| ReadOk (content : string)
| ReadNotExist
| ReadFailed.

(** [os.ReadFile("../.env")] *)
Definition ReadFile : M ReadResult :=
  fun w => (match envFile w with
            | FileAbsent => ReadNotExist
            | FileContent c => ReadOk c
            | FileUnreadable => ReadFailed
            end, w).

(** [os.WriteFile("../.env", content, 0644)]: the write replaces the
    content, or fails and leaves the file as it was. *)
Definition WriteFile (content : string) : M error :=
  fun w => if envWritable w
           then (None, {| lolPlayersEnv := lolPlayersEnv w; envFile := FileContent content;
                          envWritable := envWritable w; clock := clock w;
                          trace := trace w |})
           else (Some "write failed", w).

Definition getPlayers : M (list string) := fun w => (lolPlayersEnv w, w).

(** [lolPlayersEnv = append(lolPlayersEnv, id)] *)
Definition appendPlayer (id : string) : M unit :=
  fun w => (tt, {| lolPlayersEnv := sliceAppend (lolPlayersEnv w) id; envFile := envFile w;
                   envWritable := envWritable w; clock := clock w;
                   trace := trace w |}).

Fixpoint findIndex {A} (p : A -> bool) (l : list A) : option nat :=
  match l with
  | [] => None
  | x :: xs => if p x then Some O else option_map S (findIndex p xs)
  end.

Definition lf : ascii := "010"%char.
Definition newline : string := String lf EmptyString.

(** Oracles used to evaluate the handlers on concrete inputs. *)
Module Sample.

Definition soloIronIV : LeagueEntryDTO :=
  {| QueueType := "RANKED_SOLO_5x5"; entry_Tier := "IRON"; entry_Rank := "IV";
     entry_LeaguePoints := 0; Wins := 3; Losses := 4 |}.

Definition account (gameName tagLine : string) : Result AccountDTO :=
  if String.eqb gameName "Ghost" then Err "Riot Account API returned status code: 404"
  else Ok {| acc_PUUID := "puuid-" ++ gameName; acc_GameName := gameName; acc_TagLine := tagLine |}.

Definition summoner (puuid : string) : Result SummonerDTO :=
  Ok {| sum_ID := "sid-" ++ puuid; sum_AccountID := ""; sum_PUUID := puuid; sum_Name := "" |}.

Definition league (summonerID : string) : Result (list LeagueEntryDTO) :=
  if String.eqb summonerID "sid-puuid-Ann"
  then Ok [ {| QueueType := "RANKED_FLEX_SR"; entry_Tier := "GOLD"; entry_Rank := "I";
               entry_LeaguePoints := 10; Wins := 1; Losses := 2 |};
            soloIronIV ]
  else Ok [].

Definition matchIDs (puuid : string) (startTime endTime queue count : Z) : Result (list string) :=
  Ok [ "JP1_1"; "JP1_2" ].

Definition matchDetails (matchID : string) : Result MatchDTO :=
  Ok {| GameCreation := 1704052800000; QueueID := 420;
        Participants := [ {| part_PUUID := "puuid-Ann"; Win := true |} ] |}.

Definition chat (text : string) : bool := true.

Definition same (s : string) : string := s.

Definition world (players : list string) (file : FileState) : World :=
  {| lolPlayersEnv := players; envFile := file; envWritable := true;
     clock := 1704052800; trace := [] |}.

(** A ranked-solo match inside the window of 2024-01-01 in which the
    queried player does not appear. *)
Definition strangerMatch : MatchDTO :=
  {| GameCreation := 1704060000000; QueueID := 420;
     Participants := [ {| part_PUUID := "puuid-Bob"; Win := true |} ] |}.

Definition readOnlyWorld (players : list string) (file : FileState) : World :=
  {| lolPlayersEnv := players; envFile := file; envWritable := false;
     clock := 1704052800; trace := [] |}.

End Sample.

(** ** The program *)

Section Bot.

(** Library functions whose result only ends up in rendered text, and the
    rune-wise fallback of [strings.ToUpper]. *)
Variable unicodeUpper : string -> string.
Variable ToLower : string -> string.
Variable Title : string -> string.
Variable PathEscape : string -> string.

(** The remote service: what each endpoint answers. *)
Variable remoteAccount : string -> string -> Result AccountDTO.
Variable remoteSummoner : string -> Result SummonerDTO.
Variable remoteLeague : string -> Result (list LeagueEntryDTO).
Variable remoteMatchIDs : string -> Z -> Z -> Z -> Z -> Result (list string).
Variable remoteMatchDetails : string -> Result MatchDTO.

(** The chat transport: whether a send or an edit of this text succeeds. *)
Variable chatSend : string -> bool.
Variable chatEdit : string -> bool.

(** *** [getRankValues] *)

Definition tierMap : gmap string Z :=
  list_to_map
    [ ("CHALLENGER", 10); ("GRANDMASTER", 9); ("MASTER", 8); ("DIAMOND", 7);
      ("EMERALD", 6); ("PLATINUM", 5); ("GOLD", 4); ("SILVER", 3);
      ("BRONZE", 2); ("IRON", 1); ("UNRANKED", 0) ].

Definition rankMap : gmap string Z :=
  list_to_map [ ("I", 4); ("II", 3); ("III", 2); ("IV", 1); ("", 0) ].

(** Indexing a Go map: the zero value when the key is absent. *)
Definition mapIndex (m : gmap string Z) (k : string) : Z := default 0 (m !! k).

Definition getRankValues (tier rank : string) : Z * Z :=
  (mapIndex tierMap (ToUpper unicodeUpper tier),
   mapIndex rankMap (ToUpper unicodeUpper rank)).

(** The known vocabulary, lowest first. *)
Definition tierVocabulary : list string :=
  [ "UNRANKED"; "IRON"; "BRONZE"; "SILVER"; "GOLD"; "PLATINUM"; "EMERALD";
    "DIAMOND"; "MASTER"; "GRANDMASTER"; "CHALLENGER" ].

Definition divisionVocabulary : list string := [ ""; "IV"; "III"; "II"; "I" ].

(** *** Remote calls and chat messages

    Each fetch function of the program builds a URL, sends one GET with
    the API token and a 10 s timeout, and returns an error on a transport
    failure, a status other than 200 or an undecodable body. That exchange
    is the oracle; the embedding records that the call was made and returns
    what the oracle answers. *)

Definition getAccountByRiotID (gameName tagLine : string) : M (Result AccountDTO) :=
  exec emit (EvAccount gameName tagLine) in ret (remoteAccount gameName tagLine).

Definition getSummonerByPUUID (puuid : string) : M (Result SummonerDTO) :=
  exec emit (EvSummoner puuid) in ret (remoteSummoner puuid).

Definition getLeagueEntriesBySummonerID (summonerID : string) : M (Result (list LeagueEntryDTO)) :=
  exec emit (EvLeague summonerID) in ret (remoteLeague summonerID).

Definition getMatchIDsByPUUIDInTimeRange (puuid : string) (startTimeUnix endTimeUnix queueID count : Z)
  : M (Result (list string)) :=
  exec emit (EvMatchIDs puuid startTimeUnix endTimeUnix queueID count) in
  ret (remoteMatchIDs puuid startTimeUnix endTimeUnix queueID count).

Definition getMatchDetails (matchID : string) : M (Result MatchDTO) :=
  exec emit (EvMatchDetails matchID) in ret (remoteMatchDetails matchID).

(** [s.ChannelMessageSend]; the result tells whether a message handle came
    back ([processingMsg != nil], [err == nil]). *)
Definition ChannelMessageSend (text : string) : M bool :=
  exec emit (EvSend text) in ret (chatSend text).

(** [s.ChannelMessageEdit]; the result is [err == nil]. *)
Definition ChannelMessageEdit (text : string) : M bool :=
  exec emit (EvEdit text) in ret (chatEdit text).

Definition send (text : string) : M unit :=
  exec ChannelMessageSend text in ret tt.

(** Edit the placeholder, send afresh when there is none or the edit fails. *)
Definition deliver (processingMsg : bool) (finalMessage : string) : M unit :=
  if processingMsg then
    let* ok := ChannelMessageEdit finalMessage in
    if ok then ret tt else send finalMessage
  else send finalMessage.

(** Edit the placeholder when there is one, send otherwise. *)
Definition report (processingMsg : bool) (msg : string) : M unit :=
  if processingMsg then exec ChannelMessageEdit msg in ret tt else send msg.

(** *** [!ranking] (lines 181-327 of [messageCreate]) *)

Definition soloQueue (entry : LeagueEntryDTO) : bool :=
  String.eqb (QueueType entry) "RANKED_SOLO_5x5".

Definition rankedInfo (rawSummonerName : string) (entry : LeagueEntryDTO) : PlayerRankInfo :=
  let (tierVal, rankVal) := getRankValues (entry_Tier entry) (entry_Rank entry) in
  {| RiotID := rawSummonerName; Tier := entry_Tier entry; Rank := entry_Rank entry;
     LeaguePoints := entry_LeaguePoints entry; TierValue := tierVal; RankValue := rankVal |}.

Definition unrankedInfo (rawSummonerName : string) : PlayerRankInfo :=
  {| RiotID := rawSummonerName; Tier := "UNRANKED"; Rank := ""; LeaguePoints := 0;
     TierValue := -1; RankValue := -1 |}.

(** The first ranked-solo entry, or the synthesized unranked record. *)
Definition playerInfo (rawSummonerName : string) (leagueEntries : list LeagueEntryDTO) : PlayerRankInfo :=
  match find soloQueue leagueEntries with
  | Some entry => rankedInfo rawSummonerName entry
  | None => unrankedInfo rawSummonerName
  end.

(** One iteration of the roster loop; returning [playerRanks] unchanged is
    the loop's [continue]. *)
Definition rankingBody (playerRanks : list PlayerRankInfo) (rawSummonerName : string)
  : M (list PlayerRankInfo) :=
  exec sleepDelay in
  let parts := Split rawSummonerName "#" in
  if negb (length parts =? 2)%nat then ret playerRanks
  else
    let gameName := nth 0 parts "" in
    let tagLine := nth 1 parts "" in
    let* account := getAccountByRiotID gameName tagLine in
    match account with
    | Err _ => ret playerRanks
    | Ok account =>
        exec sleepDelay in
        let* summoner := getSummonerByPUUID (acc_PUUID account) in
        match summoner with
        | Err _ => ret playerRanks
        | Ok summoner =>
            exec sleepDelay in
            let* leagueEntries := getLeagueEntriesBySummonerID (sum_ID summoner) in
            match leagueEntries with
            | Err _ => ret playerRanks
            | Ok leagueEntries =>
                ret (sliceAppend playerRanks (playerInfo rawSummonerName leagueEntries))
            end
        end
    end.

(** The comparison handed to [sort.SliceStable]. *)
Definition rankLess (a b : PlayerRankInfo) : bool :=
  if negb (TierValue a =? TierValue b) then TierValue b <? TierValue a
  else if negb (RankValue a =? RankValue b) then RankValue b <? RankValue a
  else LeaguePoints b <? LeaguePoints a.

Definition opggLinkOf (riotID : string) : string :=
  let riotIDParts := Split riotID "#" in
  if (length riotIDParts =? 2)%nat
  then "https://www.op.gg/summoners/jp/" ++ PathEscape (nth 0 riotIDParts "")
       ++ "-" ++ PathEscape (nth 1 riotIDParts "")
  else "".

Definition rankingLine (i : nat) (pr : PlayerRankInfo) : string :=
  let opggLink := opggLinkOf (RiotID pr) in
  let pos := Fmt.d (Z.of_nat i + 1) in
  if String.eqb (Tier pr) "UNRANKED" then
    if negb (String.eqb opggLink "")
    then "**" ++ pos ++ "位**： [`" ++ RiotID pr ++ "`](<" ++ opggLink ++ ">) (UNRANKED)"
    else "**" ++ pos ++ "位**： `" ++ RiotID pr ++ "` (UNRANKED)"
  else
    if negb (String.eqb opggLink "")
    then "**" ++ pos ++ "位**： [`" ++ RiotID pr ++ "`](<" ++ opggLink ++ ">) (**"
         ++ Title (ToLower (Tier pr)) ++ " " ++ Rank pr ++ "** " ++ Fmt.d (LeaguePoints pr) ++ "LP)"
    else "**" ++ pos ++ "位**： `" ++ RiotID pr ++ "` (**"
         ++ Title (ToLower (Tier pr)) ++ " " ++ Rank pr ++ "** " ++ Fmt.d (LeaguePoints pr) ++ "LP)".

Definition rankingTitle : string := "**LOLプレイヤーランキング** :trophy:".

(** [rankedMessages]: the title, then one line per sorted player. *)
Definition rankedMessages (playerRanks : list PlayerRankInfo) : list string :=
  rankingTitle :: imap rankingLine playerRanks.

Definition noRankDataMessage : string := "ランク情報を取得できるプレイヤーがいませんでした。".

Definition rankingCommand : M unit :=
  let* players := getPlayers in
  if (length players =? 0)%nat then send ".envにLOL_PLAYERSが設定されていません。"
  else
    let* processingMsg := ChannelMessageSend "ランキング集計中です。少々お待ちください... ⏳" in
    let* playerRanks := forEach players rankingBody [] in
    let playerRanks := Sort.SliceStable rankLess playerRanks in
    if (0 <? length playerRanks)%nat
    then deliver processingMsg (Join (rankedMessages playerRanks) newline)
    else deliver processingMsg noRankDataMessage.

(** *** [!rank] (lines 329-390 of [messageCreate]) *)

Definition soloRankText (rawSummonerName : string) (leagueEntries : list LeagueEntryDTO) : string :=
  let soloRankInfo :=
    match find soloQueue leagueEntries with
    | Some entry =>
        rawSummonerName ++ ": " ++ entry_Tier entry ++ " " ++ entry_Rank entry ++ " "
        ++ Fmt.d (entry_LeaguePoints entry) ++ "LP (" ++ Fmt.d (Wins entry) ++ "W/"
        ++ Fmt.d (Losses entry) ++ "L)"
    | None => ""
    end in
  if String.eqb soloRankInfo "" then rawSummonerName ++ ": ソロランク情報なし" else soloRankInfo.

Definition rankBody (rankInfos : list string) (rawSummonerName : string) : M (list string) :=
  exec sleepDelay in
  let parts := Split rawSummonerName "#" in
  if negb (length parts =? 2)%nat
  then ret (sliceAppend rankInfos (rawSummonerName ++ ": Riot IDの形式が正しくありません (例: GameName#TagLine)"))
  else
    let gameName := nth 0 parts "" in
    let tagLine := nth 1 parts "" in
    let* account := getAccountByRiotID gameName tagLine in
    match account with
    | Err _ => ret (sliceAppend rankInfos (rawSummonerName ++ ": アカウント情報を取得できませんでした。"))
    | Ok account =>
        exec sleepDelay in
        let* summoner := getSummonerByPUUID (acc_PUUID account) in
        match summoner with
        | Err _ => ret (sliceAppend rankInfos (rawSummonerName ++ ": サモナー情報を取得できませんでした。"))
        | Ok summoner =>
            exec sleepDelay in
            let* leagueEntries := getLeagueEntriesBySummonerID (sum_ID summoner) in
            match leagueEntries with
            | Err _ => ret (sliceAppend rankInfos (rawSummonerName ++ ": ランク情報を取得できませんでした。"))
            | Ok leagueEntries =>
                ret (sliceAppend rankInfos (soloRankText rawSummonerName leagueEntries))
            end
        end
    end.

Definition rankCommand (content : string) : M unit :=
  let args := Split content " " in
  if (length args <? 2)%nat
  then send "使用方法: !rank <サモナー名1> [サモナー名2] ..."
  else
    let summonerNames := tl args in
    let* rankInfos := forEach summonerNames rankBody [] in
    send (Join rankInfos newline).

(** *** The roster file *)

Definition keyLine (key value : string) : string := key ++ "=" ++ value.

(** [strings.HasPrefix(line, key+"=")] *)
Definition keyed (key : string) (line : string) : bool := HasPrefix line (key ++ "=").

(** The line surgery of [updateEnvFile] (lines 596-620). *)
Definition updateLines (key value : string) (lines : list string) : list string :=
  match findIndex (keyed key) lines with
  | Some i => <[i := keyLine key value]> lines
  | None =>
      if (0 <? length lines)%nat && String.eqb (List.last lines "x") ""
      then
        if (1 <? length lines)%nat
        then sliceAppend (<[(length lines - 1)%nat := keyLine key value]> lines) ""
        else sliceAppend (<[O := keyLine key value]> lines) ""
      else sliceAppend lines (keyLine key value)
  end.

Definition updateEnvFile (key value : string) : M error :=
  let* input := ReadFile in
  match input with
  | ReadNotExist => WriteFile (keyLine key value ++ newline)
  | ReadFailed => ret (Some "read failed")
  | ReadOk input =>
      let lines := updateLines key value (Split input lf) in
      let output := Join lines newline in
      let output := TrimRight output lf ++ newline in
      WriteFile output
  end.

(** [currentPlayers] as [addPlayerToEnvFile] reads it from the first
    [LOL_PLAYERS=] line (lines 642-656). *)
Definition currentPlayersOf (lines : list string) : list string :=
  match find (keyed "LOL_PLAYERS") lines with
  | Some line =>
      let parts := SplitN2 line "=" in
      if (length parts =? 2)%nat && negb (String.eqb (nth 1 parts "") "")
      then Split (nth 1 parts "") ","
      else []
  | None => []
  end.

Definition addPlayerToEnvFile (newPlayerRiotID : string) : M error :=
  let* input := ReadFile in
  match input with
  | ReadNotExist => updateEnvFile "LOL_PLAYERS" newPlayerRiotID
  | ReadFailed => ret (Some "failed to read .env file")
  | ReadOk input =>
      let lines := Split input lf in
      let currentPlayers := currentPlayersOf lines in
      if existsb (fun p => String.eqb p newPlayerRiotID) currentPlayers then ret None
      else
        let currentPlayers := sliceAppend currentPlayers newPlayerRiotID in
        let cleanedPlayers := List.filter (fun p => negb (String.eqb p "")) currentPlayers in
        updateEnvFile "LOL_PLAYERS" (Join cleanedPlayers ",")
  end.

(** *** [!add] (lines 391-430 of [messageCreate]) *)

Definition addedMessage (id : string) : string := "`" ++ id ++ "` をランキングリストに追加しました。".

Definition addCommand (content : string) : M unit :=
  let addSummonerRiotID := TrimSpace (TrimPrefix content "!add ") in
  if String.eqb addSummonerRiotID ""
  then send "追加するRiot IDを指定してください (例: !add GameName#TagLine)"
  else
    let parts := Split addSummonerRiotID "#" in
    if negb (length parts =? 2)%nat || String.eqb (nth 0 parts "") "" || String.eqb (nth 1 parts "") ""
    then send "Riot IDの形式が正しくありません (例: GameName#TagLine)"
    else
      let* players := getPlayers in
      if existsb (fun existingPlayer => String.eqb existingPlayer addSummonerRiotID) players
      then send ("`" ++ addSummonerRiotID ++ "` は既に追加されています。")
      else
        let* verified := getAccountByRiotID (nth 0 parts "") (nth 1 parts "") in
        match verified with
        | Err _ =>
            send ("`" ++ addSummonerRiotID
                  ++ "` のアカウント情報を確認できませんでした。Riot IDが正しいか確認してください。")
        | Ok _ =>
            let* err := addPlayerToEnvFile addSummonerRiotID in
            match err with
            | Some _ => send ("`" ++ addSummonerRiotID ++ "` の追加中にエラーが発生しました。")
            | None =>
                exec appendPlayer addSummonerRiotID in
                send (addedMessage addSummonerRiotID)
            end
        end.

(** *** [handleDayStatsCommand] *)

(** [targetDate] (lines 475-488): the wall-clock date the window is
    anchored to, or the parse error. *)
Definition targetDateOf (dateStr : string) (now : Z) : Result Z :=
  if String.eqb dateStr "" then
    if Time.Hour now Time.jst <? 5
    then Ok (Time.AddDate now Time.jst 0 0 (-1))
    else Ok now
  else Time.ParseInLocation_20060102 dateStr Time.jst.

(** [startTime] (line 491) *)
Definition startTimeOf (targetDate : Z) : Z :=
  Time.Date (Time.Year targetDate Time.jst) (Time.Month targetDate Time.jst)
            (Time.Day targetDate Time.jst) 5 0 0 Time.jst.

(** [endTime] (line 492) *)
Definition endTimeOf (startTime : Z) : Z := Time.AddDate startTime Time.jst 0 0 1.

(** The day window [(startTimeUnix, endTimeUnix)] of lines 471-495. *)
Definition dayWindow (dateStr : string) (now : Z) : Result (Z * Z) :=
  match targetDateOf dateStr now with
  | Err e => Err e
  | Ok targetDate =>
      let startTime := startTimeOf targetDate in
      Ok (startTime, endTimeOf startTime)
  end.

(** What one fetched match adds to [(wins, losses)] (lines 550-564). *)
Definition tallyMatch (puuid : string) (startTimeUnix endTimeUnix : Z)
    (matchDetails : MatchDTO) (tally : Z * Z) : Z * Z :=
  let matchTimeUnix := Z.quot (GameCreation matchDetails) 1000 in
  if (startTimeUnix <=? matchTimeUnix) && (matchTimeUnix <? endTimeUnix)
     && (QueueID matchDetails =? rankedSoloQueueID)
  then
    match find (fun p => String.eqb (part_PUUID p) puuid) (Participants matchDetails) with
    | Some p => if Win p then (fst tally + 1, snd tally) else (fst tally, snd tally + 1)
    | None => tally
    end
  else tally.

(** One iteration of the match loop (lines 542-565). *)
Definition tallyBody (puuid : string) (startTimeUnix endTimeUnix : Z)
    (tally : Z * Z) (matchID : string) : M (Z * Z) :=
  exec sleepDelay in
  let* matchDetails := getMatchDetails matchID in
  match matchDetails with
  | Err _ => ret tally
  | Ok matchDetails => ret (tallyMatch puuid startTimeUnix endTimeUnix matchDetails tally)
  end.

Definition windowText (startTime endTime : Z) (between : string) : string :=
  Time.Format_2006_01_02 startTime Time.jst ++ " AM5:00 " ++ between ++ " "
  ++ Time.Format_2006_01_02 endTime Time.jst ++ " AM5:00".

Definition dayStatsResult (riotID : string) (startTime endTime wins losses : Z) : string :=
  "`" ++ riotID ++ "` の " ++ windowText startTime endTime "～"
  ++ " のランク戦績 (ソロ/デュオ):" ++ newline ++ "**" ++ Fmt.d wins ++ "勝 " ++ Fmt.d losses ++ "敗**".

Definition handleDayStatsCommand (content : string) : M unit :=
  let args := Split content " " in
  if (length args <? 2)%nat
  then send "使用方法: !daystats <RiotID (GameName#TagLine)> [日付 YYYYMMDD]"
  else
    let riotID := nth 1 args "" in
    let dateStr := if (2 <? length args)%nat then nth 2 args "" else "" in
    let parts := Split riotID "#" in
    if negb (length parts =? 2)%nat || String.eqb (nth 0 parts "") "" || String.eqb (nth 1 parts "") ""
    then send ("`" ++ riotID ++ "` のRiot IDの形式が正しくありません (例: GameName#TagLine)")
    else
      let gameName := nth 0 parts "" in
      let tagLine := nth 1 parts "" in
      let* now := timeNow in
      match dayWindow dateStr now with
      | Err e =>
          send ("日付の形式が正しくありません。YYYYMMDD形式で指定してください (例: 20231027)。エラー: " ++ e)
      | Ok (startTime, endTime) =>
          let startTimeUnix := startTime in
          let endTimeUnix := endTime in
          let* processingMsg :=
            ChannelMessageSend ("`" ++ riotID ++ "` の " ++ windowText startTime endTime "～"
                                ++ " の戦績を集計中です... ⏳") in
          let* account := getAccountByRiotID gameName tagLine in
          match account with
          | Err e =>
              report processingMsg ("`" ++ riotID ++ "` のアカウント情報を取得できませんでした: " ++ e)
          | Ok account =>
              let* matchIDs :=
                getMatchIDsByPUUIDInTimeRange (acc_PUUID account) startTimeUnix endTimeUnix
                                              rankedSoloQueueID 100 in
              match matchIDs with
              | Err e =>
                  report processingMsg
                    ("`" ++ riotID ++ "` の試合履歴を取得できませんでした ("
                     ++ windowText startTime endTime "-" ++ "): " ++ e)
              | Ok matchIDs =>
                  if (length matchIDs =? 0)%nat
                  then report processingMsg
                         ("`" ++ riotID ++ "` は " ++ windowText startTime endTime "～"
                          ++ " の間にランク戦(ソロ/デュオ)をプレイしていません。")
                  else
                    let* tally :=
                      forEach matchIDs (tallyBody (acc_PUUID account) startTimeUnix endTimeUnix)
                              (0, 0) in
                    deliver processingMsg
                      (dayStatsResult riotID startTime endTime (fst tally) (snd tally))
              end
          end
      end.

(** *** [messageCreate] *)

Record Message := { authorIsSelf : bool; Content : string }.

Definition helpMessage : string :=
  "コマンド一覧:" ++ newline ++
  "```" ++ newline ++
  "!ranking                       : 登録プレイヤーのランキングを表示します。" ++ newline ++
  "!rank <RiotID> [RiotID2...]   : 指定したプレイヤーの現在のランク情報を表示します。" ++ newline ++
  "                                 RiotIDは GameName#TagLine の形式です。" ++ newline ++
  "!add <RiotID>                  : ランキング対象にプレイヤーを追加します。" ++ newline ++
  "                                 RiotIDは GameName#TagLine の形式です。" ++ newline ++
  "!daystats <RiotID> [日付]      : 指定したプレイヤーの特定日の戦績(AM5時～翌AM5時)を表示します。" ++ newline ++
  "                                 RiotIDは GameName#TagLine の形式です。" ++ newline ++
  "                                 日付は YYYYMMDD 形式で指定します (例: 20231027)。" ++ newline ++
  "                                 日付を省略した場合は実行日の戦績を表示します。" ++ newline ++
  "```".

Definition messageCreate (m : Message) : M unit :=
  if authorIsSelf m then ret tt
  else if String.eqb (Content m) "!ranking" then rankingCommand
  else if HasPrefix (Content m) "!rank" then rankCommand (Content m)
  else if HasPrefix (Content m) "!add " then addCommand (Content m)
  else if HasPrefix (Content m) "!daystats " then handleDayStatsCommand (Content m)
  else if String.eqb (Content m) "!help" then send helpMessage
  else ret tt.

(** *** Vocabulary of the properties *)

(** The sort key of a player and its lexicographic order. *)
Definition sortKey (p : PlayerRankInfo) : Z * Z * Z :=
  (TierValue p, RankValue p, LeaguePoints p).

Definition keyLt (k1 k2 : Z * Z * Z) : Prop :=
  let '(t1, r1, p1) := k1 in
  let '(t2, r2, p2) := k2 in
  t1 < t2 \/ (t1 = t2 /\ (r1 < r2 \/ (r1 = r2 /\ p1 < p2))).

Definition keyLe (k1 k2 : Z * Z * Z) : Prop := keyLt k1 k2 \/ k1 = k2.

Definition keyEqb (k1 k2 : Z * Z * Z) : bool :=
  let '(t1, r1, p1) := k1 in
  let '(t2, r2, p2) := k2 in
  (t1 =? t2) && (r1 =? r2) && (p1 =? p2).

(** The three resolutions of a roster member, chained as the loop body
    chains them. *)
Definition wellFormed (rawSummonerName : string) : bool :=
  (length (Split rawSummonerName "#") =? 2)%nat.

Definition accountOf (rawSummonerName : string) : Result AccountDTO :=
  let parts := Split rawSummonerName "#" in
  remoteAccount (nth 0 parts "") (nth 1 parts "").

Definition summonerOf (rawSummonerName : string) : Result SummonerDTO :=
  match accountOf rawSummonerName with
  | Err e => Err e
  | Ok account => remoteSummoner (acc_PUUID account)
  end.

Definition leagueOf (rawSummonerName : string) : Result (list LeagueEntryDTO) :=
  match summonerOf rawSummonerName with
  | Err e => Err e
  | Ok summoner => remoteLeague (sum_ID summoner)
  end.

(** What a roster member adds to [playerRanks]. *)
Definition contribution (rawSummonerName : string) : list PlayerRankInfo :=
  if wellFormed rawSummonerName then
    match leagueOf rawSummonerName with
    | Ok leagueEntries => [playerInfo rawSummonerName leagueEntries]
    | Err _ => []
    end
  else [].

(** The effects of one iteration of the roster loop. *)
Definition playerEvents (rawSummonerName : string) : list Event :=
  let parts := Split rawSummonerName "#" in
  if wellFormed rawSummonerName then
    EvSleep :: EvAccount (nth 0 parts "") (nth 1 parts "") ::
    match accountOf rawSummonerName with
    | Err _ => []
    | Ok account =>
        EvSleep :: EvSummoner (acc_PUUID account) ::
        match summonerOf rawSummonerName with
        | Err _ => []
        | Ok summoner => [EvSleep; EvLeague (sum_ID summoner)]
        end
    end
  else [EvSleep].

Definition addTrace (events : list Event) (w : World) : World :=
  {| lolPlayersEnv := lolPlayersEnv w; envFile := envFile w;
     envWritable := envWritable w; clock := clock w;
     trace := (trace w ++ events)%list |}.

Definition isRemoteCall (e : Event) : bool :=
  match e with
  | EvAccount _ _ | EvSummoner _ | EvLeague _ | EvMatchIDs _ _ _ _ _ | EvMatchDetails _ => true
  | _ => false
  end.


Definition isSleep (e : Event) : bool :=
  match e with EvSleep => true | _ => false end.



(** A roster member whose account call is made and fails, and one that
    comes through all three resolutions. *)
Definition failsAccount (rawSummonerName : string) : bool :=
  wellFormed rawSummonerName && isErr (accountOf rawSummonerName).

Definition resolves (rawSummonerName : string) : bool :=
  wellFormed rawSummonerName && negb (isErr (leagueOf rawSummonerName)).

(** The chat events of [deliver] and [report]. *)
Definition deliverEvents (processingMsg : bool) (finalMessage : string) : list Event :=
  if processingMsg then
    if chatEdit finalMessage then [EvEdit finalMessage]
    else [EvEdit finalMessage; EvSend finalMessage]
  else [EvSend finalMessage].

Definition reportEvents (processingMsg : bool) (msg : string) : list Event :=
  if processingMsg then [EvEdit msg] else [EvSend msg].

Definition isAccountCall (e : Event) : bool :=
  match e with EvAccount _ _ => true | _ => false end.

Definition accountCall (rawSummonerName : string) : Event :=
  EvAccount (nth 0 (Split rawSummonerName "#") "") (nth 1 (Split rawSummonerName "#") "").

(** What one iteration of the match loop does to the tally, and its
    effects. *)
Definition tallyStep (puuid : string) (startTimeUnix endTimeUnix : Z)
    (tally : Z * Z) (matchID : string) : Z * Z :=
  match remoteMatchDetails matchID with
  | Ok matchDetails => tallyMatch puuid startTimeUnix endTimeUnix matchDetails tally
  | Err _ => tally
  end.

Definition matchEvents (matchID : string) : list Event := [EvSleep; EvMatchDetails matchID].

(** The window test of line 553 on the creation time in milliseconds. *)
Definition inWindow (startTimeUnix endTimeUnix : Z) (matchDetails : MatchDTO) : Prop :=
  startTimeUnix <= Z.quot (GameCreation matchDetails) 1000 < endTimeUnix.

(** Whether a byte occurs in a string. *)
Fixpoint containsByte (c : ascii) (s : string) : bool :=
  match s with
  | EmptyString => false
  | String a s' => Ascii.eqb a c || containsByte c s'
  end.

(** The lines of a file without the blank lines at its end. *)
Fixpoint dropTrailingBlank (lines : list string) : list string :=
  match lines with
  | [] => []
  | l :: rest =>
      match dropTrailingBlank rest with
      | [] => if String.eqb l "" then [] else [l]
      | r => l :: r
      end
  end.


(** The players listed in the roster file. *)
Definition playersOfFile (file : FileState) : list string :=
  match file with
  | FileContent content => currentPlayersOf (Split content lf)
  | _ => []
  end.

(** The identity [!add] works on, and the guards that end the command
    before anything is persisted: empty or malformed identity, identity
    already in memory, failed verification. *)
Definition addedIdentity (content : string) : string :=
  TrimSpace (TrimPrefix content "!add ").

Definition addRejected (content : string) (players : list string) : bool :=
  let id := addedIdentity content in
  let parts := Split id "#" in
  String.eqb id ""
  || (negb (length parts =? 2)%nat || String.eqb (nth 0 parts "") ""
      || String.eqb (nth 1 parts "") "")
  || existsb (fun existingPlayer => String.eqb existingPlayer id) players
  || isErr (remoteAccount (nth 0 parts "") (nth 1 parts "")).

(** The roster: the in-memory list and the file. *)
Definition roster (w : World) : list string * FileState := (lolPlayersEnv w, envFile w).

Definition withFile (file : FileState) (w : World) : World :=
  {| lolPlayersEnv := lolPlayersEnv w; envFile := file;
     envWritable := envWritable w; clock := clock w; trace := trace w |}.

Definition nonBlank (p : string) : bool := negb (String.eqb p "").

(** A name that can stand as one element of the comma-separated list on
    one line of the file. *)
Definition listable (p : string) : bool :=
  nonBlank p && negb (containsByte "," p) && negb (containsByte lf p).

(** The chat messages among the events, and the text of one. *)
Definition isChat (e : Event) : bool :=
  match e with EvSend _ | EvEdit _ => true | _ => false end.

Definition chatText (e : Event) : option string :=
  match e with EvSend text | EvEdit text => Some text | _ => None end.

(** The last event of a run. *)
Definition finalEvent (events : list Event) : option Event :=
  match rev events with e :: _ => Some e | [] => None end.

(** What [!rank] answers for one argument. *)
Definition rankInfoOf (rawSummonerName : string) : string :=
  if wellFormed rawSummonerName then
    match accountOf rawSummonerName with
    | Err _ => rawSummonerName ++ ": アカウント情報を取得できませんでした。"
    | Ok _ =>
        match summonerOf rawSummonerName with
        | Err _ => rawSummonerName ++ ": サモナー情報を取得できませんでした。"
        | Ok _ =>
            match leagueOf rawSummonerName with
            | Err _ => rawSummonerName ++ ": ランク情報を取得できませんでした。"
            | Ok leagueEntries => soloRankText rawSummonerName leagueEntries
            end
        end
    end
  else rawSummonerName ++ ": Riot IDの形式が正しくありません (例: GameName#TagLine)".

(** The identity check shared by [!add] (lines 398-402) and
    [handleDayStatsCommand] (lines 463-467): a GameName#TagLine pair with
    both parts non-empty; [!add] also refuses the empty identity first. *)
Definition validIdentity (id : string) : bool :=
  let parts := Split id "#" in
  negb (negb (length parts =? 2)%nat || String.eqb (nth 0 parts "") ""
        || String.eqb (nth 1 parts "") "").

(** The arguments of [!daystats] (lines 458-461) and its placeholder text. *)
Definition statsIdentity (content : string) : string := nth 1 (Split content " ") "".

Definition statsDate (content : string) : string :=
  if (2 <? length (Split content " "))%nat then nth 2 (Split content " ") "" else "".

Definition statsProcessing (riotID : string) (startTime endTime : Z) : string :=
  "`" ++ riotID ++ "` の " ++ windowText startTime endTime "～" ++ " の戦績を集計中です... ⏳".

(** What a listed match is for the tally: a win, a loss, or nothing (fetch
    failed, outside the window, another queue, player not among the
    participants). *)
Definition matchOutcome (puuid : string) (startTimeUnix endTimeUnix : Z) (matchID : string)
  : option bool :=
  match remoteMatchDetails matchID with
  | Err _ => None
  | Ok matchDetails =>
      let matchTimeUnix := Z.quot (GameCreation matchDetails) 1000 in
      if (startTimeUnix <=? matchTimeUnix) && (matchTimeUnix <? endTimeUnix)
         && (QueueID matchDetails =? rankedSoloQueueID)
      then option_map Win
             (find (fun p => String.eqb (part_PUUID p) puuid) (Participants matchDetails))
      else None
  end.

Definition isWin (o : option bool) : bool := match o with Some true => true | _ => false end.
Definition isLoss (o : option bool) : bool := match o with Some false => true | _ => false end.

(** The lines [updateEnvFile] leaves in the file, without the final line
    feed. *)
Definition writtenLines (key value : string) (file : FileState) : list string :=
  match file with
  | FileContent input => dropTrailingBlank (updateLines key value (Split input lf))
  | _ => [keyLine key value]
  end.

(** The messages [messageCreate] reacts to (lines 181, 329, 391, 432, 434),
    and whether a run ends with a chat message. *)
Definition isCommand (content : string) : bool :=
  String.eqb content "!ranking" || HasPrefix content "!rank" || HasPrefix content "!add "
  || HasPrefix content "!daystats " || String.eqb content "!help".

Definition answered (events : list Event) : bool :=
  match finalEvent events with Some e => isChat e | None => false end.

(** The decimal digits, and the number a string of digits denotes. *)
Definition digitChars : list ascii :=
  ["0"; "1"; "2"; "3"; "4"; "5"; "6"; "7"; "8"; "9"]%char.

Fixpoint decimalFrom (acc : Z) (s : string) : Z :=
  match s with
  | EmptyString => acc
  | String c s' => decimalFrom (acc * 10 + Time.digitVal c) s'
  end.

Definition decimalOf (s : string) : Z := decimalFrom 0 s.

(** ** Properties *)

Local Open Scope list_scope.

(** *** The rank ordering model *)

Lemma isASCIIByte_upper c : isASCIIByte (upperByte c) = isASCIIByte c.
Proof. destruct c as [[] [] [] [] [] [] [] []]; reflexivity. Qed.

Lemma EqualFold_upper a b :
  EqualFold a b = true ->
  isASCII a = isASCII b /\ mapBytes upperByte a = mapBytes upperByte b.
Proof.
  revert b. induction a as [|x a IH]; intros [|y b] H; simpl in H; try discriminate.
  - split; reflexivity.
  - apply andb_true_iff in H as [Hxy Hab].
    apply Ascii.eqb_eq in Hxy. destruct (IH b Hab) as [Hasc Hup].
    split.
    + unfold isASCII in *. simpl. rewrite Hasc. f_equal.
      rewrite <- (isASCIIByte_upper x), <- (isASCIIByte_upper y), Hxy. reflexivity.
    + simpl. rewrite Hxy, Hup. reflexivity.
Qed.

Lemma ToUpper_fold a b :
  EqualFold a b = true -> isASCII a = true ->
  ToUpper unicodeUpper a = ToUpper unicodeUpper b.
Proof.
  intros H Ha. destruct (EqualFold_upper a b H) as [Hasc Hup].
  unfold ToUpper. rewrite <- Hasc, Ha. exact Hup.
Qed.

Lemma tierVocabulary_values rank :
  map (fun tier => fst (getRankValues tier rank)) tierVocabulary
  = [0; 1; 2; 3; 4; 5; 6; 7; 8; 9; 10].
Proof. vm_compute. reflexivity. Qed.

Lemma divisionVocabulary_values tier :
  map (fun rank => snd (getRankValues tier rank)) divisionVocabulary = [0; 1; 2; 3; 4].
Proof. vm_compute. reflexivity. Qed.

Lemma tierVocabulary_ordinal i a rank :
  tierVocabulary !! i = Some a -> fst (getRankValues a rank) = Z.of_nat i.
Proof.
  intros H.
  pose proof (tierVocabulary_values rank) as Hv.
  apply (f_equal (fun l => l !! i)) in Hv.
  rewrite list_lookup_fmap, H in Hv.
  do 11 (destruct i as [|i]; [injection Hv as Hv; exact Hv|]).
  discriminate Hv.
Qed.

Lemma divisionVocabulary_ordinal i a tier :
  divisionVocabulary !! i = Some a -> snd (getRankValues tier a) = Z.of_nat i.
Proof.
  intros H.
  pose proof (divisionVocabulary_values tier) as Hv.
  apply (f_equal (fun l => l !! i)) in Hv.
  rewrite list_lookup_fmap, H in Hv.
  do 5 (destruct i as [|i]; [injection Hv as Hv; exact Hv|]).
  discriminate Hv.
Qed.

Lemma vocabulary_isASCII a :
  a ∈ tierVocabulary ++ divisionVocabulary -> isASCII a = true.
Proof.
  intros H. unfold tierVocabulary, divisionVocabulary in H. simpl in H.
  repeat (apply elem_of_cons in H as [-> | H]; [reflexivity|]).
  inversion H.
Qed.

Lemma tierMap_unknown k : k ∉ tierVocabulary -> mapIndex tierMap k = 0.
Proof.
  intros H. unfold mapIndex, tierMap.
  rewrite (proj1 (not_elem_of_list_to_map _ _)); [reflexivity|].
  intros Hin. apply H. simpl in Hin. unfold tierVocabulary.
  repeat (apply elem_of_cons in Hin as [-> | Hin]; [set_solver|]).
  inversion Hin.
Qed.

Lemma rankMap_unknown k : k ∉ divisionVocabulary -> mapIndex rankMap k = 0.
Proof.
  intros H. unfold mapIndex, rankMap.
  rewrite (proj1 (not_elem_of_list_to_map _ _)); [reflexivity|].
  intros Hin. apply H. simpl in Hin. unfold divisionVocabulary.
  repeat (apply elem_of_cons in Hin as [-> | Hin]; [set_solver|]).
  inversion Hin.
Qed.

(** C4. The ordinal mapping ignores the case of its (ASCII) labels, is
    strictly increasing along the known vocabulary
    UNRANKED < IRON < ... < CHALLENGER (values 0..10) and
    empty < IV < III < II < I (values 0..4), in any casing, and sends a
    label whose upper-cased form is outside the vocabulary to 0. *)
Theorem getRankValues_ordinals :
  (forall tier tier' rank rank',
      isASCII tier = true -> isASCII rank = true ->
      EqualFold tier tier' = true -> EqualFold rank rank' = true ->
      getRankValues tier rank = getRankValues tier' rank')
  /\ (forall rank, map (fun tier => fst (getRankValues tier rank)) tierVocabulary
                   = [0; 1; 2; 3; 4; 5; 6; 7; 8; 9; 10])
  /\ (forall tier, map (fun rank => snd (getRankValues tier rank)) divisionVocabulary
                   = [0; 1; 2; 3; 4])
  /\ (forall i j a b tier tier' rank rank',
         tierVocabulary !! i = Some a -> tierVocabulary !! j = Some b -> (i < j)%nat ->
         EqualFold a tier = true -> EqualFold b tier' = true ->
         fst (getRankValues tier rank) < fst (getRankValues tier' rank'))
  /\ (forall i j a b tier tier' rank rank',
         divisionVocabulary !! i = Some a -> divisionVocabulary !! j = Some b -> (i < j)%nat ->
         EqualFold a rank = true -> EqualFold b rank' = true ->
         snd (getRankValues tier rank) < snd (getRankValues tier' rank'))
  /\ (forall tier rank,
         ToUpper unicodeUpper tier ∉ tierVocabulary -> fst (getRankValues tier rank) = 0)
  /\ (forall tier rank,
         ToUpper unicodeUpper rank ∉ divisionVocabulary -> snd (getRankValues tier rank) = 0).
Proof.
  split; [|split; [|split; [|split; [|split; [|split]]]]].
  - intros tier tier' rank rank' Ht Hr Ht' Hr'. unfold getRankValues.
    rewrite (ToUpper_fold _ _ Ht' Ht), (ToUpper_fold _ _ Hr' Hr). reflexivity.
  - exact tierVocabulary_values.
  - exact divisionVocabulary_values.
  - intros i j a b tier tier' rank rank' Hi Hj Hlt Ha Hb.
    assert (Haa : isASCII a = true).
    { apply vocabulary_isASCII, elem_of_app. left. eapply list_elem_of_lookup_2, Hi. }
    assert (Hba : isASCII b = true).
    { apply vocabulary_isASCII, elem_of_app. left. eapply list_elem_of_lookup_2, Hj. }
    pose proof (tierVocabulary_ordinal i a rank Hi) as Hai.
    pose proof (tierVocabulary_ordinal j b rank' Hj) as Hbj.
    unfold getRankValues in *. cbn [fst snd] in *.
    rewrite <- (ToUpper_fold _ _ Ha Haa), <- (ToUpper_fold _ _ Hb Hba). lia.
  - intros i j a b tier tier' rank rank' Hi Hj Hlt Ha Hb.
    assert (Haa : isASCII a = true).
    { apply vocabulary_isASCII, elem_of_app. right. eapply list_elem_of_lookup_2, Hi. }
    assert (Hba : isASCII b = true).
    { apply vocabulary_isASCII, elem_of_app. right. eapply list_elem_of_lookup_2, Hj. }
    pose proof (divisionVocabulary_ordinal i a tier Hi) as Hai.
    pose proof (divisionVocabulary_ordinal j b tier' Hj) as Hbj.
    unfold getRankValues in *. cbn [fst snd] in *.
    rewrite <- (ToUpper_fold _ _ Ha Haa), <- (ToUpper_fold _ _ Hb Hba). lia.
  - intros tier rank H. apply tierMap_unknown, H.
  - intros tier rank H. apply rankMap_unknown, H.
Qed.

(** *** Stable insertion *)

Section SortFacts.
Context {A : Type} (less : A -> A -> bool).

Lemma insertBack_perm x r : Permutation (Sort.insertBack less x r) (x :: r).
Proof.
  induction r as [|y r IH]; simpl; [reflexivity|].
  destruct (less x y); [|reflexivity].
  rewrite IH. apply perm_swap.
Qed.

Lemma fold_insertBack_perm l acc :
  Permutation (fold_left (fun acc x => Sort.insertBack less x acc) l acc) (rev l ++ acc).
Proof.
  revert acc. induction l as [|x l IH]; intros acc; simpl; [reflexivity|].
  rewrite IH, insertBack_perm, <- app_assoc. simpl.
  apply Permutation_app_head. reflexivity.
Qed.

Lemma SliceStable_perm l : Permutation (Sort.SliceStable less l) l.
Proof.
  unfold Sort.SliceStable.
  rewrite <- Permutation_rev, fold_insertBack_perm, app_nil_r, <- Permutation_rev.
  reflexivity.
Qed.

(** Elements that are pairwise not [less] than one another are never
    swapped. *)
Lemma insertBack_filter (p : A -> bool) x r :
  (forall a b, p a = true -> p b = true -> less a b = false) ->
  List.filter p (Sort.insertBack less x r) = List.filter p (x :: r).
Proof.
  intros Hp. induction r as [|y r IH]; [reflexivity|].
  simpl Sort.insertBack. destruct (less x y) eqn:Hxy; [|reflexivity].
  change (List.filter p (y :: Sort.insertBack less x r))
    with (if p y then y :: List.filter p (Sort.insertBack less x r)
          else List.filter p (Sort.insertBack less x r)).
  rewrite IH. simpl.
  destruct (p x) eqn:Hx, (p y) eqn:Hy; try reflexivity.
  rewrite (Hp x y Hx Hy) in Hxy. discriminate.
Qed.

Lemma fold_insertBack_filter (p : A -> bool) l acc :
  (forall a b, p a = true -> p b = true -> less a b = false) ->
  List.filter p (fold_left (fun acc x => Sort.insertBack less x acc) l acc)
  = rev (List.filter p l) ++ List.filter p acc.
Proof.
  intros Hp. revert acc. induction l as [|x l IH]; intros acc; [reflexivity|].
  simpl fold_left. rewrite IH, (insertBack_filter p x acc Hp). simpl.
  destruct (p x); simpl; [rewrite <- app_assoc|]; reflexivity.
Qed.

Lemma SliceStable_filter (p : A -> bool) l :
  (forall a b, p a = true -> p b = true -> less a b = false) ->
  List.filter p (Sort.SliceStable less l) = List.filter p l.
Proof.
  intros Hp. unfold Sort.SliceStable.
  rewrite <- (rev_involutive (List.filter p (rev _))), <- List.filter_rev, rev_involutive.
  rewrite (fold_insertBack_filter p l [] Hp), app_nil_r. apply rev_involutive.
Qed.

Hypothesis less_asym : forall a b, less a b = true -> less b a = false.
Hypothesis less_negtrans :
  forall a b c, less a b = false -> less b c = false -> less a c = false.

(** The prefix held back to front: no element is [less] than one that
    entered before it. *)
Definition backSorted (r : list A) : Prop :=
  StronglySorted (fun later earlier => less later earlier = false) r.

Lemma insertBack_sorted x r : backSorted r -> backSorted (Sort.insertBack less x r).
Proof.
  unfold backSorted. induction 1 as [|y r Hr IH Hy]; simpl.
  - constructor; constructor.
  - destruct (less x y) eqn:Hxy.
    + constructor; [exact IH|].
      apply List.Forall_forall. intros z Hz.
      apply (Permutation_in _ (insertBack_perm x r)) in Hz.
      destruct Hz as [<- | Hz]; [apply less_asym, Hxy|].
      rewrite List.Forall_forall in Hy. apply Hy, Hz.
    + constructor; [constructor; assumption|].
      constructor; [exact Hxy|].
      rewrite List.Forall_forall in Hy |- *. intros z Hz.
      apply (less_negtrans x y z Hxy). apply Hy, Hz.
Qed.

Lemma fold_insertBack_sorted l acc :
  backSorted acc -> backSorted (fold_left (fun acc x => Sort.insertBack less x acc) l acc).
Proof.
  revert acc. induction l as [|x l IH]; intros acc H; simpl; [exact H|].
  apply IH, insertBack_sorted, H.
Qed.

Lemma StronglySorted_snoc (R : A -> A -> Prop) l x :
  StronglySorted R l -> List.Forall (fun y => R y x) l -> StronglySorted R (l ++ [x]).
Proof.
  induction 1 as [|y l Hl IH Hy]; intros Hx; simpl.
  - constructor; constructor.
  - inversion Hx as [|? ? Hyx Hlx]; subst.
    constructor; [apply IH, Hlx|].
    apply Forall_app. split; [exact Hy|]. constructor; [exact Hyx|constructor].
Qed.

Lemma StronglySorted_rev (R : A -> A -> Prop) l :
  StronglySorted R l -> StronglySorted (fun a b => R b a) (rev l).
Proof.
  induction 1 as [|x l Hl IH Hx]; simpl; [constructor|].
  apply StronglySorted_snoc; [exact IH|].
  apply List.Forall_forall. intros y Hy. apply in_rev in Hy.
  rewrite List.Forall_forall in Hx. apply Hx, Hy.
Qed.

(** In the sorted slice no element is [less] than one placed before it. *)
Lemma SliceStable_sorted l :
  StronglySorted (fun a b => less b a = false) (Sort.SliceStable less l).
Proof.
  unfold Sort.SliceStable.
  apply (StronglySorted_rev (fun later earlier => less later earlier = false)).
  apply fold_insertBack_sorted. constructor.
Qed.

Lemma StronglySorted_lookup (R : A -> A -> Prop) (l : list A) i j a b :
  StronglySorted R l -> l !! i = Some a -> l !! j = Some b -> (i < j)%nat -> R a b.
Proof.
  intros H. revert i j. induction H as [|x l Hl IH Hx]; intros i j Hi Hj Hlt.
  - discriminate Hi.
  - destruct j as [|j]; [lia|]. destruct i as [|i].
    + injection Hi as <-. simpl in Hj.
      rewrite List.Forall_forall in Hx. apply Hx.
      apply list_elem_of_In. eapply list_elem_of_lookup_2, Hj.
    + simpl in Hi, Hj. apply (IH i j Hi Hj). lia.
Qed.

End SortFacts.

Set Default Proof Using "Type".

(** *** The leaderboard comparison *)

Lemma rankLess_spec a b : rankLess a b = true <-> keyLt (sortKey b) (sortKey a).
Proof.
  unfold rankLess, keyLt, sortKey.
  destruct (Z.eqb_spec (TierValue a) (TierValue b)) as [Ht|Ht]; simpl.
  - destruct (Z.eqb_spec (RankValue a) (RankValue b)) as [Hr|Hr]; simpl;
      rewrite Z.ltb_lt; lia.
  - rewrite Z.ltb_lt; lia.
Qed.

Lemma rankLess_false a b : rankLess a b = false <-> keyLe (sortKey a) (sortKey b).
Proof.
  rewrite <- not_true_iff_false, rankLess_spec.
  unfold keyLe, keyLt, sortKey. split.
  - intros H.
    destruct (Z.lt_trichotomy (TierValue a) (TierValue b)) as [?|[?|?]];
    destruct (Z.lt_trichotomy (RankValue a) (RankValue b)) as [?|[?|?]];
    destruct (Z.lt_trichotomy (LeaguePoints a) (LeaguePoints b)) as [?|[?|?]];
      try (left; lia); try (exfalso; apply H; lia).
    right. congruence.
  - intros [H|H]; [lia|]. injection H as Ht Hr Hp. lia.
Qed.

Lemma rankLess_asym a b : rankLess a b = true -> rankLess b a = false.
Proof.
  rewrite rankLess_spec, rankLess_false. unfold keyLe. intros H. left. exact H.
Qed.

Lemma rankLess_negtrans a b c :
  rankLess a b = false -> rankLess b c = false -> rankLess a c = false.
Proof.
  rewrite !rankLess_false. unfold keyLe, keyLt, sortKey.
  intros [H1|H1] [H2|H2].
  - left. lia.
  - left. injection H2 as <- <- <-. exact H1.
  - left. injection H1 as -> -> ->. exact H2.
  - right. congruence.
Qed.

Lemma keyEqb_eq k1 k2 : keyEqb k1 k2 = true <-> k1 = k2.
Proof.
  destruct k1 as [[t1 r1] p1], k2 as [[t2 r2] p2]. unfold keyEqb.
  rewrite !andb_true_iff, !Z.eqb_eq. split.
  - intros [[-> ->] ->]. reflexivity.
  - intros H. injection H as -> -> ->. auto.
Qed.

Lemma keyLe_antisym k1 k2 : keyLe k1 k2 -> keyLe k2 k1 -> k1 = k2.
Proof.
  destruct k1 as [[t1 r1] p1], k2 as [[t2 r2] p2]. unfold keyLe, keyLt.
  intros [H1|H1] [H2|H2]; try congruence. exfalso. lia.
Qed.

Lemma sorted_head_max (x : PlayerRankInfo) l y :
  StronglySorted (fun a b => rankLess b a = false) (x :: l) -> In y (x :: l) ->
  keyLe (sortKey y) (sortKey x).
Proof.
  intros Hs [<-|Hy]; [right; reflexivity|].
  apply StronglySorted_inv in Hs as [_ Hx]. rewrite List.Forall_forall in Hx.
  apply rankLess_false, Hx, Hy.
Qed.

Lemma filter_key_head (x : PlayerRankInfo) l :
  List.filter (fun p => keyEqb (sortKey p) (sortKey x)) (x :: l)
  = x :: List.filter (fun p => keyEqb (sortKey p) (sortKey x)) l.
Proof. cbn [List.filter]. rewrite (proj2 (keyEqb_eq _ _) eq_refl). reflexivity. Qed.

(** A sorted arrangement that keeps the players of every key in a given
    order is determined by these orders: whatever stable sort the library
    runs, it returns what [Sort.SliceStable] returns. *)
Lemma sorted_stable_unique (l1 l2 : list PlayerRankInfo) :
  StronglySorted (fun a b => rankLess b a = false) l1 ->
  StronglySorted (fun a b => rankLess b a = false) l2 ->
  (forall k, List.filter (fun p => keyEqb (sortKey p) k) l1
             = List.filter (fun p => keyEqb (sortKey p) k) l2) ->
  l1 = l2.
Proof.
  revert l2. induction l1 as [|x t1 IH]; intros l2 Hs1 Hs2 Hf.
  - destruct l2 as [|y t2]; [reflexivity|].
    specialize (Hf (sortKey y)). rewrite filter_key_head in Hf. discriminate Hf.
  - destruct l2 as [|y t2].
    { specialize (Hf (sortKey x)). rewrite filter_key_head in Hf. discriminate Hf. }
    assert (Hxy : In x (y :: t2)).
    { pose proof (Hf (sortKey x)) as H. rewrite filter_key_head in H.
      assert (Hin : In x (List.filter (fun p => keyEqb (sortKey p) (sortKey x)) (y :: t2)))
        by (rewrite <- H; left; reflexivity).
      apply List.filter_In in Hin as [Hin _]. exact Hin. }
    assert (Hyx : In y (x :: t1)).
    { pose proof (Hf (sortKey y)) as H. rewrite (filter_key_head y) in H.
      assert (Hin : In y (List.filter (fun p => keyEqb (sortKey p) (sortKey y)) (x :: t1)))
        by (rewrite H; left; reflexivity).
      apply List.filter_In in Hin as [Hin _]. exact Hin. }
    assert (Hk : sortKey x = sortKey y).
    { apply keyLe_antisym;
        [exact (sorted_head_max y t2 x Hs2 Hxy)|exact (sorted_head_max x t1 y Hs1 Hyx)]. }
    assert (Hhead : x = y).
    { pose proof (Hf (sortKey x)) as H. rewrite filter_key_head in H.
      rewrite Hk, (filter_key_head y) in H.
      injection H as H _. exact H. }
    subst y. f_equal.
    apply IH.
    + apply StronglySorted_inv in Hs1 as [H _]. exact H.
    + apply StronglySorted_inv in Hs2 as [H _]. exact H.
    + intros k. specialize (Hf k). cbn [List.filter] in Hf.
      destruct (keyEqb (sortKey x) k); [injection Hf as Hf|]; exact Hf.
Qed.

Lemma SliceStable_unique (playerRanks sorted : list PlayerRankInfo) :
  StronglySorted (fun a b => rankLess b a = false) sorted ->
  (forall k, List.filter (fun p => keyEqb (sortKey p) k) sorted
             = List.filter (fun p => keyEqb (sortKey p) k) playerRanks) ->
  sorted = Sort.SliceStable rankLess playerRanks.
Proof.
  intros Hs Hf. apply sorted_stable_unique.
  - exact Hs.
  - apply SliceStable_sorted; [exact rankLess_asym|exact rankLess_negtrans].
  - intros k. rewrite Hf. symmetry. apply SliceStable_filter. intros a b Ha Hb.
    apply keyEqb_eq in Ha, Hb. apply rankLess_false. right. congruence.
Qed.

(** C5. The leaderboard sort rearranges the players so that keys
    (tier ordinal, division ordinal, league points) never increase along the
    output, compared lexicographically, and it is stable: for every key the
    players carrying that key appear in the output in their input order. *)
Theorem leaderboard_sort_descending_stable (playerRanks : list PlayerRankInfo) :
  Permutation (Sort.SliceStable rankLess playerRanks) playerRanks
  /\ (forall i j a b,
         Sort.SliceStable rankLess playerRanks !! i = Some a ->
         Sort.SliceStable rankLess playerRanks !! j = Some b ->
         (i < j)%nat -> keyLe (sortKey b) (sortKey a))
  /\ (forall k,
         List.filter (fun p => keyEqb (sortKey p) k) (Sort.SliceStable rankLess playerRanks)
         = List.filter (fun p => keyEqb (sortKey p) k) playerRanks).
Proof.
  split; [apply SliceStable_perm|split].
  - intros i j a b Hi Hj Hlt. apply rankLess_false.
    exact (StronglySorted_lookup _ _ i j a b
             (SliceStable_sorted rankLess rankLess_asym rankLess_negtrans playerRanks)
             Hi Hj Hlt).
  - intros k. apply SliceStable_filter. intros a b Ha Hb.
    apply keyEqb_eq in Ha, Hb. apply rankLess_false. right. congruence.
Qed.

(** *** The roster loop *)

Lemma addTrace_nil w : addTrace [] w = w.
Proof. destruct w. unfold addTrace. simpl. rewrite app_nil_r. reflexivity. Qed.

Lemma addTrace_app e1 e2 w : addTrace e2 (addTrace e1 w) = addTrace (e1 ++ e2) w.
Proof. unfold addTrace. simpl. rewrite app_assoc. reflexivity. Qed.

Lemma bind_assoc_run {X Y Z} (m : M X) (f : X -> M Y) (k : Y -> M Z) w :
  bind (bind m f) k w = bind m (fun x => bind (f x) k) w.
Proof. unfold bind. destruct (m w). reflexivity. Qed.

Lemma bind_ret_run {X Y} (a : X) (k : X -> M Y) w : bind (ret a) k w = k a w.
Proof. reflexivity. Qed.

Lemma bind_emit_run {Y} e (k : unit -> M Y) w : bind (emit e) k w = k tt (addTrace [e] w).
Proof. reflexivity. Qed.

Ltac run_head :=
  repeat first [ rewrite bind_assoc_run | rewrite bind_emit_run | rewrite bind_ret_run
               | rewrite addTrace_app ].

Lemma rankingBody_run playerRanks rawSummonerName w :
  rankingBody playerRanks rawSummonerName w
  = (playerRanks ++ contribution rawSummonerName, addTrace (playerEvents rawSummonerName) w).
Proof.
  unfold rankingBody, contribution, playerEvents, leagueOf, summonerOf, accountOf, wellFormed.
  unfold sleepDelay, getAccountByRiotID, getSummonerByPUUID, getLeagueEntriesBySummonerID.
  cbv zeta. run_head.
  destruct (length (Split rawSummonerName "#") =? 2)%nat; cbn [negb].
  2: { rewrite app_nil_r. reflexivity. }
  run_head. destruct (remoteAccount _ _) as [account|e].
  2: { rewrite app_nil_r. reflexivity. }
  run_head. destruct (remoteSummoner _) as [summoner|e].
  2: { rewrite app_nil_r. reflexivity. }
  run_head. destruct (remoteLeague _) as [entries|e].
  2: { rewrite app_nil_r. reflexivity. }
  reflexivity.
Qed.

Lemma rankingLoop_run players playerRanks w :
  forEach players rankingBody playerRanks w
  = (playerRanks ++ flat_map contribution players,
     addTrace (flat_map playerEvents players) w).
Proof.
  revert playerRanks w. induction players as [|p players IH]; intros playerRanks w.
  - simpl. rewrite app_nil_r, addTrace_nil. reflexivity.
  - simpl. unfold bind. rewrite rankingBody_run, IH, addTrace_app, <- app_assoc.
    reflexivity.
Qed.

Lemma tierMap_nonneg k : 0 <= mapIndex tierMap k.
Proof.
  unfold mapIndex. destruct (tierMap !! k) as [v|] eqn:Hk; simpl; [|lia].
  unfold tierMap in Hk. apply elem_of_list_to_map_2 in Hk.
  repeat (apply elem_of_cons in Hk as [Hk | Hk]; [injection Hk as _ ->; lia|]).
  inversion Hk.
Qed.

Lemma rankedInfo_TierValue raw entry : 0 <= TierValue (rankedInfo raw entry).
Proof. unfold rankedInfo, getRankValues. simpl. apply tierMap_nonneg. Qed.

Lemma contribution_form raw p :
  In p (contribution raw) ->
  p = unrankedInfo raw \/ exists entry, soloQueue entry = true /\ p = rankedInfo raw entry.
Proof.
  unfold contribution. destruct (wellFormed raw); [|intros []].
  destruct (leagueOf raw) as [entries|e]; [|intros []].
  intros [<-|[]]. unfold playerInfo.
  destruct (find soloQueue entries) as [entry|] eqn:Hf; [right|left; reflexivity].
  exists entry. split; [|reflexivity]. apply (find_some _ _ Hf).
Qed.

(** C1. In the leaderboard aggregation every collected record is either
    the synthesized unranked record or built from a ranked-solo league
    entry; the key of an unranked record is strictly below the key of
    every ranked record (whatever its tier, division and points, Iron IV
    with 0 LP included), and in the sorted list every unranked player
    stands after every ranked player. *)
Theorem unranked_sorts_after_ranked :
  (forall raw raw' entry,
      keyLt (sortKey (unrankedInfo raw)) (sortKey (rankedInfo raw' entry))
      /\ rankLess (rankedInfo raw' entry) (unrankedInfo raw) = true
      /\ rankLess (unrankedInfo raw) (rankedInfo raw' entry) = false)
  /\ (forall raw raw' wins losses,
         sortKey (rankedInfo raw'
                    {| QueueType := "RANKED_SOLO_5x5"; entry_Tier := "IRON"; entry_Rank := "IV";
                       entry_LeaguePoints := 0; Wins := wins; Losses := losses |}) = (1, 1, 0)
         /\ sortKey (unrankedInfo raw) = (-1, -1, 0))
  /\ (forall players w p,
         In p (fst (forEach players rankingBody [] w)) ->
         exists raw, In raw players /\
           (p = unrankedInfo raw
            \/ exists entry, soloQueue entry = true /\ p = rankedInfo raw entry))
  /\ (forall players w i j raw raw' entry,
         Sort.SliceStable rankLess (fst (forEach players rankingBody [] w)) !! i
           = Some (unrankedInfo raw) ->
         Sort.SliceStable rankLess (fst (forEach players rankingBody [] w)) !! j
           = Some (rankedInfo raw' entry) ->
         (j < i)%nat).
Proof.
  assert (Hkey : forall raw raw' entry,
             keyLt (sortKey (unrankedInfo raw)) (sortKey (rankedInfo raw' entry))).
  { intros raw raw' entry. pose proof (rankedInfo_TierValue raw' entry) as Hnn.
    unfold keyLt, sortKey. simpl TierValue at 1. left. lia. }
  split; [|split; [|split]].
  - intros raw raw' entry. split; [apply Hkey|]. split.
    + apply rankLess_spec, Hkey.
    + apply rankLess_asym, rankLess_spec, Hkey.
  - intros raw raw' wins losses. split; reflexivity.
  - intros players w p. rewrite rankingLoop_run. simpl.
    intros Hp. apply in_flat_map in Hp as [raw [Hraw Hp]].
    exists raw. split; [exact Hraw|]. apply contribution_form, Hp.
  - intros players w i j raw raw' entry Hi Hj.
    destruct (Nat.lt_trichotomy i j) as [Hlt|[Heq|Hgt]]; [exfalso|exfalso|exact Hgt].
    + pose proof (StronglySorted_lookup _ _ i j _ _
                    (SliceStable_sorted rankLess rankLess_asym rankLess_negtrans _)
                    Hi Hj Hlt) as Hs.
      cbv beta in Hs.
      pose proof (proj2 (rankLess_spec (rankedInfo raw' entry) (unrankedInfo raw))
                    (Hkey raw raw' entry)) as Hk.
      congruence.
    + subst j. rewrite Hi in Hj. injection Hj as Hj.
      pose proof (rankedInfo_TierValue raw' entry) as Hnn. rewrite <- Hj in Hnn.
      simpl in Hnn. lia.
Qed.

(** *** The leaderboard command *)

Lemma bind_run {X Y} (m : M X) (k : X -> M Y) w v w' :
  m w = (v, w') -> bind m k w = k v w'.
Proof. intros H. unfold bind. rewrite H. reflexivity. Qed.

Lemma send_run text w : send text w = (tt, addTrace [EvSend text] w).
Proof. reflexivity. Qed.

Lemma ChannelMessageSend_run text w :
  ChannelMessageSend text w = (chatSend text, addTrace [EvSend text] w).
Proof. reflexivity. Qed.

Lemma deliver_run processingMsg finalMessage w :
  deliver processingMsg finalMessage w
  = (tt, addTrace (deliverEvents processingMsg finalMessage) w).
Proof.
  unfold deliver, deliverEvents, ChannelMessageEdit, send, ChannelMessageSend.
  destruct processingMsg; [|reflexivity].
  run_head. destruct (chatEdit finalMessage); [reflexivity|].
  run_head. reflexivity.
Qed.

Lemma report_run processingMsg msg w :
  report processingMsg msg w = (tt, addTrace (reportEvents processingMsg msg) w).
Proof. destruct processingMsg; reflexivity. Qed.

Lemma rankingCommand_run w :
  lolPlayersEnv w <> [] ->
  rankingCommand w
  = (tt, addTrace
           (EvSend "ランキング集計中です。少々お待ちください... ⏳"
            :: flat_map playerEvents (lolPlayersEnv w)
            ++ deliverEvents (chatSend "ランキング集計中です。少々お待ちください... ⏳")
                 (let playerRanks :=
                    Sort.SliceStable rankLess (flat_map contribution (lolPlayersEnv w)) in
                  if (0 <? length playerRanks)%nat
                  then Join (rankedMessages playerRanks) newline
                  else noRankDataMessage)) w).
Proof.
  intros Hne. unfold rankingCommand.
  rewrite (bind_run getPlayers _ w (lolPlayersEnv w) w eq_refl).
  destruct (lolPlayersEnv w) as [|p ps] eqn:Hp; [contradiction|].
  cbn [length Nat.eqb].
  rewrite (bind_run _ _ _ _ _ (ChannelMessageSend_run _ _)).
  rewrite (bind_run _ _ _ _ _ (rankingLoop_run _ _ _)).
  rewrite app_nil_l.
  destruct (0 <? length _)%nat; rewrite deliver_run, addTrace_app, addTrace_app; reflexivity.
Qed.

Lemma contribution_length raw :
  length (contribution raw) = if resolves raw then 1%nat else 0%nat.
Proof.
  unfold contribution, resolves. destruct (wellFormed raw); [|reflexivity].
  destruct (leagueOf raw); reflexivity.
Qed.

Lemma flat_map_contribution_length players :
  length (flat_map contribution players) = length (List.filter resolves players).
Proof.
  induction players as [|p ps IH]; [reflexivity|].
  simpl. rewrite length_app, contribution_length, IH.
  destruct (resolves p); reflexivity.
Qed.

Lemma playerEvents_accountCalls raw :
  List.filter isAccountCall (playerEvents raw)
  = if wellFormed raw then [accountCall raw] else [].
Proof.
  unfold playerEvents, accountCall. destruct (wellFormed raw); [|reflexivity].
  simpl. destruct (accountOf raw); [|reflexivity].
  simpl. destruct (summonerOf raw); reflexivity.
Qed.

Lemma last_app_cons {X} (l : list X) x l' d : List.last (l ++ x :: l') d = List.last (x :: l') d.
Proof.
  induction l as [|y l IH]; [reflexivity|].
  change ((y :: l) ++ x :: l') with (y :: (l ++ x :: l')).
  destruct (l ++ x :: l') eqn:E; [destruct l; discriminate|].
  rewrite <- IH. reflexivity.
Qed.

(** C6. In the leaderboard aggregation a player whose Account, Summoner
    or LeagueEntry resolution fails adds nothing to the list, a player who
    comes through adds exactly one record, and the loop collects the
    contributions of all players whatever happened to the others (the
    account call of every well-formed roster member is made); with a
    roster of three players of which exactly one fails Account resolution
    and the other two resolve, the message finally rendered is the title
    followed by exactly two player lines. *)
Theorem leaderboard_omits_failed_players :
  (forall raw,
      isErr (accountOf raw) || isErr (summonerOf raw) || isErr (leagueOf raw) = true ->
      contribution raw = [])
  /\ (forall raw leagueEntries,
         wellFormed raw = true -> leagueOf raw = Ok leagueEntries ->
         contribution raw = [playerInfo raw leagueEntries])
  /\ (forall players w,
         fst (forEach players rankingBody [] w) = flat_map contribution players
         /\ List.filter isAccountCall (trace (snd (forEach players rankingBody [] w)))
            = List.filter isAccountCall (trace w)
              ++ map accountCall (List.filter wellFormed players))
  /\ (forall a b c w,
         lolPlayersEnv w = [a; b; c] ->
         length (List.filter failsAccount [a; b; c]) = 1%nat ->
         length (List.filter resolves [a; b; c]) = 2%nat ->
         exists line1 line2,
           imap rankingLine (Sort.SliceStable rankLess (fst (forEach [a; b; c] rankingBody [] w)))
           = [line1; line2]
           /\ (List.last (trace (snd (rankingCommand w))) EvSleep
               = EvEdit (Join [rankingTitle; line1; line2] newline)
               \/ List.last (trace (snd (rankingCommand w))) EvSleep
                  = EvSend (Join [rankingTitle; line1; line2] newline))).
Proof.
  split; [|split; [|split]].
  - intros raw H. unfold contribution, leagueOf, summonerOf in *.
    destruct (wellFormed raw); [|reflexivity].
    destruct (accountOf raw) as [account|]; [|reflexivity].
    destruct (remoteSummoner _) as [summoner|]; [|reflexivity].
    destruct (remoteLeague _); [discriminate H|reflexivity].
  - intros raw entries Hwf Hl. unfold contribution. rewrite Hwf, Hl. reflexivity.
  - intros players w. rewrite rankingLoop_run. split; [reflexivity|].
    simpl. rewrite List.filter_app. f_equal.
    induction players as [|p ps IH]; [reflexivity|].
    simpl. rewrite List.filter_app, playerEvents_accountCalls, IH.
    destruct (wellFormed p); reflexivity.
  - intros a b c w Hroster Hfail Hres.
    rewrite rankingLoop_run. cbn [fst]. rewrite app_nil_l.
    assert (Hlen : length (Sort.SliceStable rankLess (flat_map contribution [a; b; c])) = 2%nat).
    { rewrite (Permutation_length (SliceStable_perm rankLess _)).
      rewrite flat_map_contribution_length. exact Hres. }
    rewrite rankingCommand_run by (rewrite Hroster; discriminate).
    rewrite Hroster.
    destruct (Sort.SliceStable rankLess (flat_map contribution [a; b; c]))
      as [|p1 [|p2 [|p3 rest]]] eqn:Hs; try discriminate Hlen.
    exists (rankingLine 0 p1), (rankingLine 1 p2). split; [reflexivity|].
    cbn [length Nat.ltb Nat.leb snd trace addTrace].
    unfold deliverEvents.
    change (rankedMessages [p1; p2]) with [rankingTitle; rankingLine 0 p1; rankingLine 1 p2].
    rewrite app_comm_cons, app_assoc.
    destruct (chatSend _); [destruct (chatEdit _)|].
    + left. apply (last_app_cons _ _ []).
    + right. change [EvEdit ?m; EvSend ?m'] with ([EvEdit m] ++ [EvSend m']).
      rewrite app_assoc. apply (last_app_cons _ _ []).
    + right. apply (last_app_cons _ _ []).
Qed.

(** *** Where the delay stands *)






Lemma rankBody_run rankInfos raw w :
  exists info,
    rankBody rankInfos raw w = (rankInfos ++ [info], addTrace (playerEvents raw) w).
Proof.
  unfold rankBody, playerEvents, summonerOf, accountOf, wellFormed.
  unfold sleepDelay, getAccountByRiotID, getSummonerByPUUID, getLeagueEntriesBySummonerID.
  cbv zeta. run_head.
  destruct (length (Split raw "#") =? 2)%nat; cbn [negb].
  2: { eexists. reflexivity. }
  run_head. destruct (remoteAccount _ _) as [account|e].
  2: { eexists. reflexivity. }
  run_head. destruct (remoteSummoner _) as [summoner|e].
  2: { eexists. reflexivity. }
  run_head. destruct (remoteLeague _) as [entries|e]; eexists; reflexivity.
Qed.

Lemma rankLoop_run names rankInfos w :
  exists infos,
    forEach names rankBody rankInfos w = (infos, addTrace (flat_map playerEvents names) w).
Proof.
  revert rankInfos w. induction names as [|p ps IH]; intros rankInfos w.
  - exists rankInfos. simpl. rewrite addTrace_nil. reflexivity.
  - destruct (rankBody_run rankInfos p w) as [info Hb].
    destruct (IH (rankInfos ++ [info]) (addTrace (playerEvents p) w)) as [infos Hl].
    exists infos. simpl. rewrite (bind_run _ _ _ _ _ Hb), Hl, addTrace_app. reflexivity.
Qed.

Lemma tallyBody_run puuid startTimeUnix endTimeUnix tally matchID w :
  tallyBody puuid startTimeUnix endTimeUnix tally matchID w
  = (tallyStep puuid startTimeUnix endTimeUnix tally matchID, addTrace (matchEvents matchID) w).
Proof.
  unfold tallyBody, tallyStep, matchEvents, sleepDelay, getMatchDetails.
  run_head. destruct (remoteMatchDetails matchID); reflexivity.
Qed.

Lemma tallyLoop_run puuid startTimeUnix endTimeUnix matchIDs tally w :
  forEach matchIDs (tallyBody puuid startTimeUnix endTimeUnix) tally w
  = (fold_left (tallyStep puuid startTimeUnix endTimeUnix) matchIDs tally,
     addTrace (flat_map matchEvents matchIDs) w).
Proof.
  revert tally w. induction matchIDs as [|id ids IH]; intros tally w.
  - simpl. rewrite addTrace_nil. reflexivity.
  - simpl. rewrite (bind_run _ _ _ _ _ (tallyBody_run _ _ _ _ _ _)), IH, addTrace_app.
    reflexivity.
Qed.

Lemma trace_addTrace events w : trace (addTrace events w) = trace w ++ events.
Proof. reflexivity. Qed.





Lemma updateEnvFile_frame key value w :
  trace (snd (updateEnvFile key value w)) = trace w
  /\ lolPlayersEnv (snd (updateEnvFile key value w)) = lolPlayersEnv w.
Proof.
  unfold updateEnvFile, ReadFile, WriteFile, bind, ret.
  destruct (envFile w); destruct (envWritable w); split; reflexivity.
Qed.

Lemma addPlayerToEnvFile_frame newPlayerRiotID w :
  trace (snd (addPlayerToEnvFile newPlayerRiotID w)) = trace w
  /\ lolPlayersEnv (snd (addPlayerToEnvFile newPlayerRiotID w)) = lolPlayersEnv w.
Proof.
  unfold addPlayerToEnvFile.
  rewrite (bind_run ReadFile _ w _ w eq_refl).
  destruct (envFile w) as [|content|]; [apply updateEnvFile_frame| |split; reflexivity].
  cbv zeta. destruct (existsb _ _); [split; reflexivity|apply updateEnvFile_frame].
Qed.



(** *** The day-window tally *)

Lemma find_first {X} (p : X -> bool) (before after : list X) (x : X) :
  (forall y, In y before -> p y = false) -> p x = true ->
  find p (before ++ x :: after) = Some x.
Proof.
  intros Hb Hx. induction before as [|y before IH]; simpl.
  - rewrite Hx. reflexivity.
  - rewrite (Hb y (or_introl eq_refl)). apply IH. intros z Hz. apply Hb. right. exact Hz.
Qed.

Lemma tally_moves (tally : Z * Z) (won : bool) :
  (if won then (fst tally + 1, snd tally) else (fst tally, snd tally + 1)) <> tally.
Proof. destruct tally as [wins losses], won; simpl; intros H; injection H; lia. Qed.

Lemma tallyMatch_contributes puuid startTimeUnix endTimeUnix matchDetails tally :
  tallyMatch puuid startTimeUnix endTimeUnix matchDetails tally <> tally
  <-> (inWindow startTimeUnix endTimeUnix matchDetails
       /\ QueueID matchDetails = rankedSoloQueueID
       /\ exists p, In p (Participants matchDetails) /\ part_PUUID p = puuid).
Proof.
  unfold tallyMatch, inWindow.
  destruct (Z.leb_spec startTimeUnix (Z.quot (GameCreation matchDetails) 1000)) as [H1|H1];
  destruct (Z.ltb_spec (Z.quot (GameCreation matchDetails) 1000) endTimeUnix) as [H2|H2];
  destruct (Z.eqb_spec (QueueID matchDetails) rankedSoloQueueID) as [H3|H3];
    cbn [andb]; try (split; [intros H; contradiction|intros [? [? ?]]; lia]).
  - destruct (find _ _) as [p|] eqn:Hf.
    + split; [intros _|intros _; apply tally_moves].
      apply find_some in Hf as [Hin Hp]. apply String.eqb_eq in Hp.
      split; [lia|]. split; [exact H3|]. exists p. auto.
    + split; [intros H; contradiction|].
      intros [_ [_ [p [Hin Hp]]]]. apply (find_none _ _ Hf) in Hin.
      rewrite Hp, String.eqb_refl in Hin. discriminate.
Qed.

(** C3 (as the code has it). A fetched match changes the win/loss
    counters exactly when its creation time, cut from milliseconds to
    seconds, lies in [start, end), its queue id is 420 and one of its
    participants carries the account's PUUID; the first such participant's
    win flag then decides which counter goes up by one. A creation time
    equal to [end] never counts, one equal to [start] does under the two
    other conditions, a match whose fetch failed is skipped, and the loop
    folds this step over the match ids from (0, 0). *)
Theorem day_window_tally :
  (forall puuid startTimeUnix endTimeUnix matchDetails tally,
      tallyMatch puuid startTimeUnix endTimeUnix matchDetails tally <> tally
      <-> (inWindow startTimeUnix endTimeUnix matchDetails
           /\ QueueID matchDetails = 420
           /\ exists p, In p (Participants matchDetails) /\ part_PUUID p = puuid))
  /\ (forall puuid startTimeUnix endTimeUnix matchDetails wins losses before p after,
         inWindow startTimeUnix endTimeUnix matchDetails ->
         QueueID matchDetails = 420 ->
         Participants matchDetails = before ++ p :: after ->
         (forall q, In q before -> part_PUUID q <> puuid) ->
         part_PUUID p = puuid ->
         tallyMatch puuid startTimeUnix endTimeUnix matchDetails (wins, losses)
         = if Win p then (wins + 1, losses) else (wins, losses + 1))
  /\ (forall puuid startTimeUnix endTimeUnix matchDetails tally,
         GameCreation matchDetails = endTimeUnix * 1000 ->
         tallyMatch puuid startTimeUnix endTimeUnix matchDetails tally = tally)
  /\ (forall puuid startTimeUnix endTimeUnix matchDetails tally,
         GameCreation matchDetails = startTimeUnix * 1000 ->
         startTimeUnix < endTimeUnix ->
         QueueID matchDetails = 420 ->
         (exists p, In p (Participants matchDetails) /\ part_PUUID p = puuid) ->
         tallyMatch puuid startTimeUnix endTimeUnix matchDetails tally <> tally)
  /\ (forall puuid startTimeUnix endTimeUnix matchIDs w,
         fst (forEach matchIDs (tallyBody puuid startTimeUnix endTimeUnix) (0, 0) w)
         = fold_left (tallyStep puuid startTimeUnix endTimeUnix) matchIDs (0, 0))
  /\ (forall puuid startTimeUnix endTimeUnix tally matchID,
         tallyStep puuid startTimeUnix endTimeUnix tally matchID
         = match remoteMatchDetails matchID with
           | Ok matchDetails => tallyMatch puuid startTimeUnix endTimeUnix matchDetails tally
           | Err _ => tally
           end).
Proof.
  split; [exact tallyMatch_contributes|].
  split; [|split; [|split; [|split]]].
  - intros puuid s e md wins losses before p after [H1 H2] Hq Hparts Hbefore Hp.
    unfold tallyMatch.
    rewrite (proj2 (Z.leb_le _ _) H1), (proj2 (Z.ltb_lt _ _) H2), Hq. cbn [andb Z.eqb].
    rewrite Hparts, (find_first _ before after p).
    + reflexivity.
    + intros q Hin. apply String.eqb_neq, Hbefore, Hin.
    + apply String.eqb_eq, Hp.
  - intros puuid s e md tally Hc. unfold tallyMatch.
    rewrite Hc, Z.quot_mul by lia. rewrite Z.ltb_irrefl, andb_false_r. reflexivity.
  - intros puuid s e md tally Hc Hlt Hq Hp.
    apply tallyMatch_contributes. unfold inWindow.
    rewrite Hc, Z.quot_mul by lia. split; [lia|]. split; assumption.
  - intros puuid s e ids w. rewrite tallyLoop_run. reflexivity.
  - reflexivity.
Qed.

(** *** The calendar and the day window *)

(** Arithmetic with division by constants, on the numbers alone. *)
Ltac div_lia :=
  try clear unicodeUpper ToLower Title PathEscape remoteAccount remoteSummoner remoteLeague
            remoteMatchIDs remoteMatchDetails chatSend chatEdit;
  Z.to_euclidean_division_equations; lia.

Lemma yearOfEra_bounds doe :
  0 <= doe < 146097 ->
  0 <= (doe - doe / 1460 + doe / 36524 - doe / 146096) / 365 <= 399
  /\ 0 <= doe - Time.daysBeforeYearOfEra ((doe - doe / 1460 + doe / 36524 - doe / 146096) / 365)
     <= 365.
Proof.
  intros H. unfold Time.daysBeforeYearOfEra.
  div_lia.
Qed.

Lemma civilFromDays_month z : 1 <= snd (fst (Time.civilFromDays z)) <= 12.
Proof.
  unfold Time.civilFromDays. cbv zeta. cbn [fst snd].
  set (doe := (z + 719468) mod 146097).
  assert (Hdoe : 0 <= doe < 146097) by (apply Z.mod_pos_bound; lia).
  destruct (yearOfEra_bounds doe Hdoe) as [_ Hdoy].
  set (doy := doe - Time.daysBeforeYearOfEra _) in *.
  assert (Hmp : 0 <= (5 * doy + 2) / 153 <= 11)
    by (div_lia).
  destruct (Z.ltb_spec ((5 * doy + 2) / 153) 10); lia.
Qed.

Lemma daysFromCivil_civilFromDays z :
  Time.daysFromCivil (fst (fst (Time.civilFromDays z))) (snd (fst (Time.civilFromDays z)))
                     (snd (Time.civilFromDays z)) = z.
Proof.
  unfold Time.civilFromDays. cbv zeta. cbn [fst snd].
  set (z' := z + 719468).
  set (era := z' / 146097).
  set (doe := z' mod 146097).
  assert (Hdoe : 0 <= doe < 146097) by (apply Z.mod_pos_bound; lia).
  assert (Hz : z' = 146097 * era + doe) by (apply Z.div_mod; lia).
  destruct (yearOfEra_bounds doe Hdoe) as [Hyoe Hdoy].
  set (yoe := (doe - doe / 1460 + doe / 36524 - doe / 146096) / 365) in *.
  set (doy := doe - Time.daysBeforeYearOfEra yoe) in *.
  set (mp := (5 * doy + 2) / 153).
  assert (Hmp : 0 <= mp <= 11) by (subst mp; div_lia).
  set (m := if mp <? 10 then mp + 3 else mp - 9).
  set (y := yoe + era * 400).
  unfold Time.daysFromCivil.
  assert (Hy : (if m <=? 2 then (if m <=? 2 then y + 1 else y) - 1
                else (if m <=? 2 then y + 1 else y)) = y)
    by (destruct (m <=? 2); lia).
  assert (Hm : (if 2 <? m then m - 3 else m + 9) = mp).
  { subst m. destruct (Z.ltb_spec mp 10);
      [destruct (Z.ltb_spec 2 (mp + 3))|destruct (Z.ltb_spec 2 (mp - 9))]; lia. }
  assert (Hera : y / 400 = era)
    by (subst y; symmetry; apply (Z.div_unique _ 400 era yoe); lia).
  assert (Hmod : y mod 400 = yoe)
    by (subst y; symmetry; apply (Z.mod_unique _ 400 era yoe); lia).
  cbv zeta. rewrite Hy, Hm, Hera, Hmod. subst doy z'. lia.
Qed.

Example daysFromCivil_epoch : Time.daysFromCivil 1970 1 1 = 0.
Proof. reflexivity. Qed.

Example civilFromDays_leap_day : Time.civilFromDays 19782 = (2024, 2, 29).
Proof. reflexivity. Qed.

Example civilFromDays_1900_is_common :
  Time.civilFromDays (-25509) = (1900, 2, 28) /\ Time.civilFromDays (-25508) = (1900, 3, 1).
Proof. split; reflexivity. Qed.

Example Date_day_zero_is_last_of_previous_month :
  Time.Date 2024 3 0 5 0 0 Time.jst = Time.Date 2024 2 29 5 0 0 Time.jst.
Proof. reflexivity. Qed.

Example ParseInLocation_rejects_february_30 :
  isErr (Time.ParseInLocation_20060102 "20240230" Time.jst) = true
  /\ isErr (Time.ParseInLocation_20060102 "2024-01-01" Time.jst) = true
  /\ Time.ParseInLocation_20060102 "20240229" Time.jst = Ok 1709132400.
Proof. repeat split; reflexivity. Qed.

Lemma daysFromCivil_day y m d k :
  Time.daysFromCivil y m (d + k) = Time.daysFromCivil y m d + k.
Proof. unfold Time.daysFromCivil. cbv zeta. lia. Qed.

Lemma local_split t loc :
  t + loc = Time.localDay t loc * 86400 + Time.localSecond t loc
  /\ 0 <= Time.localSecond t loc < 86400.
Proof.
  unfold Time.localDay, Time.localSecond, Time.secondsPerDay.
  split; [rewrite Z.mul_comm; apply Z.div_mod; lia|apply Z.mod_pos_bound; lia].
Qed.

Lemma clock_split t loc :
  Time.Hour t loc * 3600 + Time.Minute t loc * 60 + Time.Second t loc = Time.localSecond t loc.
Proof.
  unfold Time.Hour, Time.Minute, Time.Second.
  destruct (local_split t loc) as [_ H]. revert H.
  generalize (Time.localSecond t loc). intros s H.
  div_lia.
Qed.

(** [time.Date] on the civil date of an instant, shifted by [k] days. *)
Lemma Date_of_instant t loc k hour min sec :
  Time.Date (Time.Year t loc) (Time.Month t loc) (Time.Day t loc + k) hour min sec loc
  = (Time.localDay t loc + k) * 86400 + hour * 3600 + min * 60 + sec - loc.
Proof.
  unfold Time.Date, Time.Year, Time.Month, Time.Day, Time.secondsPerDay. cbv zeta.
  pose proof (civilFromDays_month (Time.localDay t loc)) as Hm.
  set (m := snd (fst (Time.civilFromDays (Time.localDay t loc)))) in *.
  assert (H0 : (m - 1) / 12 = 0) by (apply Z.div_small; lia).
  assert (H1 : (m - 1) mod 12 + 1 = m) by (rewrite Z.mod_small; lia).
  rewrite H0, H1, Z.add_0_r, daysFromCivil_day. subst m.
  rewrite daysFromCivil_civilFromDays. reflexivity.
Qed.

Lemma AddDate_days t loc k : Time.AddDate t loc 0 0 k = t + k * 86400.
Proof.
  unfold Time.AddDate. rewrite !Z.add_0_r, Date_of_instant.
  pose proof (clock_split t loc). destruct (local_split t loc) as [Hs _]. lia.
Qed.

Lemma startTimeOf_spec targetDate :
  startTimeOf targetDate = Time.localDay targetDate Time.jst * 86400 + 18000 - Time.jst.
Proof.
  unfold startTimeOf.
  rewrite <- (Z.add_0_r (Time.Day targetDate Time.jst)), Date_of_instant. lia.
Qed.

Lemma local_of_start day :
  Time.localDay (day * 86400 + 18000 - Time.jst) Time.jst = day
  /\ Time.localSecond (day * 86400 + 18000 - Time.jst) Time.jst = 18000.
Proof.
  unfold Time.localDay, Time.localSecond, Time.secondsPerDay.
  replace (day * 86400 + 18000 - Time.jst + Time.jst) with (18000 + day * 86400) by lia.
  rewrite Z.div_add, Z.mod_add by lia. split; reflexivity.
Qed.

Lemma dayWindow_shape dateStr now startTime endTime :
  dayWindow dateStr now = Ok (startTime, endTime) ->
  exists targetDate,
    targetDateOf dateStr now = Ok targetDate
    /\ startTime = Time.localDay targetDate Time.jst * 86400 + 18000 - Time.jst
    /\ endTime = startTime + 86400.
Proof.
  unfold dayWindow. destruct (targetDateOf dateStr now) as [targetDate|e]; [|discriminate].
  intros H. injection H as <- <-. exists targetDate.
  split; [reflexivity|]. split; [apply startTimeOf_spec|].
  unfold endTimeOf. rewrite AddDate_days. lia.
Qed.

Lemma localDay_shift t k :
  Time.localDay (t + k * 86400) Time.jst = Time.localDay t Time.jst + k.
Proof.
  unfold Time.localDay, Time.secondsPerDay.
  replace (t + k * 86400 + Time.jst) with (t + Time.jst + k * 86400) by lia.
  apply Z.div_add. lia.
Qed.

Lemma dayWindow_now now :
  dayWindow "" now
  = Ok (Time.Date (Time.Year now Time.jst) (Time.Month now Time.jst)
          (Time.Day now Time.jst + (if Time.Hour now Time.jst <? 5 then -1 else 0)) 5 0 0 Time.jst,
        Time.Date (Time.Year now Time.jst) (Time.Month now Time.jst)
          (Time.Day now Time.jst + ((if Time.Hour now Time.jst <? 5 then -1 else 0) + 1)) 5 0 0 Time.jst).
Proof.
  rewrite !Date_of_instant.
  unfold dayWindow, targetDateOf. cbn [String.eqb].
  unfold endTimeOf.
  destruct (Time.Hour now Time.jst <? 5); cbv iota.
  - rewrite !AddDate_days, startTimeOf_spec, localDay_shift. f_equal. f_equal; lia.
  - rewrite AddDate_days, startTimeOf_spec. f_equal. f_equal; lia.
Qed.

(** C2. The day window of [!daystats]. For the date argument 20240101 it
    is [2024-01-01 05:00, 2024-01-02 05:00) on the wall clock of the
    program's zone; without a date argument it starts at 05:00 of the
    previous calendar date when the wall clock is before 05:00 and at 05:00
    of the current date otherwise (and then contains the current instant);
    in every case it starts at 05:00:00, lasts one day (86400 seconds) and
    ends at 05:00:00 of the next calendar date, the end being excluded. *)
Theorem day_window_spans_one_day_from_5am :
  (forall now,
      dayWindow "20240101" now
      = Ok (Time.Date 2024 1 1 5 0 0 Time.jst, Time.Date 2024 1 2 5 0 0 Time.jst))
  /\ Time.Date 2024 1 1 5 0 0 Time.jst = 1704052800
  /\ Time.Date 2024 1 2 5 0 0 Time.jst = 1704139200
  /\ Time.civilFromDays (Time.localDay 1704052800 Time.jst) = (2024, 1, 1)
  /\ Time.civilFromDays (Time.localDay 1704139200 Time.jst) = (2024, 1, 2)
  /\ (forall now,
         Time.Hour now Time.jst < 5 ->
         dayWindow "" now
         = Ok (Time.Date (Time.Year now Time.jst) (Time.Month now Time.jst)
                         (Time.Day now Time.jst - 1) 5 0 0 Time.jst,
               Time.Date (Time.Year now Time.jst) (Time.Month now Time.jst)
                         (Time.Day now Time.jst) 5 0 0 Time.jst))
  /\ (forall now,
         5 <= Time.Hour now Time.jst ->
         dayWindow "" now
         = Ok (Time.Date (Time.Year now Time.jst) (Time.Month now Time.jst)
                         (Time.Day now Time.jst) 5 0 0 Time.jst,
               Time.Date (Time.Year now Time.jst) (Time.Month now Time.jst)
                         (Time.Day now Time.jst + 1) 5 0 0 Time.jst))
  /\ (forall now startTime endTime,
         dayWindow "" now = Ok (startTime, endTime) ->
         Time.localDay startTime Time.jst
         = Time.localDay now Time.jst - (if Time.Hour now Time.jst <? 5 then 1 else 0)
         /\ startTime <= now < endTime)
  /\ (forall dateStr now startTime endTime,
         dayWindow dateStr now = Ok (startTime, endTime) ->
         endTime = startTime + 86400
         /\ Time.Hour startTime Time.jst = 5 /\ Time.Minute startTime Time.jst = 0
         /\ Time.Second startTime Time.jst = 0
         /\ Time.localDay endTime Time.jst = Time.localDay startTime Time.jst + 1
         /\ Time.Hour endTime Time.jst = 5 /\ Time.Minute endTime Time.jst = 0
         /\ Time.Second endTime Time.jst = 0).
Proof.
  split; [intros now; vm_compute; reflexivity|].
  split; [vm_compute; reflexivity|].
  split; [vm_compute; reflexivity|].
  split; [vm_compute; reflexivity|].
  split; [vm_compute; reflexivity|].
  split; [|split; [|split]].
  - intros now H. rewrite dayWindow_now.
    rewrite (proj2 (Z.ltb_lt _ _) H).
    replace (Time.Day now Time.jst + -1) with (Time.Day now Time.jst - 1) by lia.
    replace (Time.Day now Time.jst + (-1 + 1)) with (Time.Day now Time.jst) by lia.
    reflexivity.
  - intros now H. rewrite dayWindow_now.
    rewrite (proj2 (Z.ltb_ge _ _) H).
    replace (Time.Day now Time.jst + (0 + 1)) with (Time.Day now Time.jst + 1) by lia.
    rewrite Z.add_0_r. reflexivity.
  - intros now startTime endTime H.
    destruct (dayWindow_shape _ _ _ _ H) as [targetDate [Ht [Hs He]]].
    unfold targetDateOf in Ht. cbn [String.eqb] in Ht.
    destruct (local_split now Time.jst) as [Hsplit Hrange].
    assert (Hh : Time.Hour now Time.jst < 5 <-> Time.localSecond now Time.jst < 18000).
    { unfold Time.Hour. revert Hrange. generalize (Time.localSecond now Time.jst).
      intros s Hrange. div_lia. }
    destruct (Z.ltb_spec (Time.Hour now Time.jst) 5) as [Hlt|Hge];
      injection Ht as <-.
    + rewrite AddDate_days, localDay_shift in Hs.
      rewrite Hs at 1. rewrite (proj1 (local_of_start _)). split; lia.
    + rewrite Hs at 1. rewrite (proj1 (local_of_start _)). split; lia.
  - intros dateStr now startTime endTime H.
    destruct (dayWindow_shape _ _ _ _ H) as [targetDate [_ [Hs He]]].
    split; [exact He|].
    assert (He' : endTime = (Time.localDay targetDate Time.jst + 1) * 86400 + 18000 - Time.jst)
      by lia.
    unfold Time.Hour, Time.Minute, Time.Second.
    rewrite He' at 1 2 3 4. rewrite Hs.
    rewrite !(proj1 (local_of_start _)), !(proj2 (local_of_start _)).
    repeat split; reflexivity.
Qed.

(** *** The roster file *)

Lemma string_app_assoc (a b c : string) : ((a ++ b) ++ c = a ++ (b ++ c))%string.
Proof.
  induction a as [|x a IH]; [reflexivity|].
  change (String x ((a ++ b) ++ c) = String x (a ++ (b ++ c)))%string. rewrite IH. reflexivity.
Qed.

Lemma Split_nonempty s sep : Split s sep <> [].
Proof.
  destruct s as [|c s]; simpl; [discriminate|].
  destruct (Ascii.eqb c sep); [discriminate|]. destruct (Split s sep); discriminate.
Qed.

Lemma Split_free s sep : List.Forall (fun l => containsByte sep l = false) (Split s sep).
Proof.
  induction s as [|c s IH]; simpl.
  - constructor; [reflexivity|constructor].
  - destruct (Ascii.eqb c sep) eqn:Hc.
    + constructor; [reflexivity|exact IH].
    + destruct (Split s sep) as [|x xs].
      * constructor; [simpl; rewrite Hc; reflexivity|constructor].
      * inversion IH as [|? ? Hx Hxs]; subst.
        constructor; [simpl; rewrite Hc; exact Hx|exact Hxs].
Qed.

Lemma Split_app_sep a b sep :
  containsByte sep a = false ->
  Split (a ++ String sep b)%string sep = a :: Split b sep.
Proof.
  induction a as [|c a IH]; intros Ha.
  - change ("" ++ String sep b)%string with (String sep b).
    simpl. rewrite Ascii.eqb_refl. reflexivity.
  - change (String c a ++ String sep b)%string with (String c (a ++ String sep b)%string).
    simpl in Ha. apply orb_false_iff in Ha as [Hc Ha].
    cbn [Split]. rewrite Hc, (IH Ha). reflexivity.
Qed.

Lemma Split_free_id a sep : containsByte sep a = false -> Split a sep = [a].
Proof.
  induction a as [|c a IH]; intros Ha; simpl in *; [reflexivity|].
  apply orb_false_iff in Ha as [Hc Ha]. rewrite Hc, (IH Ha). reflexivity.
Qed.

Lemma Split_Join lines sep :
  lines <> [] -> List.Forall (fun l => containsByte sep l = false) lines ->
  Split (Join lines (String sep "")) sep = lines.
Proof.
  induction lines as [|l rest IH]; intros Hne Hfree; [contradiction|].
  inversion Hfree as [|? ? Hl Hrest]; subst.
  destruct rest as [|x xs].
  - simpl. apply Split_free_id, Hl.
  - change (Join (l :: x :: xs) (String sep ""))
      with (l ++ String sep "" ++ Join (x :: xs) (String sep ""))%string.
    change (String sep "" ++ Join (x :: xs) (String sep ""))%string
      with (String sep (Join (x :: xs) (String sep ""))).
    rewrite (Split_app_sep _ _ _ Hl), IH; [reflexivity|discriminate|exact Hrest].
Qed.

Lemma TrimRight_app a b c :
  TrimRight (a ++ b)%string c
  = match TrimRight b c with
    | EmptyString => TrimRight a c
    | t => (a ++ t)%string
    end.
Proof.
  induction a as [|x a IH].
  - change ("" ++ b)%string with b. destruct (TrimRight b c); reflexivity.
  - change (String x a ++ b)%string with (String x (a ++ b)%string).
    cbn [TrimRight]. rewrite IH. destruct (TrimRight b c) as [|y t]; [reflexivity|].
    destruct a; reflexivity.
Qed.

Lemma TrimRight_free a c : containsByte c a = false -> TrimRight a c = a.
Proof.
  induction a as [|x a IH]; intros Ha; simpl in *; [reflexivity|].
  apply orb_false_iff in Ha as [Hx Ha]. rewrite (IH Ha).
  destruct a; [rewrite Hx|]; reflexivity.
Qed.

Lemma dropTrailingBlank_Join lines :
  dropTrailingBlank lines = [] \/ Join (dropTrailingBlank lines) newline <> "".
Proof.
  induction lines as [|l rest IH]; [left; reflexivity|].
  simpl. destruct (dropTrailingBlank rest) as [|r rs].
  - destruct (String.eqb_spec l ""); [left; reflexivity|right; exact n].
  - right. destruct l; discriminate.
Qed.

Lemma TrimRight_Join lines :
  List.Forall (fun l => containsByte lf l = false) lines ->
  TrimRight (Join lines newline) lf = Join (dropTrailingBlank lines) newline.
Proof.
  induction lines as [|l rest IH]; intros Hfree; [reflexivity|].
  inversion Hfree as [|? ? Hl Hrest]; subst. specialize (IH Hrest).
  destruct rest as [|x xs].
  - simpl. rewrite (TrimRight_free _ _ Hl).
    destruct (String.eqb_spec l ""); [subst; reflexivity|reflexivity].
  - change (Join (l :: x :: xs) newline)
      with (l ++ String lf (Join (x :: xs) newline))%string.
    rewrite TrimRight_app. cbn [TrimRight]. rewrite IH.
    change (dropTrailingBlank (l :: x :: xs))
      with (match dropTrailingBlank (x :: xs) with
            | [] => if String.eqb l "" then [] else [l]
            | r => l :: r
            end).
    destruct (dropTrailingBlank_Join (x :: xs)) as [Hd|Hd].
    + rewrite Hd. cbn [Join]. rewrite Ascii.eqb_refl, (TrimRight_free _ _ Hl).
      destruct (String.eqb_spec l ""); [subst; reflexivity|reflexivity].
    + destruct (dropTrailingBlank (x :: xs)) as [|r rs] eqn:Hr.
      * contradiction.
      * change (Join (l :: r :: rs) newline)
          with (l ++ String lf (Join (r :: rs) newline))%string.
        destruct (Join (r :: rs) newline) eqn:Hj; [contradiction|]. reflexivity.
Qed.

Lemma dropTrailingBlank_Forall (P : string -> Prop) lines :
  List.Forall P lines -> List.Forall P (dropTrailingBlank lines).
Proof.
  induction 1 as [|l rest Hl Hrest IH]; [constructor|].
  simpl. destruct (dropTrailingBlank rest).
  - destruct (String.eqb l ""); constructor; [exact Hl|constructor].
  - constructor; assumption.
Qed.

Lemma dropTrailingBlank_snoc lines :
  dropTrailingBlank (lines ++ [""]) = dropTrailingBlank lines.
Proof.
  induction lines as [|l rest IH]; [reflexivity|].
  simpl. rewrite IH. reflexivity.
Qed.

Lemma dropTrailingBlank_idem lines :
  dropTrailingBlank (dropTrailingBlank lines) = dropTrailingBlank lines.
Proof.
  induction lines as [|l rest IH]; [reflexivity|].
  simpl. destruct (dropTrailingBlank rest) as [|r rs] eqn:Hr.
  - destruct (String.eqb l "") eqn:Hl; [reflexivity|]. simpl. rewrite Hl. reflexivity.
  - change (dropTrailingBlank (l :: r :: rs))
      with (match dropTrailingBlank (r :: rs) with
            | [] => if String.eqb l "" then [] else [l]
            | r' => l :: r'
            end).
    rewrite IH. reflexivity.
Qed.

(** The lines of what [updateEnvFile] writes, up to the blank lines at
    the end. *)
Lemma written_lines lines :
  List.Forall (fun l => containsByte lf l = false) lines ->
  dropTrailingBlank (Split (TrimRight (Join lines newline) lf ++ newline)%string lf)
  = dropTrailingBlank lines.
Proof.
  intros Hfree. rewrite (TrimRight_Join _ Hfree).
  destruct (dropTrailingBlank lines) as [|r rs] eqn:Hd; [reflexivity|].
  assert (Hf : List.Forall (fun l => containsByte lf l = false) (r :: rs)).
  { rewrite <- Hd. apply dropTrailingBlank_Forall, Hfree. }
  assert (Hs : Split (Join (r :: rs) newline ++ newline)%string lf = (r :: rs) ++ [""]).
  { pose proof (Split_Join ((r :: rs) ++ [""]) lf) as H.
    assert (Hj : Join ((r :: rs) ++ [""]) newline = (Join (r :: rs) newline ++ newline)%string).
    { clear. generalize r. induction rs as [|x xs IH]; intros r0.
      - simpl. reflexivity.
      - change (Join ((r0 :: x :: xs) ++ [""]) newline)
          with (r0 ++ newline ++ Join ((x :: xs) ++ [""]) newline)%string.
        rewrite IH.
        change (Join (r0 :: x :: xs) newline) with (r0 ++ newline ++ Join (x :: xs) newline)%string.
        rewrite !string_app_assoc. reflexivity. }
    rewrite <- Hj. apply H; [discriminate|].
    apply Forall_app. split; [exact Hf|constructor; [reflexivity|constructor]]. }
  rewrite Hs, dropTrailingBlank_snoc, <- Hd. apply dropTrailingBlank_idem.
Qed.

Lemma containsByte_app c a b :
  containsByte c (a ++ b)%string = containsByte c a || containsByte c b.
Proof.
  induction a as [|x a IH]; [reflexivity|].
  change (String x a ++ b)%string with (String x (a ++ b)%string).
  simpl. rewrite IH, orb_assoc. reflexivity.
Qed.

Lemma keyLine_free key value :
  containsByte lf key = false -> containsByte lf value = false ->
  containsByte lf (keyLine key value) = false.
Proof.
  intros Hk Hv. unfold keyLine. rewrite !containsByte_app, Hk, Hv. reflexivity.
Qed.

Lemma updateLines_free key value lines :
  containsByte lf key = false -> containsByte lf value = false ->
  List.Forall (fun l => containsByte lf l = false) lines ->
  List.Forall (fun l => containsByte lf l = false) (updateLines key value lines).
Proof.
  intros Hk Hv Hfree. pose proof (keyLine_free key value Hk Hv) as Hkv.
  unfold updateLines, sliceAppend.
  destruct (findIndex _ lines); [apply Forall_insert; assumption|].
  destruct (_ && _).
  - destruct (1 <? length lines)%nat; apply Forall_app; split;
      try (apply Forall_insert; assumption); constructor; try reflexivity; constructor.
  - apply Forall_app. split; [exact Hfree|constructor; [exact Hkv|constructor]].
Qed.

Lemma findIndex_first {X} (p : X -> bool) before x after :
  (forall y, In y before -> p y = false) -> p x = true ->
  findIndex p (before ++ x :: after) = Some (length before).
Proof.
  intros Hb Hx. induction before as [|y before IH]; simpl.
  - rewrite Hx. reflexivity.
  - rewrite (Hb y (or_introl eq_refl)), IH; [reflexivity|].
    intros z Hz. apply Hb. right. exact Hz.
Qed.

Lemma findIndex_none {X} (p : X -> bool) l :
  (forall y, In y l -> p y = false) -> findIndex p l = None.
Proof.
  intros H. induction l as [|y l IH]; [reflexivity|].
  simpl. rewrite (H y (or_introl eq_refl)), IH; [reflexivity|].
  intros z Hz. apply H. right. exact Hz.
Qed.

Lemma insert_middle {X} (before : list X) x y after :
  <[length before := y]> (before ++ x :: after) = before ++ y :: after.
Proof. induction before as [|z before IH]; simpl; [reflexivity|]. rewrite IH. reflexivity. Qed.

Lemma updateLines_found key value before old after :
  (forall l, In l before -> keyed key l = false) -> keyed key old = true ->
  updateLines key value (before ++ old :: after) = before ++ keyLine key value :: after.
Proof.
  intros Hb Ho. unfold updateLines.
  rewrite (findIndex_first (keyed key) before old after Hb Ho). apply insert_middle.
Qed.

Lemma updateLines_blank_end key value init :
  (forall l, In l init -> keyed key l = false) ->
  updateLines key value (init ++ [""]) = init ++ [keyLine key value; ""].
Proof.
  intros Hi. unfold updateLines, sliceAppend.
  rewrite (findIndex_none (keyed key)).
  2: { intros l Hl. apply in_app_or in Hl as [Hl|[<-|[]]]; [apply Hi, Hl|].
       unfold keyed, HasPrefix. destruct key; reflexivity. }
  rewrite last_last.
  destruct init as [|a init]; [reflexivity|].
  assert (Hlen : length ((a :: init) ++ [""]) = S (S (length init)))
    by (rewrite length_app; simpl; lia).
  rewrite Hlen. cbn [Nat.ltb Nat.leb String.eqb andb Nat.sub].
  change (S (length init)) with (length (a :: init)).
  rewrite insert_middle, <- app_assoc. reflexivity.
Qed.

Lemma updateLines_append key value lines :
  (forall l, In l lines -> keyed key l = false) -> List.last lines "x" <> "" ->
  updateLines key value lines = lines ++ [keyLine key value].
Proof.
  intros Hl Hlast. unfold updateLines, sliceAppend.
  rewrite (findIndex_none (keyed key) lines Hl).
  destruct (String.eqb_spec (List.last lines "x") ""); [contradiction|].
  rewrite andb_false_r. reflexivity.
Qed.


(** *** Adding a player *)

Lemma prefix_app a b : String.prefix a (a ++ b)%string = true.
Proof.
  induction a as [|x a IH]; [destruct b; reflexivity|].
  change (String x a ++ b)%string with (String x (a ++ b)%string).
  simpl. destruct (ascii_dec x x); [exact IH|contradiction].
Qed.

Lemma keyed_keyLine key value : keyed key (keyLine key value) = true.
Proof.
  unfold keyed, keyLine, HasPrefix.
  rewrite <- string_app_assoc. apply prefix_app.
Qed.

Lemma keyed_blank key : keyed key "" = false.
Proof. unfold keyed, HasPrefix. destruct key; reflexivity. Qed.

Lemma find_dropTrailingBlank key lines :
  find (keyed key) (dropTrailingBlank lines) = find (keyed key) lines.
Proof.
  induction lines as [|l rest IH]; [reflexivity|].
  simpl. destruct (dropTrailingBlank rest) as [|r rs] eqn:Hr.
  - destruct (String.eqb_spec l "") as [->|Hl].
    + rewrite keyed_blank. exact IH.
    + simpl. rewrite <- IH. reflexivity.
  - simpl. rewrite <- IH. reflexivity.
Qed.

Lemma findIndex_Some_split {X} (p : X -> bool) l i :
  findIndex p l = Some i ->
  exists before x after,
    l = before ++ x :: after /\ length before = i
    /\ (forall y, In y before -> p y = false) /\ p x = true.
Proof.
  revert i. induction l as [|y l IH]; intros i H; [discriminate|].
  simpl in H. destruct (p y) eqn:Hy.
  - injection H as <-. exists [], y, l. repeat split; [intros ? []|exact Hy].
  - destruct (findIndex p l) as [j|]; [|discriminate]. injection H as <-.
    destruct (IH j eq_refl) as [before [x [after [-> [Hlen [Hb Hx]]]]]].
    exists (y :: before), x, after. repeat split; [simpl; lia| |exact Hx].
    intros z [<-|Hz]; [exact Hy|apply Hb, Hz].
Qed.

Lemma findIndex_None_all {X} (p : X -> bool) l :
  findIndex p l = None -> forall y, In y l -> p y = false.
Proof.
  induction l as [|x l IH]; intros H y Hy; [destruct Hy|].
  simpl in H. destruct (p x) eqn:Hx; [discriminate|].
  destruct (findIndex p l); [discriminate|].
  destruct Hy as [<-|Hy]; [exact Hx|apply IH; [reflexivity|exact Hy]].
Qed.

Lemma find_updateLines key value lines :
  find (keyed key) (updateLines key value lines) = Some (keyLine key value).
Proof.
  destruct (findIndex (keyed key) lines) as [i|] eqn:Hi.
  - destruct (findIndex_Some_split _ _ _ Hi) as [before [old [after [-> [_ [Hb Ho]]]]]].
    rewrite (updateLines_found key value before old after Hb Ho).
    apply find_first; [exact Hb|apply keyed_keyLine].
  - pose proof (findIndex_None_all _ _ Hi) as Hall.
    destruct (String.eqb_spec (List.last lines "x") "") as [Hlast|Hlast].
    + assert (Hne : lines <> []) by (intros ->; discriminate Hlast).
      rewrite (app_removelast_last "x" Hne), Hlast in Hall |- *.
      rewrite updateLines_blank_end.
      * apply find_first; [|apply keyed_keyLine].
        intros y Hy. apply Hall, in_or_app. left. exact Hy.
      * intros y Hy. apply Hall, in_or_app. left. exact Hy.
    + rewrite (updateLines_append key value lines Hall Hlast).
      rewrite <- (app_nil_r [keyLine key value]) at 1.
      apply (find_first _ lines [] (keyLine key value) Hall), keyed_keyLine.
Qed.

Lemma SplitN2_app_sep a b sep :
  containsByte sep a = false -> SplitN2 (a ++ String sep b)%string sep = [a; b].
Proof.
  induction a as [|c a IH]; intros Ha.
  - change ("" ++ String sep b)%string with (String sep b).
    simpl. rewrite Ascii.eqb_refl. reflexivity.
  - change (String c a ++ String sep b)%string with (String c (a ++ String sep b)%string).
    simpl in Ha. apply orb_false_iff in Ha as [Hc Ha].
    cbn [SplitN2]. rewrite Hc, (IH Ha). reflexivity.
Qed.

(** Reading back a [LOL_PLAYERS] line made of separator-free names. *)
Lemma currentPlayersOf_keyLine lines players :
  find (keyed "LOL_PLAYERS") lines = Some (keyLine "LOL_PLAYERS" (Join players ",")) ->
  players <> [] -> Join players "," <> "" ->
  List.Forall (fun p => containsByte "," p = false) players ->
  currentPlayersOf lines = players.
Proof.
  intros Hf Hne Hj Hfree. unfold currentPlayersOf. rewrite Hf.
  unfold keyLine.
  change ("=" ++ Join players ",")%string with (String "=" (Join players ",")).
  rewrite SplitN2_app_sep by reflexivity.
  cbn [length Nat.eqb nth andb].
  destruct (String.eqb_spec (Join players ",") ""); [contradiction|].
  cbn [negb]. apply Split_Join; assumption.
Qed.

Lemma Split_pieces_free c s sep :
  containsByte c s = false -> List.Forall (fun l => containsByte c l = false) (Split s sep).
Proof.
  induction s as [|x s IH]; intros Hs; simpl in *.
  - constructor; [reflexivity|constructor].
  - apply orb_false_iff in Hs as [Hx Hs]. specialize (IH Hs).
    destruct (Ascii.eqb x sep).
    + constructor; [reflexivity|exact IH].
    + destruct (Split s sep) as [|y ys].
      * constructor; [simpl; rewrite Hx; reflexivity|constructor].
      * inversion IH as [|? ? Hy Hys]; subst.
        constructor; [simpl; rewrite Hx; exact Hy|exact Hys].
Qed.

Lemma SplitN2_pieces_free c s sep :
  containsByte c s = false -> List.Forall (fun l => containsByte c l = false) (SplitN2 s sep).
Proof.
  induction s as [|x s IH]; intros Hs; simpl in *.
  - constructor; [reflexivity|constructor].
  - apply orb_false_iff in Hs as [Hx Hs]. specialize (IH Hs).
    destruct (Ascii.eqb x sep).
    + constructor; [reflexivity|]. constructor; [exact Hs|constructor].
    + destruct (SplitN2 s sep) as [|y ys].
      * constructor; [simpl; rewrite Hx; reflexivity|constructor].
      * inversion IH as [|? ? Hy Hys]; subst.
        constructor; [simpl; rewrite Hx; exact Hy|exact Hys].
Qed.

Lemma Forall_nth_free c (l : list string) n :
  List.Forall (fun s => containsByte c s = false) l -> containsByte c (nth n l "") = false.
Proof.
  intros H. revert n. induction H as [|x l Hx Hl IH]; intros [|n]; simpl; auto.
Qed.

Lemma currentPlayersOf_free lines :
  List.Forall (fun l => containsByte lf l = false) lines ->
  List.Forall (fun p => containsByte lf p = false) (currentPlayersOf lines)
  /\ List.Forall (fun p => containsByte "," p = false) (currentPlayersOf lines).
Proof.
  intros Hfree. unfold currentPlayersOf.
  destruct (find (keyed "LOL_PLAYERS") lines) as [line|] eqn:Hf; [|split; constructor].
  destruct (_ && _); [|split; constructor].
  split; [|apply Split_free].
  apply Split_pieces_free, Forall_nth_free, SplitN2_pieces_free.
  apply find_some in Hf as [Hin _].
  rewrite List.Forall_forall in Hfree. apply Hfree, Hin.
Qed.

Lemma containsByte_Join c sep players :
  containsByte c sep = false ->
  List.Forall (fun p => containsByte c p = false) players ->
  containsByte c (Join players sep) = false.
Proof.
  intros Hsep. induction 1 as [|p rest Hp Hrest IH]; [reflexivity|].
  destruct rest as [|q rest]; [exact Hp|].
  change (Join (p :: q :: rest) sep) with (p ++ sep ++ Join (q :: rest) sep)%string.
  rewrite !containsByte_app, Hp, Hsep, IH. reflexivity.
Qed.

Lemma Join_blank players sep :
  sep <> "" -> Join players sep = "" -> forall p, In p players -> p = "".
Proof.
  intros Hsep Hj p Hp. destruct players as [|x [|y rest]].
  - destruct Hp.
  - destruct Hp as [<-|[]]. exact Hj.
  - exfalso. change (Join (x :: y :: rest) sep)
      with (x ++ sep ++ Join (y :: rest) sep)%string in Hj.
    destruct x; [destruct sep; [contradiction|discriminate Hj]|discriminate Hj].
Qed.

Lemma listable_spec p :
  listable p = true
  <-> p <> "" /\ containsByte "," p = false /\ containsByte lf p = false.
Proof.
  unfold listable, nonBlank. rewrite !andb_true_iff, !negb_true_iff.
  destruct (String.eqb_spec p "") as [Hp|Hp]; cbn [negb]; split.
  - intros [[H _] _]. discriminate H.
  - intros [H _]. contradiction.
  - intros [[_ Hc] Hl]. split; [exact Hp|]. split; [exact Hc|exact Hl].
  - intros [_ [Hc Hl]]. split; [split; [reflexivity|exact Hc]|exact Hl].
Qed.

Lemma existsb_eqb_In p players :
  existsb (fun q => String.eqb q p) players = true <-> In p players.
Proof.
  rewrite existsb_exists. split.
  - intros [q [Hq He]]. apply String.eqb_eq in He. subst. exact Hq.
  - intros H. exists p. split; [exact H|apply String.eqb_refl].
Qed.

(** The list written for a new player, and what is read back from it. *)
Lemma cleanedPlayers_readback p current lines :
  listable p = true ->
  List.Forall (fun q => containsByte "," q = false) current ->
  find (keyed "LOL_PLAYERS") lines
  = Some (keyLine "LOL_PLAYERS"
            (Join (List.filter (fun q => negb (String.eqb q "")) (sliceAppend current p)) ",")) ->
  currentPlayersOf lines = List.filter nonBlank current ++ [p].
Proof.
  intros Hp Hfree Hf. apply listable_spec in Hp as [Hne [Hc _]].
  assert (Hclean : List.filter (fun q => negb (String.eqb q "")) (sliceAppend current p)
                   = List.filter nonBlank current ++ [p]).
  { unfold sliceAppend. rewrite List.filter_app. simpl.
    destruct (String.eqb_spec p ""); [contradiction|reflexivity]. }
  rewrite Hclean in Hf.
  apply currentPlayersOf_keyLine; [exact Hf| | |].
  - destruct (List.filter nonBlank current); discriminate.
  - intros Hj. apply Hne. apply (Join_blank _ "," ltac:(discriminate) Hj).
    apply in_or_app. right. left. reflexivity.
  - apply Forall_app. split; [|constructor; [exact Hc|constructor]].
    apply List.Forall_forall. intros q Hq. apply List.filter_In in Hq as [Hq _].
    rewrite List.Forall_forall in Hfree. apply Hfree, Hq.
Qed.

Lemma updateEnvFile_absent key value w :
  envFile w = FileAbsent -> envWritable w = true ->
  updateEnvFile key value w
  = (None, withFile (FileContent (keyLine key value ++ newline)%string) w).
Proof.
  intros Hf Hw. unfold updateEnvFile, ReadFile, WriteFile, bind, withFile.
  rewrite Hf, Hw. reflexivity.
Qed.

Lemma updateEnvFile_content key value input w :
  envFile w = FileContent input -> envWritable w = true ->
  updateEnvFile key value w
  = (None,
     withFile (FileContent
                 (TrimRight (Join (updateLines key value (Split input lf)) newline) lf
                  ++ newline)%string) w).
Proof.
  intros Hf Hw. unfold updateEnvFile, ReadFile, WriteFile, bind, withFile.
  rewrite Hf, Hw. reflexivity.
Qed.

Lemma updateEnvFile_failed key value w :
  envWritable w = false \/ envFile w = FileUnreadable ->
  exists e, updateEnvFile key value w = (Some e, w).
Proof.
  intros H. unfold updateEnvFile, ReadFile, WriteFile, bind, ret.
  destruct (envFile w) eqn:Hf.
  - destruct H as [Hw|H]; [rewrite Hw; eexists; reflexivity|discriminate].
  - destruct H as [Hw|H]; [rewrite Hw; eexists; reflexivity|discriminate].
  - eexists; reflexivity.
Qed.

Lemma addPlayerToEnvFile_new p w :
  listable p = true -> envWritable w = true -> envFile w <> FileUnreadable ->
  ~ In p (playersOfFile (envFile w)) ->
  exists output,
    addPlayerToEnvFile p w = (None, withFile (FileContent output) w)
    /\ currentPlayersOf (Split output lf)
       = List.filter nonBlank (playersOfFile (envFile w)) ++ [p].
Proof.
  intros Hp Hw Hfile Hnew. pose proof (proj1 (listable_spec p) Hp) as [Hne [Hc Hl]].
  unfold addPlayerToEnvFile. rewrite (bind_run ReadFile _ w _ w eq_refl).
  destruct (envFile w) as [|input|] eqn:Hf; [| |contradiction].
  - rewrite (updateEnvFile_absent _ _ _ Hf Hw).
    eexists. split; [reflexivity|].
    assert (Hkv : containsByte lf (keyLine "LOL_PLAYERS" p) = false)
      by (apply keyLine_free; [reflexivity|exact Hl]).
    unfold newline. rewrite (Split_app_sep _ "" lf Hkv). cbn [Split].
    apply (cleanedPlayers_readback p []); [exact Hp|constructor|].
    cbn [find]. rewrite keyed_keyLine. unfold sliceAppend. simpl List.filter.
    destruct (String.eqb_spec p ""); [contradiction|reflexivity].
  - cbv zeta. simpl in Hnew.
    destruct (existsb _ _) eqn:He; [apply existsb_eqb_In in He; contradiction|].
    destruct (currentPlayersOf_free (Split input lf) (Split_free input lf)) as [Hlf Hcomma].
    rewrite (updateEnvFile_content _ _ _ _ Hf Hw).
    eexists. split; [reflexivity|].
    apply (cleanedPlayers_readback p _ _ Hp Hcomma).
    rewrite <- find_dropTrailingBlank, written_lines, find_dropTrailingBlank.
    + apply find_updateLines.
    + apply updateLines_free; [reflexivity| |apply Split_free].
      apply containsByte_Join; [reflexivity|].
      apply List.Forall_forall. intros q Hq. apply List.filter_In in Hq as [Hq _].
      unfold sliceAppend in Hq. apply in_app_or in Hq as [Hq|[<-|[]]]; [|exact Hl].
      rewrite List.Forall_forall in Hlf. apply Hlf, Hq.
Qed.

Lemma addPlayerToEnvFile_present p w :
  In p (playersOfFile (envFile w)) -> addPlayerToEnvFile p w = (None, w).
Proof.
  intros Hin. unfold addPlayerToEnvFile. rewrite (bind_run ReadFile _ w _ w eq_refl).
  destruct (envFile w) as [|input|]; [destruct Hin| |destruct Hin].
  cbv zeta. simpl in Hin. apply existsb_eqb_In in Hin. rewrite Hin. reflexivity.
Qed.

Lemma addPlayerToEnvFile_failed p w :
  envWritable w = false \/ envFile w = FileUnreadable ->
  ~ In p (playersOfFile (envFile w)) ->
  exists e, addPlayerToEnvFile p w = (Some e, w).
Proof.
  intros H Hnew. unfold addPlayerToEnvFile. rewrite (bind_run ReadFile _ w _ w eq_refl).
  destruct (envFile w) as [|input|] eqn:Hf.
  - apply updateEnvFile_failed. rewrite Hf. exact H.
  - cbv zeta. simpl in Hnew.
    destruct (existsb _ _) eqn:He; [apply existsb_eqb_In in He; contradiction|].
    apply updateEnvFile_failed. rewrite Hf. exact H.
  - eexists. reflexivity.
Qed.

(** The three outcomes of persisting a listable name. *)
Lemma addPlayerToEnvFile_cases p w :
  listable p = true ->
  (In p (playersOfFile (envFile w)) /\ addPlayerToEnvFile p w = (None, w))
  \/ (exists e, addPlayerToEnvFile p w = (Some e, w))
  \/ (~ In p (playersOfFile (envFile w))
      /\ exists output,
           addPlayerToEnvFile p w = (None, withFile (FileContent output) w)
           /\ currentPlayersOf (Split output lf)
              = List.filter nonBlank (playersOfFile (envFile w)) ++ [p]).
Proof.
  intros Hp.
  destruct (in_dec string_dec p (playersOfFile (envFile w))) as [Hin|Hnew].
  { left. split; [exact Hin|apply addPlayerToEnvFile_present, Hin]. }
  right. destruct (envWritable w) eqn:Hw.
  - destruct (envFile w) eqn:Hf.
    + right. split; [exact Hnew|]. rewrite <- Hf in *.
      apply addPlayerToEnvFile_new; try assumption. rewrite Hf. discriminate.
    + right. split; [exact Hnew|]. rewrite <- Hf in *.
      apply addPlayerToEnvFile_new; try assumption. rewrite Hf. discriminate.
    + left. apply addPlayerToEnvFile_failed; [right; exact Hf|rewrite Hf; exact Hnew].
  - left. apply addPlayerToEnvFile_failed; [left; exact Hw|exact Hnew].
Qed.

Lemma addPlayerToEnvFile_twice p w :
  listable p = true ->
  addPlayerToEnvFile p (snd (addPlayerToEnvFile p w)) = addPlayerToEnvFile p w.
Proof.
  intros Hp.
  destruct (addPlayerToEnvFile_cases p w Hp)
    as [[_ H]|[[e H]|[_ [output [H Hread]]]]]; rewrite H; cbn [snd].
  - exact H.
  - exact H.
  - apply addPlayerToEnvFile_present. cbn [withFile envFile playersOfFile].
    rewrite Hread. apply in_or_app. right. left. reflexivity.
Qed.

Lemma updateEnvFile_addTrace key value events w :
  updateEnvFile key value (addTrace events w)
  = (fst (updateEnvFile key value w), addTrace events (snd (updateEnvFile key value w))).
Proof.
  destruct w as [players file writable clk tr].
  unfold updateEnvFile, ReadFile, WriteFile, bind, ret, addTrace. simpl.
  destruct file, writable; reflexivity.
Qed.

Lemma addPlayerToEnvFile_addTrace p events w :
  addPlayerToEnvFile p (addTrace events w)
  = (fst (addPlayerToEnvFile p w), addTrace events (snd (addPlayerToEnvFile p w))).
Proof.
  unfold addPlayerToEnvFile.
  rewrite (bind_run ReadFile _ w _ w eq_refl).
  rewrite (bind_run ReadFile _ (addTrace events w) _ (addTrace events w) eq_refl).
  change (envFile (addTrace events w)) with (envFile w).
  destruct (envFile w); [apply updateEnvFile_addTrace| |reflexivity].
  cbv zeta. destruct (existsb _ _); [reflexivity|apply updateEnvFile_addTrace].
Qed.

Lemma string_app_inv_head (a s1 s2 : string) : (a ++ s1 = a ++ s2)%string -> s1 = s2.
Proof.
  induction a as [|x a IH]; intros H; [exact H|].
  apply IH. change (String x (a ++ s1) = String x (a ++ s2))%string in H.
  injection H as H. exact H.
Qed.

(** The messages of [!add] other than the success message differ from it. *)
Ltac not_added_message E :=
  unfold addedMessage in E; injection E as E;
  first [ discriminate E
        | apply (string_app_inv_head EmptyString) in E;
          apply string_app_inv_head in E; discriminate E ].

Lemma addCommand_rejected content w :
  addRejected content (lolPlayersEnv w) = true ->
  exists events,
    addCommand content w = (tt, addTrace events w)
    /\ ~ In (EvSend (addedMessage (addedIdentity content))) events.
Proof.
  unfold addRejected, addCommand, addedIdentity. cbv zeta.
  set (id := TrimSpace (TrimPrefix content "!add ")).
  intros H.
  destruct (String.eqb_spec id "") as [Hid|Hid].
  { rewrite send_run. eexists. split; [reflexivity|]. intros [E|[]]. not_added_message E. }
  destruct (negb _ || _ || _).
  { rewrite send_run. eexists. split; [reflexivity|]. intros [E|[]]. not_added_message E. }
  rewrite (bind_run getPlayers _ w (lolPlayersEnv w) w eq_refl).
  destruct (existsb _ _).
  { rewrite send_run. eexists. split; [reflexivity|]. intros [E|[]]. not_added_message E. }
  unfold getAccountByRiotID. run_head.
  destruct (remoteAccount _ _) as [account|e]; [discriminate H|].
  rewrite send_run, addTrace_app. eexists. split; [reflexivity|].
  intros [E|[E|[]]]; [discriminate E|not_added_message E].
Qed.

Lemma addCommand_accepted content w :
  addRejected content (lolPlayersEnv w) = false ->
  addCommand content w
  = match addPlayerToEnvFile (addedIdentity content)
            (addTrace [accountCall (addedIdentity content)] w) with
    | (Some _, w') =>
        (tt, addTrace [EvSend ("`" ++ addedIdentity content
                               ++ "` の追加中にエラーが発生しました。")%string] w')
    | (None, w') =>
        (tt, addTrace [EvSend (addedMessage (addedIdentity content))]
               (snd (appendPlayer (addedIdentity content) w')))
    end.
Proof.
  unfold addRejected, addCommand, addedIdentity, accountCall. cbv zeta.
  set (id := TrimSpace (TrimPrefix content "!add ")).
  intros H.
  destruct (String.eqb id ""); [discriminate H|].
  destruct (negb _ || _ || _); [discriminate H|].
  rewrite (bind_run getPlayers _ w (lolPlayersEnv w) w eq_refl).
  destruct (existsb _ _); [discriminate H|].
  unfold getAccountByRiotID. run_head.
  destruct (remoteAccount _ _) as [account|e]; [|discriminate H].
  unfold bind at 1.
  destruct (addPlayerToEnvFile id _) as [[e|] w']; [rewrite send_run; reflexivity|].
  unfold bind at 1. unfold appendPlayer at 1. rewrite send_run. reflexivity.
Qed.

Lemma addPlayerToEnvFile_error_unchanged p w e :
  fst (addPlayerToEnvFile p w) = Some e -> snd (addPlayerToEnvFile p w) = w.
Proof.
  destruct w as [players file writable clk tr].
  unfold addPlayerToEnvFile, updateEnvFile, ReadFile, WriteFile, bind, ret. simpl.
  destruct file, writable; cbv zeta; simpl;
    repeat match goal with
           | |- context [if ?b then _ else _] => destruct b
           end; simpl; intros H; try discriminate H; reflexivity.
Qed.

Lemma addCommand_persist_failed content w e :
  addRejected content (lolPlayersEnv w) = false ->
  fst (addPlayerToEnvFile (addedIdentity content) w) = Some e ->
  addCommand content w
  = (tt, addTrace [accountCall (addedIdentity content);
                   EvSend ("`" ++ addedIdentity content
                           ++ "` の追加中にエラーが発生しました。")%string] w).
Proof.
  intros Hacc Hfail. rewrite (addCommand_accepted _ _ Hacc), addPlayerToEnvFile_addTrace.
  rewrite Hfail, (addPlayerToEnvFile_error_unchanged _ _ _ Hfail), addTrace_app.
  reflexivity.
Qed.

Lemma addCommand_persisted content w :
  addRejected content (lolPlayersEnv w) = false ->
  fst (addPlayerToEnvFile (addedIdentity content) w) = None ->
  roster (snd (addCommand content w))
  = (lolPlayersEnv w ++ [addedIdentity content],
     envFile (snd (addPlayerToEnvFile (addedIdentity content) w)))
  /\ trace (snd (addCommand content w))
     = trace w ++ [accountCall (addedIdentity content);
                   EvSend (addedMessage (addedIdentity content))].
Proof.
  intros Hacc Hok. rewrite (addCommand_accepted _ _ Hacc), addPlayerToEnvFile_addTrace.
  rewrite Hok. cbn [snd].
  destruct (addPlayerToEnvFile_frame (addedIdentity content) w) as [Htr Hpl].
  unfold roster, appendPlayer, sliceAppend. cbn [snd lolPlayersEnv envFile trace addTrace].
  rewrite Hpl, Htr, <- app_assoc. split; reflexivity.
Qed.

(** C10. [!add] touches the in-memory roster only after persisting
    succeeded: if persisting the identity to the roster file returns an
    error, the in-memory list is left as it was and the success message is
    not among the messages of the command; and whenever the command changes
    the in-memory list, persisting returned no error, the list is the old
    one followed by the new identity, the file is the one persisting left
    and the success message is the last thing sent. *)
Theorem add_player_updates_memory_after_persisting :
  (forall content w e,
      fst (addPlayerToEnvFile (addedIdentity content) w) = Some e ->
      lolPlayersEnv (snd (addCommand content w)) = lolPlayersEnv w
      /\ envFile (snd (addCommand content w)) = envFile w
      /\ exists events,
           trace (snd (addCommand content w)) = trace w ++ events
           /\ ~ In (EvSend (addedMessage (addedIdentity content))) events)
  /\ (forall content w,
         lolPlayersEnv (snd (addCommand content w)) <> lolPlayersEnv w ->
         fst (addPlayerToEnvFile (addedIdentity content) w) = None
         /\ lolPlayersEnv (snd (addCommand content w))
            = lolPlayersEnv w ++ [addedIdentity content]
         /\ envFile (snd (addCommand content w))
            = envFile (snd (addPlayerToEnvFile (addedIdentity content) w))
         /\ trace (snd (addCommand content w))
            = trace w ++ [accountCall (addedIdentity content);
                          EvSend (addedMessage (addedIdentity content))]).
Proof.
  split.
  - intros content w e Hfail.
    destruct (addRejected content (lolPlayersEnv w)) eqn:Hrej.
    + destruct (addCommand_rejected _ _ Hrej) as [events [Hrun Hno]].
      rewrite Hrun. cbn [snd]. split; [reflexivity|]. split; [reflexivity|].
      exists events. split; [reflexivity|exact Hno].
    + rewrite (addCommand_persist_failed _ _ _ Hrej Hfail). cbn [snd].
      split; [reflexivity|]. split; [reflexivity|].
      eexists. split; [reflexivity|].
      intros [E|[E|[]]]; [discriminate E|not_added_message E].
  - intros content w Hchanged.
    destruct (addRejected content (lolPlayersEnv w)) eqn:Hrej.
    { destruct (addCommand_rejected _ _ Hrej) as [events [Hrun _]].
      rewrite Hrun in Hchanged. contradiction Hchanged. reflexivity. }
    destruct (fst (addPlayerToEnvFile (addedIdentity content) w)) as [e|] eqn:Hp.
    { rewrite (addCommand_persist_failed _ _ _ Hrej Hp) in Hchanged.
      contradiction Hchanged. reflexivity. }
    destruct (addCommand_persisted _ _ Hrej Hp) as [Hroster Htrace].
    unfold roster in Hroster. injection Hroster as Hpl Hfile.
    split; [reflexivity|]. split; [exact Hpl|]. split; [exact Hfile|exact Htrace].
Qed.

Lemma addRejected_member content players :
  In (addedIdentity content) players -> addRejected content players = true.
Proof.
  intros Hin. unfold addRejected. cbv zeta.
  rewrite (proj2 (existsb_eqb_In _ _) Hin).
  destruct (String.eqb _ ""); [reflexivity|].
  destruct (negb _ || _ || _); reflexivity.
Qed.

Lemma addRejected_after_append content players :
  addRejected content players = false ->
  addRejected content (players ++ [addedIdentity content]) = true.
Proof.
  intros _. apply addRejected_member, in_or_app. right. left. reflexivity.
Qed.

Lemma addCommand_twice content w :
  roster (snd (addCommand content (snd (addCommand content w))))
  = roster (snd (addCommand content w)).
Proof.
  destruct (addRejected content (lolPlayersEnv w)) eqn:Hrej.
  - destruct (addCommand_rejected _ _ Hrej) as [events [Hrun _]].
    rewrite Hrun. cbn [snd].
    destruct (addCommand_rejected content (addTrace events w) Hrej) as [events' [Hrun' _]].
    rewrite Hrun'. reflexivity.
  - destruct (fst (addPlayerToEnvFile (addedIdentity content) w)) as [e|] eqn:Hp.
    + rewrite (addCommand_persist_failed _ _ _ Hrej Hp). cbn [snd].
      rewrite (addCommand_persist_failed content (addTrace _ w) e Hrej).
      * reflexivity.
      * rewrite addPlayerToEnvFile_addTrace. exact Hp.
    + destruct (addCommand_persisted _ _ Hrej Hp) as [Hroster _].
      assert (Hrej' : addRejected content (lolPlayersEnv (snd (addCommand content w))) = true).
      { unfold roster in Hroster. injection Hroster as -> _.
        apply addRejected_after_append, Hrej. }
      destruct (addCommand_rejected _ _ Hrej') as [events [Hrun _]].
      rewrite Hrun. reflexivity.
Qed.

(** C9. Upserting an identity that is already in the comma-separated
    [LOL_PLAYERS] list appends nothing: the store-level upsert returns
    without writing, and [!add] stops at its in-memory check, leaving file
    and list as they were. Hence a second upsert of the same player changes
    nothing after the first: for the store-level upsert of a name that can
    stand as a list element (non-empty, without comma or line feed), and
    for the [!add] command of any identity; after a successful upsert of a
    name that was absent it occurs exactly once in the list read from the
    file, also when the upsert is repeated. *)
Theorem upsert_existing_player_adds_no_duplicate :
  (forall p w,
      In p (playersOfFile (envFile w)) -> addPlayerToEnvFile p w = (None, w))
  /\ (forall content w,
         In (addedIdentity content) (lolPlayersEnv w) ->
         roster (snd (addCommand content w)) = roster w)
  /\ (forall p w,
         listable p = true ->
         addPlayerToEnvFile p (snd (addPlayerToEnvFile p w)) = addPlayerToEnvFile p w)
  /\ (forall p w,
         listable p = true -> ~ In p (playersOfFile (envFile w)) ->
         fst (addPlayerToEnvFile p w) = None ->
         playersOfFile (envFile (snd (addPlayerToEnvFile p w)))
         = List.filter nonBlank (playersOfFile (envFile w)) ++ [p]
         /\ count_occ string_dec
              (playersOfFile (envFile (snd (addPlayerToEnvFile p (snd (addPlayerToEnvFile p w))))))
              p = 1%nat)
  /\ (forall content w,
         roster (snd (addCommand content (snd (addCommand content w))))
         = roster (snd (addCommand content w))).
Proof.
  split; [exact addPlayerToEnvFile_present|].
  split; [|split; [exact addPlayerToEnvFile_twice|split; [|exact addCommand_twice]]].
  - intros content w Hin.
    destruct (addCommand_rejected _ _ (addRejected_member _ _ Hin)) as [events [Hrun _]].
    rewrite Hrun. reflexivity.
  - intros p w Hp Hnew Hok.
    rewrite (addPlayerToEnvFile_twice p w Hp).
    destruct (addPlayerToEnvFile_cases p w Hp)
      as [[Hin _]|[[e H]|[_ [output [H Hread]]]]].
    + contradiction.
    + rewrite H in Hok. discriminate Hok.
    + rewrite H. cbn [snd withFile envFile playersOfFile]. rewrite Hread.
      split; [reflexivity|].
      rewrite count_occ_app. cbn [count_occ].
      destruct (string_dec p p); [|contradiction].
      rewrite (proj1 (count_occ_not_In string_dec _ p)); [reflexivity|].
      intros Hin. apply List.filter_In in Hin as [Hin _]. contradiction.
Qed.

(** *** Further properties of the rank ordering *)

(** X1. The comparison handed to the sort is a strict weak order on the
    players: no player comes before itself, the comparison is asymmetric
    and transitive, and two players are tied (neither before the other)
    exactly when their keys (tier ordinal, division ordinal, league points)
    are equal. *)
Theorem rankLess_strict_weak_order :
  (forall a, rankLess a a = false)
  /\ (forall a b, rankLess a b = true -> rankLess b a = false)
  /\ (forall a b c, rankLess a b = true -> rankLess b c = true -> rankLess a c = true)
  /\ (forall a b,
         (rankLess a b = false /\ rankLess b a = false) <-> sortKey a = sortKey b).
Proof.
  split; [|split; [|split]].
  - intros a. apply rankLess_false. right. reflexivity.
  - intros a b. rewrite rankLess_spec, rankLess_false. intros H. left. exact H.
  - intros a b c. rewrite !rankLess_spec. unfold keyLt, sortKey. lia.
  - intros a b. rewrite !rankLess_false. split.
    + intros [Hab Hba]. apply keyLe_antisym; assumption.
    + intros H. rewrite H. split; right; reflexivity.
Qed.

Lemma mapIndex_range (m : gmap string Z) (pairs : list (string * Z)) lo hi k :
  m = list_to_map pairs -> lo <= 0 <= hi ->
  List.Forall (fun kv => lo <= snd kv <= hi) pairs ->
  lo <= mapIndex m k <= hi.
Proof.
  intros -> H0 Hall. unfold mapIndex.
  destruct (list_to_map pairs !! k) as [v|] eqn:Hk; simpl; [|exact H0].
  apply elem_of_list_to_map_2, list_elem_of_In in Hk.
  rewrite List.Forall_forall in Hall. exact (Hall _ Hk).
Qed.

(** X2. Whatever labels the remote service sends, the tier ordinal lies in
    0..10 and the division ordinal in 0..4. *)
Theorem getRankValues_range tier rank :
  0 <= fst (getRankValues tier rank) <= 10 /\ 0 <= snd (getRankValues tier rank) <= 4.
Proof.
  unfold getRankValues. cbn [fst snd]. split.
  - apply (mapIndex_range tierMap _ 0 10 _ eq_refl); [lia|].
    repeat (constructor; [simpl; lia|]). constructor.
  - apply (mapIndex_range rankMap _ 0 4 _ eq_refl); [lia|].
    repeat (constructor; [simpl; lia|]). constructor.
Qed.

Lemma SliceStable_sorted_id (l : list PlayerRankInfo) :
  StronglySorted (fun a b => rankLess b a = false) l -> Sort.SliceStable rankLess l = l.
Proof.
  intros Hs. symmetry. apply SliceStable_unique; [exact Hs|]. intros k. reflexivity.
Qed.

(** X3. The leaderboard order is determined by the keys and the input
    order: an arrangement that is descending by key and lists the players
    of every key in their input order is the one the sort returns. So a list
    already in descending order comes back unchanged, and sorting a sorted
    list again changes nothing. *)
Theorem leaderboard_order_determined :
  (forall playerRanks arranged : list PlayerRankInfo,
      (forall i j a b, arranged !! i = Some a -> arranged !! j = Some b -> (i < j)%nat ->
                       keyLe (sortKey b) (sortKey a)) ->
      (forall k, List.filter (fun p => keyEqb (sortKey p) k) arranged
                 = List.filter (fun p => keyEqb (sortKey p) k) playerRanks) ->
      arranged = Sort.SliceStable rankLess playerRanks)
  /\ (forall playerRanks : list PlayerRankInfo,
         (forall i j a b, playerRanks !! i = Some a -> playerRanks !! j = Some b -> (i < j)%nat ->
                          keyLe (sortKey b) (sortKey a)) ->
         Sort.SliceStable rankLess playerRanks = playerRanks)
  /\ (forall playerRanks : list PlayerRankInfo,
         Sort.SliceStable rankLess (Sort.SliceStable rankLess playerRanks)
         = Sort.SliceStable rankLess playerRanks).
Proof.
  assert (Hsorted : forall l : list PlayerRankInfo,
             (forall i j a b, l !! i = Some a -> l !! j = Some b -> (i < j)%nat ->
                              keyLe (sortKey b) (sortKey a)) ->
             StronglySorted (fun a b => rankLess b a = false) l).
  { induction l as [|x l IH]; intros H; constructor.
    - apply IH. intros i j a b Hi Hj Hlt. apply (H (S i) (S j) a b Hi Hj). lia.
    - apply List.Forall_forall. intros y Hy.
      apply list_elem_of_In, list_elem_of_lookup in Hy as [j Hj].
      apply rankLess_false. apply (H 0%nat (S j) x y eq_refl Hj). lia. }
  split; [|split].
  - intros playerRanks arranged Hdesc Hstable.
    apply SliceStable_unique; [apply Hsorted, Hdesc|exact Hstable].
  - intros playerRanks Hdesc. apply SliceStable_sorted_id, Hsorted, Hdesc.
  - intros playerRanks. apply SliceStable_sorted_id, SliceStable_sorted;
      [exact rankLess_asym|exact rankLess_negtrans].
Qed.

(** *** Further properties of the leaderboard command *)

Lemma playerInfo_RiotID raw leagueEntries : RiotID (playerInfo raw leagueEntries) = raw.
Proof.
  unfold playerInfo. destruct (find soloQueue leagueEntries); reflexivity.
Qed.

Lemma contribution_RiotID raw :
  map RiotID (contribution raw) = if resolves raw then [raw] else [].
Proof.
  unfold contribution, resolves. destruct (wellFormed raw); [|reflexivity].
  destruct (leagueOf raw); simpl; [rewrite playerInfo_RiotID|]; reflexivity.
Qed.

Lemma roster_RiotIDs players :
  map RiotID (flat_map contribution players) = List.filter resolves players.
Proof.
  induction players as [|raw players IH]; [reflexivity|].
  cbn [flat_map List.filter]. rewrite List.map_app, contribution_RiotID, IH.
  destruct (resolves raw); reflexivity.
Qed.

Lemma opggLinkOf_wellFormed riotID :
  wellFormed riotID = true ->
  opggLinkOf riotID
  = ("https://www.op.gg/summoners/jp/" ++ PathEscape (nth 0 (Split riotID "#") "")
     ++ "-" ++ PathEscape (nth 1 (Split riotID "#") ""))%string.
Proof. intros Hwf. unfold wellFormed in Hwf. unfold opggLinkOf. rewrite Hwf. reflexivity. Qed.

Lemma rankingLine_linked i pr :
  wellFormed (RiotID pr) = true ->
  exists rest,
    rankingLine i pr
    = ("**" ++ Fmt.d (Z.of_nat i + 1) ++ "位**： [`" ++ RiotID pr
       ++ "`](<https://www.op.gg/summoners/jp/" ++ rest)%string.
Proof.
  intros Hwf. unfold rankingLine. rewrite (opggLinkOf_wellFormed _ Hwf).
  set (name := PathEscape (nth 0 (Split (RiotID pr) "#") "")).
  set (tag := PathEscape (nth 1 (Split (RiotID pr) "#") "")).
  set (pos := Fmt.d (Z.of_nat i + 1)).
  change (String.eqb ("https://www.op.gg/summoners/jp/" ++ name ++ "-" ++ tag)%string "")
    with false.
  cbn [negb].
  destruct (String.eqb (Tier pr) "UNRANKED").
  - exists (name ++ "-" ++ tag ++ ">) (UNRANKED)")%string.
    rewrite !string_app_assoc. reflexivity.
  - exists (name ++ "-" ++ tag ++ ">) (**" ++ Title (ToLower (Tier pr)) ++ " " ++ Rank pr
            ++ "** " ++ Fmt.d (LeaguePoints pr) ++ "LP)")%string.
    rewrite !string_app_assoc. reflexivity.
Qed.

(** X4. The leaderboard holds exactly the roster members that come
    through the three resolutions: the loop collects them in roster order,
    the sorted board is a rearrangement of them, the message has the title
    and one line per such member, and the line at position i starts with
    the rank i+1 and the member's identity linked to its profile page. *)
Theorem leaderboard_lists_resolving_members players w :
  map RiotID (fst (forEach players rankingBody [] w)) = List.filter resolves players
  /\ Permutation (map RiotID (Sort.SliceStable rankLess (fst (forEach players rankingBody [] w))))
                 (List.filter resolves players)
  /\ length (rankedMessages (Sort.SliceStable rankLess (fst (forEach players rankingBody [] w))))
     = S (length (List.filter resolves players))
  /\ (forall i pr,
         Sort.SliceStable rankLess (fst (forEach players rankingBody [] w)) !! i = Some pr ->
         exists rest,
           rankedMessages (Sort.SliceStable rankLess (fst (forEach players rankingBody [] w)))
             !! S i
           = Some ("**" ++ Fmt.d (Z.of_nat i + 1) ++ "位**： [`" ++ RiotID pr
                   ++ "`](<https://www.op.gg/summoners/jp/" ++ rest)%string).
Proof.
  rewrite rankingLoop_run. cbn [fst app].
  assert (Hperm : Permutation
                    (map RiotID (Sort.SliceStable rankLess (flat_map contribution players)))
                    (List.filter resolves players)).
  { rewrite <- roster_RiotIDs. apply Permutation_map, SliceStable_perm. }
  split; [apply roster_RiotIDs|]. split; [exact Hperm|]. split.
  - unfold rankedMessages. cbn [length]. f_equal.
    rewrite length_imap. rewrite <- (Permutation_length Hperm), length_map. reflexivity.
  - intros i pr Hi. unfold rankedMessages.
    assert (Hwf : wellFormed (RiotID pr) = true).
    { assert (Hin : In (RiotID pr) (List.filter resolves players)).
      { apply (Permutation_in _ Hperm), in_map, list_elem_of_In.
        apply list_elem_of_lookup. exists i. exact Hi. }
      apply filter_In in Hin as [_ Hres]. unfold resolves in Hres.
      apply andb_true_iff in Hres as [Hres _]. exact Hres. }
    destruct (rankingLine_linked i pr Hwf) as [rest Hrest].
    exists rest. change ((?x :: ?l) !! S i) with (l !! i).
    rewrite list_lookup_imap, Hi. cbn. rewrite Hrest. reflexivity.
Qed.

Lemma playerEvents_no_chat raw e : In e (playerEvents raw) -> isChat e = false.
Proof.
  unfold playerEvents. destruct (wellFormed raw).
  - destruct (accountOf raw); [destruct (summonerOf raw)|]; simpl; intros H;
      repeat (destruct H as [<-|H]; [reflexivity|]); destruct H.
  - simpl. intros [<-|[]]. reflexivity.
Qed.

Lemma string_app_nil_r (s : string) : (s ++ "")%string = s.
Proof.
  induction s as [|a s IH]; [reflexivity|].
  change (String a (s ++ "")%string = String a s). rewrite IH. reflexivity.
Qed.

Lemma string_app_neq (a b : string) c : (a ++ String c b)%string <> a.
Proof.
  intros H. rewrite <- (string_app_nil_r a) in H at 2.
  apply string_app_inv_head in H. discriminate H.
Qed.

(** X5. What [!ranking] says when it has nothing to rank. With an empty
    roster it sends one configuration message and calls nothing; when no
    roster member resolves, the message it delivers is the no-data message;
    and no message it ever sends or edits is the bare title of a board
    without player lines. *)
Theorem ranking_without_data :
  (forall w, lolPlayersEnv w = [] ->
             rankingCommand w = (tt, addTrace [EvSend ".envにLOL_PLAYERSが設定されていません。"] w))
  /\ (forall w, lolPlayersEnv w <> [] -> List.filter resolves (lolPlayersEnv w) = [] ->
                trace (snd (rankingCommand w))
                = trace w
                  ++ EvSend "ランキング集計中です。少々お待ちください... ⏳"
                     :: flat_map playerEvents (lolPlayersEnv w)
                  ++ deliverEvents (chatSend "ランキング集計中です。少々お待ちください... ⏳")
                       noRankDataMessage)
  /\ (forall w, exists events,
         trace (snd (rankingCommand w)) = trace w ++ events
         /\ forall e, In e events -> chatText e <> Some rankingTitle).
Proof.
  split; [|split].
  - intros w Hw. unfold rankingCommand, getPlayers, bind. rewrite Hw. reflexivity.
  - intros w Hw Hnone. rewrite (rankingCommand_run w Hw). cbn [snd]. rewrite trace_addTrace.
    cbv zeta.
    assert (Hlen : length (Sort.SliceStable rankLess (flat_map contribution (lolPlayersEnv w)))
                   = 0%nat).
    { rewrite (Permutation_length (SliceStable_perm rankLess _)).
      rewrite flat_map_contribution_length, Hnone. reflexivity. }
    rewrite Hlen. reflexivity.
  - intros w. destruct (lolPlayersEnv w) as [|p ps] eqn:Hw.
    + eexists. split.
      * unfold rankingCommand, getPlayers, bind. rewrite Hw. reflexivity.
      * intros e [<-|[]]. discriminate.
    + assert (Hne : lolPlayersEnv w <> []) by (rewrite Hw; discriminate).
      eexists. split.
      * rewrite (rankingCommand_run w Hne). cbn [snd]. rewrite trace_addTrace. reflexivity.
      * intros e [<-|He]; [discriminate|].
        apply in_app_or in He as [He|He].
        { apply in_flat_map in He as [raw [_ He]]. apply playerEvents_no_chat in He.
          destruct e; discriminate || (simpl; discriminate). }
        cbv zeta in He.
        assert (Htext : forall b m, In e (deliverEvents b m) -> chatText e = Some m).
        { intros b m. unfold deliverEvents.
          destruct b; [destruct (chatEdit m)|]; simpl; intros H;
            repeat (destruct H as [<-|H]; [reflexivity|]); destruct H. }
        apply Htext in He. rewrite He. clear He Htext.
        destruct (Sort.SliceStable rankLess (flat_map contribution (lolPlayersEnv w)))
          as [|pr prs]; cbn [length Nat.ltb Nat.leb].
        { discriminate. }
        unfold rankedMessages. cbn [imap]. intros H. injection H as H.
        cbn [Join] in H. exact (string_app_neq _ _ _ H).
Qed.

Lemma playerEvents_sleeps raw :
  length (List.filter isSleep (playerEvents raw))
  = (length (List.filter isRemoteCall (playerEvents raw))
     + (if wellFormed raw then 0 else 1))%nat
  /\ (1 <= length (List.filter isSleep (playerEvents raw)) <= 3)%nat.
Proof.
  unfold playerEvents. destruct (wellFormed raw); [|simpl; lia].
  destruct (accountOf raw); [destruct (summonerOf raw)|]; simpl; lia.
Qed.

Lemma roster_sleeps names :
  length (List.filter isSleep (flat_map playerEvents names))
  = (length (List.filter isRemoteCall (flat_map playerEvents names))
     + length (List.filter (fun raw => negb (wellFormed raw)) names))%nat
  /\ (length names <= length (List.filter isSleep (flat_map playerEvents names))
      <= 3 * length names)%nat.
Proof.
  induction names as [|raw names [IH1 IH2]]; [simpl; lia|].
  cbn [flat_map List.filter length]. rewrite !List.filter_app, !List.length_app.
  destruct (playerEvents_sleeps raw) as [H1 H2].
  destruct (wellFormed raw); cbn [negb length]; lia.
Qed.

(** X6. The cost of the roster loop and of the [!rank] loop in delays:
    one delay per remote call made, plus one for each malformed name (for
    which no call is made); so between one and three delays per name. *)
Theorem loops_sleep_once_per_call :
  (forall players w, exists events,
      trace (snd (forEach players rankingBody [] w)) = trace w ++ events
      /\ length (List.filter isSleep events)
         = (length (List.filter isRemoteCall events)
            + length (List.filter (fun raw => negb (wellFormed raw)) players))%nat
      /\ (length players <= length (List.filter isSleep events) <= 3 * length players)%nat)
  /\ (forall names w, exists events,
         trace (snd (forEach names rankBody [] w)) = trace w ++ events
         /\ length (List.filter isSleep events)
            = (length (List.filter isRemoteCall events)
               + length (List.filter (fun raw => negb (wellFormed raw)) names))%nat
         /\ (length names <= length (List.filter isSleep events) <= 3 * length names)%nat).
Proof.
  split.
  - intros players w. exists (flat_map playerEvents players).
    rewrite rankingLoop_run. split; [reflexivity|]. apply roster_sleeps.
  - intros names w. exists (flat_map playerEvents names).
    destruct (rankLoop_run names [] w) as [infos ->]. split; [reflexivity|].
    apply roster_sleeps.
Qed.

(** *** Further properties of [!rank] *)

Lemma rankBody_info rankInfos raw w :
  rankBody rankInfos raw w = (rankInfos ++ [rankInfoOf raw], addTrace (playerEvents raw) w).
Proof.
  unfold rankBody, rankInfoOf, playerEvents, leagueOf, summonerOf, accountOf, wellFormed,
    sleepDelay, getAccountByRiotID, getSummonerByPUUID, getLeagueEntriesBySummonerID,
    sliceAppend.
  cbv zeta. run_head.
  destruct (length (Split raw "#") =? 2)%nat; cbn [negb]; [|reflexivity].
  run_head.
  destruct (remoteAccount _ _) as [account|e]; [|reflexivity]. run_head.
  destruct (remoteSummoner _) as [summoner|e]; [|reflexivity]. run_head.
  destruct (remoteLeague _) as [leagueEntries|e]; reflexivity.
Qed.

Lemma rankLoop_infos names rankInfos w :
  forEach names rankBody rankInfos w
  = (rankInfos ++ map rankInfoOf names, addTrace (flat_map playerEvents names) w).
Proof.
  revert rankInfos w. induction names as [|raw names IH]; intros rankInfos w.
  - simpl. rewrite app_nil_r, addTrace_nil. reflexivity.
  - cbn [forEach]. rewrite (bind_run _ _ _ _ _ (rankBody_info rankInfos raw w)).
    rewrite IH, addTrace_app, <- app_assoc. reflexivity.
Qed.

Lemma rankInfoOf_names raw : exists rest, rankInfoOf raw = (raw ++ ": " ++ rest)%string.
Proof.
  unfold rankInfoOf.
  destruct (wellFormed raw); [|eexists; reflexivity].
  destruct (accountOf raw); [|eexists; reflexivity].
  destruct (summonerOf raw); [|eexists; reflexivity].
  destruct (leagueOf raw) as [leagueEntries|]; [|eexists; reflexivity].
  unfold soloRankText. destruct (find soloQueue leagueEntries) as [entry|].
  - match goal with |- context [String.eqb ?s ""] => destruct (String.eqb s "") end;
      eexists; reflexivity.
  - eexists. reflexivity.
Qed.

(** X7. [!rank] answers every argument: with at least one argument it
    sends, as its last action, one message whose lines are one answer per
    argument, in the order typed; each answer starts with the argument as
    typed, and an argument that is no GameName#TagLine pair is answered
    without a remote call. Without an argument it sends the usage text and
    calls nothing. *)
Theorem rank_answers_every_argument :
  (forall content w,
      (2 <= length (Split content " "))%nat ->
      rankCommand content w
      = (tt, addTrace (flat_map playerEvents (tl (Split content " "))
                       ++ [EvSend (Join (map rankInfoOf (tl (Split content " "))) newline)]) w))
  /\ (forall raw, exists rest, rankInfoOf raw = (raw ++ ": " ++ rest)%string)
  /\ (forall raw, wellFormed raw = false ->
                  existsb isRemoteCall (playerEvents raw) = false
                  /\ rankInfoOf raw
                     = (raw ++ ": Riot IDの形式が正しくありません (例: GameName#TagLine)")%string)
  /\ (forall content w,
         (length (Split content " ") < 2)%nat ->
         rankCommand content w
         = (tt, addTrace [EvSend "使用方法: !rank <サモナー名1> [サモナー名2] ..."] w)).
Proof.
  split; [|split; [|split]].
  - intros content w Hlen. unfold rankCommand. cbv zeta.
    destruct (Nat.ltb_spec (length (Split content " ")) 2) as [Hlt|_]; [lia|].
    rewrite (bind_run _ _ _ _ _ (rankLoop_infos _ [] w)).
    rewrite send_run, addTrace_app. reflexivity.
  - exact rankInfoOf_names.
  - intros raw Hwf. unfold playerEvents, rankInfoOf. rewrite Hwf. split; reflexivity.
  - intros content w Hlen. unfold rankCommand. cbv zeta.
    destruct (Nat.ltb_spec (length (Split content " ")) 2) as [_|Hge]; [|lia].
    reflexivity.
Qed.

(** *** Further properties of [!add] *)

Lemma validIdentity_nonempty id : validIdentity id = true -> id <> "".
Proof. intros H ->. discriminate H. Qed.

Lemma addCommand_local content w :
  validIdentity (addedIdentity content) = false \/ In (addedIdentity content) (lolPlayersEnv w) ->
  exists text, addCommand content w = (tt, addTrace [EvSend text] w).
Proof.
  unfold validIdentity, addCommand, addedIdentity. cbv zeta.
  set (id := TrimSpace (TrimPrefix content "!add ")).
  intros H.
  destruct (String.eqb id ""); [eexists; apply send_run|].
  destruct (negb _ || _ || _); [eexists; apply send_run|].
  destruct H as [H|H]; [discriminate H|].
  rewrite (bind_run getPlayers _ w (lolPlayersEnv w) w eq_refl).
  apply existsb_eqb_In in H. rewrite H. eexists. apply send_run.
Qed.

Lemma addCommand_unverified content w e :
  validIdentity (addedIdentity content) = true ->
  ~ In (addedIdentity content) (lolPlayersEnv w) ->
  accountOf (addedIdentity content) = Err e ->
  addCommand content w
  = (tt, addTrace [accountCall (addedIdentity content);
                   EvSend ("`" ++ addedIdentity content
                           ++ "` のアカウント情報を確認できませんでした。Riot IDが正しいか確認してください。")%string] w).
Proof.
  intros Hvalid Hnew Hacc. pose proof (validIdentity_nonempty _ Hvalid) as Hne.
  revert Hvalid Hnew Hacc Hne.
  unfold validIdentity, addCommand, addedIdentity, accountOf, accountCall. cbv zeta.
  set (id := TrimSpace (TrimPrefix content "!add ")).
  intros Hvalid Hnew Hacc Hne.
  destruct (String.eqb_spec id "") as [Hid|_]; [contradiction|].
  destruct (negb _ || _ || _); [discriminate Hvalid|].
  rewrite (bind_run getPlayers _ w (lolPlayersEnv w) w eq_refl).
  destruct (existsb _ _) eqn:Hex; [apply existsb_eqb_In in Hex; contradiction|].
  unfold getAccountByRiotID. run_head. rewrite Hacc.
  rewrite send_run, addTrace_app. reflexivity.
Qed.

(** X8. [!add] refuses locally what it can: for an identity that is empty,
    that is no GameName#TagLine pair with both parts non-empty (so any
    identity without a '#'), or that is already in the in-memory list, it
    sends one message and does nothing else: no remote call, no file
    access, no change of the list. For a valid new identity whose
    verification fails it makes the one account call and sends the
    could-not-verify message, again without touching file or list. *)
Theorem add_rejects_before_persisting :
  (forall content w,
      validIdentity (addedIdentity content) = false
      \/ In (addedIdentity content) (lolPlayersEnv w) ->
      exists text, addCommand content w = (tt, addTrace [EvSend text] w))
  /\ (forall id, id = "" \/ containsByte "#" id = false -> validIdentity id = false)
  /\ (forall content w e,
         validIdentity (addedIdentity content) = true ->
         ~ In (addedIdentity content) (lolPlayersEnv w) ->
         accountOf (addedIdentity content) = Err e ->
         addCommand content w
         = (tt, addTrace [accountCall (addedIdentity content);
                          EvSend ("`" ++ addedIdentity content
                                  ++ "` のアカウント情報を確認できませんでした。Riot IDが正しいか確認してください。")%string]
                  w)).
Proof.
  split; [exact addCommand_local|]. split; [|exact addCommand_unverified].
  intros id [->|Hfree]; [reflexivity|].
  unfold validIdentity. rewrite (Split_free_id _ _ Hfree). reflexivity.
Qed.




(** *** Further properties of [!daystats] *)

Ltac stats_enter Hlen :=
  unfold handleDayStatsCommand, statsIdentity, statsDate, validIdentity, accountOf, accountCall,
    statsProcessing in *;
  cbv zeta in *;
  match goal with
  | |- context [(length (Split ?content " ") <? 2)%nat] =>
      destruct (Nat.ltb_spec (length (Split content " ")) 2) as [Hlt|_]; [lia|]
  end.

Lemma handleDayStats_invalid content w :
  (2 <= length (Split content " "))%nat ->
  validIdentity (statsIdentity content) = false ->
  exists text, handleDayStatsCommand content w = (tt, addTrace [EvSend text] w).
Proof.
  intros Hlen Hvalid. stats_enter Hlen.
  destruct (negb _ || _ || _); [|discriminate Hvalid].
  eexists. apply send_run.
Qed.

Lemma handleDayStats_bad_date content w e :
  (2 <= length (Split content " "))%nat ->
  dayWindow (statsDate content) (clock w) = Err e ->
  exists text, handleDayStatsCommand content w = (tt, addTrace [EvSend text] w).
Proof.
  intros Hlen Hwin. stats_enter Hlen.
  destruct (negb _ || _ || _); [eexists; apply send_run|].
  rewrite (bind_run timeNow _ w (clock w) w eq_refl). rewrite Hwin.
  eexists. apply send_run.
Qed.

Lemma dayWindow_bad_length dateStr now :
  dateStr <> "" -> String.length dateStr <> 8%nat -> exists e, dayWindow dateStr now = Err e.
Proof.
  intros Hne Hlen. unfold dayWindow, targetDateOf.
  destruct (String.eqb_spec dateStr "") as [E|_]; [contradiction|].
  unfold Time.ParseInLocation_20060102.
  do 8 (destruct dateStr as [|? dateStr]; [eexists; reflexivity|]).
  destruct dateStr; [exfalso; apply Hlen; reflexivity|]. eexists. reflexivity.
Qed.

(** X10. [!daystats] refuses locally what it can: when the identity is no
    GameName#TagLine pair with both parts non-empty, or when the date does
    not parse, it sends one message and does nothing else, in particular
    no remote call. A date that is given and is not eight bytes long never
    parses; leaving the date out always yields a window. *)
Theorem daystats_rejects_before_calling :
  (forall content w,
      (2 <= length (Split content " "))%nat ->
      validIdentity (statsIdentity content) = false ->
      exists text, handleDayStatsCommand content w = (tt, addTrace [EvSend text] w))
  /\ (forall content w e,
         (2 <= length (Split content " "))%nat ->
         dayWindow (statsDate content) (clock w) = Err e ->
         exists text, handleDayStatsCommand content w = (tt, addTrace [EvSend text] w))
  /\ (forall dateStr now,
         dateStr <> "" -> String.length dateStr <> 8%nat ->
         exists e, dayWindow dateStr now = Err e)
  /\ (forall now, exists startTime endTime, dayWindow "" now = Ok (startTime, endTime)).
Proof.
  split; [exact handleDayStats_invalid|]. split; [exact handleDayStats_bad_date|].
  split; [exact dayWindow_bad_length|].
  intros now. unfold dayWindow, targetDateOf. cbn [String.eqb].
  destruct (Time.Hour now Time.jst <? 5); eexists; eexists; reflexivity.
Qed.

Ltac stats_window Hlen Hvalid Hwin w :=
  stats_enter Hlen;
  match goal with
  | |- context [negb ?a || ?b || ?c] => destruct (negb a || b || c); [discriminate Hvalid|]
  end;
  rewrite (bind_run timeNow _ w (clock w) w eq_refl); rewrite Hwin;
  rewrite (bind_run _ _ _ _ _ (ChannelMessageSend_run _ _));
  unfold getAccountByRiotID, getMatchIDsByPUUIDInTimeRange; run_head.

Lemma handleDayStats_no_account content w startTime endTime e :
  (2 <= length (Split content " "))%nat ->
  validIdentity (statsIdentity content) = true ->
  dayWindow (statsDate content) (clock w) = Ok (startTime, endTime) ->
  accountOf (statsIdentity content) = Err e ->
  exists text,
    handleDayStatsCommand content w
    = (tt, addTrace
             ([EvSend (statsProcessing (statsIdentity content) startTime endTime);
               accountCall (statsIdentity content)]
              ++ reportEvents
                   (chatSend (statsProcessing (statsIdentity content) startTime endTime)) text)
             w).
Proof.
  intros Hlen Hvalid Hwin Hacc. stats_window Hlen Hvalid Hwin w.
  rewrite Hacc. rewrite report_run, addTrace_app. eexists. reflexivity.
Qed.

Lemma handleDayStats_no_matches content w startTime endTime account :
  (2 <= length (Split content " "))%nat ->
  validIdentity (statsIdentity content) = true ->
  dayWindow (statsDate content) (clock w) = Ok (startTime, endTime) ->
  accountOf (statsIdentity content) = Ok account ->
  (exists e, remoteMatchIDs (acc_PUUID account) startTime endTime rankedSoloQueueID 100 = Err e)
  \/ remoteMatchIDs (acc_PUUID account) startTime endTime rankedSoloQueueID 100 = Ok [] ->
  exists text,
    handleDayStatsCommand content w
    = (tt, addTrace
             ([EvSend (statsProcessing (statsIdentity content) startTime endTime);
               accountCall (statsIdentity content);
               EvMatchIDs (acc_PUUID account) startTime endTime rankedSoloQueueID 100]
              ++ reportEvents
                   (chatSend (statsProcessing (statsIdentity content) startTime endTime)) text)
             w).
Proof.
  intros Hlen Hvalid Hwin Hacc Hids. stats_window Hlen Hvalid Hwin w.
  rewrite Hacc. run_head. destruct Hids as [[e Hids]|Hids]; rewrite Hids.
  - rewrite report_run, addTrace_app. eexists. reflexivity.
  - cbn [length Nat.eqb]. rewrite report_run, addTrace_app. eexists. reflexivity.
Qed.

(** X11. [!daystats] stops at the first failure. When the account call
    fails, the placeholder, that call and one error message are all it
    does: no match list is asked for. When the match-list call fails or
    returns no match, the placeholder, the two calls and one message are
    all it does: no match is fetched and no delay is taken. The match list
    is asked for the window bounds, queue 420 and at most 100 ids. *)
Theorem daystats_stops_at_first_failure content w startTime endTime :
  (2 <= length (Split content " "))%nat ->
  validIdentity (statsIdentity content) = true ->
  dayWindow (statsDate content) (clock w) = Ok (startTime, endTime) ->
  (forall e, accountOf (statsIdentity content) = Err e ->
     exists text,
       handleDayStatsCommand content w
       = (tt, addTrace
                ([EvSend (statsProcessing (statsIdentity content) startTime endTime);
                  accountCall (statsIdentity content)]
                 ++ reportEvents
                      (chatSend (statsProcessing (statsIdentity content) startTime endTime)) text)
                w))
  /\ (forall account,
         accountOf (statsIdentity content) = Ok account ->
         (exists e, remoteMatchIDs (acc_PUUID account) startTime endTime 420 100 = Err e)
         \/ remoteMatchIDs (acc_PUUID account) startTime endTime 420 100 = Ok [] ->
         exists text,
           handleDayStatsCommand content w
           = (tt, addTrace
                    ([EvSend (statsProcessing (statsIdentity content) startTime endTime);
                      accountCall (statsIdentity content);
                      EvMatchIDs (acc_PUUID account) startTime endTime 420 100]
                     ++ reportEvents
                          (chatSend (statsProcessing (statsIdentity content) startTime endTime))
                          text)
                    w)).
Proof.
  intros Hlen Hvalid Hwin. split.
  - intros e. apply handleDayStats_no_account; assumption.
  - intros account. apply handleDayStats_no_matches; assumption.
Qed.

(** X12. A [!daystats] query that gets a non-empty match list fetches each
    listed match once, in the listed order, each after one delay, and ends
    by delivering the result text with the tally folded over the list from
    (0, 0). *)
Theorem daystats_fetches_listed_matches content w startTime endTime account matchIDs :
  (2 <= length (Split content " "))%nat ->
  validIdentity (statsIdentity content) = true ->
  dayWindow (statsDate content) (clock w) = Ok (startTime, endTime) ->
  accountOf (statsIdentity content) = Ok account ->
  remoteMatchIDs (acc_PUUID account) startTime endTime 420 100 = Ok matchIDs ->
  matchIDs <> [] ->
  handleDayStatsCommand content w
  = (tt, addTrace
           ([EvSend (statsProcessing (statsIdentity content) startTime endTime);
             accountCall (statsIdentity content);
             EvMatchIDs (acc_PUUID account) startTime endTime 420 100]
            ++ flat_map matchEvents matchIDs
            ++ deliverEvents
                 (chatSend (statsProcessing (statsIdentity content) startTime endTime))
                 (dayStatsResult (statsIdentity content) startTime endTime
                    (fst (fold_left (tallyStep (acc_PUUID account) startTime endTime)
                            matchIDs (0, 0)))
                    (snd (fold_left (tallyStep (acc_PUUID account) startTime endTime)
                            matchIDs (0, 0)))))
           w).
Proof.
  intros Hlen Hvalid Hwin Hacc Hids Hne. stats_window Hlen Hvalid Hwin w.
  rewrite Hacc. run_head. change rankedSoloQueueID with 420. rewrite Hids.
  destruct matchIDs as [|matchID matchIDs]; [contradiction|]. cbn [length Nat.eqb].
  rewrite (bind_run _ _ _ _ _ (tallyLoop_run _ _ _ _ _ _)).
  rewrite deliver_run, !addTrace_app. rewrite <- app_assoc. reflexivity.
Qed.

Lemma tallyStep_outcome puuid startTimeUnix endTimeUnix tally matchID :
  tallyStep puuid startTimeUnix endTimeUnix tally matchID
  = (fst tally + (if isWin (matchOutcome puuid startTimeUnix endTimeUnix matchID) then 1 else 0),
     snd tally + (if isLoss (matchOutcome puuid startTimeUnix endTimeUnix matchID) then 1 else 0)).
Proof.
  unfold tallyStep, matchOutcome, tallyMatch. cbv zeta.
  destruct tally as [wins losses]. cbn [fst snd].
  destruct (remoteMatchDetails matchID) as [matchDetails|e];
    [|cbn [isWin isLoss]; f_equal; lia].
  destruct (_ && _ && _); [|cbn [isWin isLoss]; f_equal; lia].
  destruct (find _ _) as [p|]; cbn [option_map isWin isLoss]; [|f_equal; lia].
  destruct (Win p); cbn [isWin isLoss]; f_equal; lia.
Qed.

Lemma tally_counts puuid startTimeUnix endTimeUnix matchIDs tally :
  fold_left (tallyStep puuid startTimeUnix endTimeUnix) matchIDs tally
  = (fst tally
     + Z.of_nat (length (List.filter
                           (fun id => isWin (matchOutcome puuid startTimeUnix endTimeUnix id))
                           matchIDs)),
     snd tally
     + Z.of_nat (length (List.filter
                           (fun id => isLoss (matchOutcome puuid startTimeUnix endTimeUnix id))
                           matchIDs))).
Proof.
  revert tally. induction matchIDs as [|matchID matchIDs IH]; intros tally.
  - destruct tally. cbn. f_equal; lia.
  - cbn [fold_left List.filter]. rewrite IH, tallyStep_outcome. cbn [fst snd].
    destruct (isWin _), (isLoss _); cbn [length]; f_equal; lia.
Qed.

(** X13. The tally of the match loop counts: the wins are the listed
    matches that count as a win, the losses those that count as a loss
    (a match counts when its fetch succeeds, it lies in the window and in
    queue 420 and the player is among its participants). Both are
    non-negative and together they never exceed the number of listed
    matches. *)
Theorem tally_counts_listed_matches puuid startTimeUnix endTimeUnix matchIDs w :
  fst (forEach matchIDs (tallyBody puuid startTimeUnix endTimeUnix) (0, 0) w)
  = (Z.of_nat (length (List.filter
                         (fun id => isWin (matchOutcome puuid startTimeUnix endTimeUnix id))
                         matchIDs)),
     Z.of_nat (length (List.filter
                         (fun id => isLoss (matchOutcome puuid startTimeUnix endTimeUnix id))
                         matchIDs)))
  /\ 0 <= fst (fst (forEach matchIDs (tallyBody puuid startTimeUnix endTimeUnix) (0, 0) w))
  /\ 0 <= snd (fst (forEach matchIDs (tallyBody puuid startTimeUnix endTimeUnix) (0, 0) w))
  /\ fst (fst (forEach matchIDs (tallyBody puuid startTimeUnix endTimeUnix) (0, 0) w))
     + snd (fst (forEach matchIDs (tallyBody puuid startTimeUnix endTimeUnix) (0, 0) w))
     <= Z.of_nat (length matchIDs).
Proof.
  rewrite tallyLoop_run, tally_counts. cbn [fst snd]. split; [reflexivity|].
  split; [lia|]. split; [lia|].
  induction matchIDs as [|matchID matchIDs IH]; [cbn; lia|].
  cbn [List.filter].
  destruct (matchOutcome puuid startTimeUnix endTimeUnix matchID) as [[|]|];
    cbn [isWin isLoss length]; lia.
Qed.

(** X14. The tally does not depend on the order in which the matches are
    listed, and the tally of two lists one after the other is the sum of
    their tallies. *)
Theorem tally_is_order_independent puuid startTimeUnix endTimeUnix :
  (forall matchIDs matchIDs',
      Permutation matchIDs matchIDs' ->
      fold_left (tallyStep puuid startTimeUnix endTimeUnix) matchIDs (0, 0)
      = fold_left (tallyStep puuid startTimeUnix endTimeUnix) matchIDs' (0, 0))
  /\ (forall matchIDs matchIDs',
         fold_left (tallyStep puuid startTimeUnix endTimeUnix) (matchIDs ++ matchIDs') (0, 0)
         = (fst (fold_left (tallyStep puuid startTimeUnix endTimeUnix) matchIDs (0, 0))
            + fst (fold_left (tallyStep puuid startTimeUnix endTimeUnix) matchIDs' (0, 0)),
            snd (fold_left (tallyStep puuid startTimeUnix endTimeUnix) matchIDs (0, 0))
            + snd (fold_left (tallyStep puuid startTimeUnix endTimeUnix) matchIDs' (0, 0)))).
Proof.
  split.
  - intros matchIDs matchIDs' Hperm. rewrite !tally_counts. cbn [fst snd].
    assert (Hlen : forall p : string -> bool,
               length (List.filter p matchIDs) = length (List.filter p matchIDs')).
    { intros p. clear -Hperm.
      induction Hperm as [|x l l' _ IH|x y l|l l' l'' _ IH1 _ IH2]; cbn [List.filter].
      - reflexivity.
      - destruct (p x); cbn [length]; rewrite IH; reflexivity.
      - destruct (p x), (p y); reflexivity.
      - rewrite IH1. exact IH2. }
    rewrite !Hlen. reflexivity.
  - intros matchIDs matchIDs'. rewrite !tally_counts. cbn [fst snd].
    rewrite !List.filter_app, !List.length_app. f_equal; lia.
Qed.

(** *** Further properties of the roster file *)

Lemma keyLine_nonempty key value : String.eqb (keyLine key value) "" = false.
Proof. unfold keyLine. destruct key; reflexivity. Qed.

Lemma find_app_split {X} (p : X -> bool) l1 l2 :
  find p (l1 ++ l2) = match find p l1 with Some x => Some x | None => find p l2 end.
Proof.
  induction l1 as [|x l1 IH]; [reflexivity|]. cbn [app find]. destruct (p x); [reflexivity|exact IH].
Qed.

Lemma Join_snoc_blank r rs :
  Join ((r :: rs) ++ [""]) newline = (Join (r :: rs) newline ++ newline)%string.
Proof.
  revert r. induction rs as [|x xs IH]; intros r.
  - simpl. reflexivity.
  - change (Join ((r :: x :: xs) ++ [""]) newline)
      with (r ++ newline ++ Join ((x :: xs) ++ [""]) newline)%string.
    rewrite IH.
    change (Join (r :: x :: xs) newline) with (r ++ newline ++ Join (x :: xs) newline)%string.
    rewrite !string_app_assoc. reflexivity.
Qed.

Lemma Split_written lines :
  lines <> [] -> List.Forall (fun l => containsByte lf l = false) lines ->
  Split (Join lines newline ++ newline)%string lf = lines ++ [""].
Proof.
  intros Hne Hfree. destruct lines as [|r rs]; [contradiction|].
  rewrite <- Join_snoc_blank. apply Split_Join; [discriminate|].
  apply Forall_app. split; [exact Hfree|constructor; [reflexivity|constructor]].
Qed.

Lemma writtenLines_spec key value file :
  containsByte lf key = false -> containsByte lf value = false ->
  List.Forall (fun l => containsByte lf l = false) (writtenLines key value file)
  /\ find (keyed key) (writtenLines key value file) = Some (keyLine key value)
  /\ dropTrailingBlank (writtenLines key value file) = writtenLines key value file.
Proof.
  intros Hk Hv.
  assert (Hone : List.Forall (fun l => containsByte lf l = false) [keyLine key value]
                 /\ find (keyed key) [keyLine key value] = Some (keyLine key value)
                 /\ dropTrailingBlank [keyLine key value] = [keyLine key value]).
  { split; [constructor; [apply keyLine_free; assumption|constructor]|].
    split; [cbn [find]; rewrite keyed_keyLine; reflexivity|].
    cbn [dropTrailingBlank]. rewrite keyLine_nonempty. reflexivity. }
  destruct file as [|input|]; [exact Hone| |exact Hone].
  cbn [writtenLines]. split; [|split].
  - apply dropTrailingBlank_Forall, updateLines_free; [assumption..|apply Split_free].
  - rewrite find_dropTrailingBlank. apply find_updateLines.
  - apply dropTrailingBlank_idem.
Qed.

Lemma writtenLines_nonempty key value file :
  containsByte lf key = false -> containsByte lf value = false ->
  writtenLines key value file <> [].
Proof.
  intros Hk Hv E. destruct (writtenLines_spec key value file Hk Hv) as [_ [Hfind _]].
  rewrite E in Hfind. discriminate Hfind.
Qed.

Lemma updateEnvFile_success key value w :
  containsByte lf key = false -> containsByte lf value = false ->
  envWritable w = true -> envFile w <> FileUnreadable ->
  updateEnvFile key value w
  = (None, withFile (FileContent (Join (writtenLines key value (envFile w)) newline
                                  ++ newline)%string) w).
Proof.
  intros Hk Hv Hw Hr. destruct (envFile w) as [|input|] eqn:Hf; [| |contradiction].
  - apply updateEnvFile_absent; assumption.
  - rewrite (updateEnvFile_content key value input w Hf Hw). cbn [writtenLines].
    rewrite TrimRight_Join; [reflexivity|].
    apply updateLines_free; [assumption..|apply Split_free].
Qed.

Lemma updateEnvFile_None_inv key value w :
  fst (updateEnvFile key value w) = None -> envWritable w = true /\ envFile w <> FileUnreadable.
Proof.
  intros H. split.
  - destruct (envWritable w) eqn:Hw; [reflexivity|].
    destruct (updateEnvFile_failed key value w (or_introl Hw)) as [e He].
    rewrite He in H. discriminate H.
  - intros Hf. destruct (updateEnvFile_failed key value w (or_intror Hf)) as [e He].
    rewrite He in H. discriminate H.
Qed.

(** X15. Lookup after update: when [updateEnvFile] succeeds (key and value
    without line feed), the first line of the written file that starts
    with key= is key=value, whatever the file held before. *)
Theorem updateEnvFile_then_lookup key value w :
  containsByte lf key = false -> containsByte lf value = false ->
  fst (updateEnvFile key value w) = None ->
  exists output,
    envFile (snd (updateEnvFile key value w)) = FileContent output
    /\ find (keyed key) (Split output lf) = Some (keyLine key value).
Proof.
  intros Hk Hv Hok. destruct (updateEnvFile_None_inv _ _ _ Hok) as [Hw Hr].
  rewrite (updateEnvFile_success key value w Hk Hv Hw Hr). cbn [snd withFile envFile].
  eexists. split; [reflexivity|].
  destruct (writtenLines_spec key value (envFile w) Hk Hv) as [Hfree [Hfind _]].
  rewrite Split_written; [|apply writtenLines_nonempty; assumption|exact Hfree].
  rewrite find_app_split, Hfind. reflexivity.
Qed.

Lemma keyed_distinct key key' line :
  containsByte "=" key = false -> containsByte "=" key' = false ->
  keyed key line = true -> keyed key' line = true -> key = key'.
Proof.
  unfold keyed, HasPrefix. revert key' line.
  induction key as [|a key IH]; intros key' line Hk Hk' H H'.
  - destruct key' as [|c key']; [reflexivity|].
    change (String c key' ++ "=")%string with (String c (key' ++ "=")%string) in H'.
    change ("" ++ "=")%string with "=" in H.
    destruct line as [|b line]; [discriminate H|].
    cbn [String.prefix] in H, H'. destruct (ascii_dec "=" b) as [<-|]; [|discriminate H].
    destruct (ascii_dec c "=") as [->|]; [|discriminate H'].
    cbn in Hk'. discriminate Hk'.
  - change (String a key ++ "=")%string with (String a (key ++ "=")%string) in H.
    destruct line as [|b line]; [discriminate H|].
    cbn [String.prefix] in H. destruct (ascii_dec a b) as [<-|]; [|discriminate H].
    destruct key' as [|c key'].
    + change ("" ++ "=")%string with "=" in H'.
      cbn [String.prefix] in H'. destruct (ascii_dec "=" a) as [<-|]; [|discriminate H'].
      cbn in Hk. discriminate Hk.
    + change (String c key' ++ "=")%string with (String c (key' ++ "=")%string) in H'.
      cbn [String.prefix] in H'. destruct (ascii_dec c a) as [->|]; [|discriminate H'].
      cbn [containsByte] in Hk, Hk'.
      apply orb_false_iff in Hk as [_ Hk]. apply orb_false_iff in Hk' as [_ Hk'].
      f_equal. exact (IH key' line Hk Hk' H H').
Qed.

Lemma find_updateLines_other key key' value lines :
  containsByte "=" key = false -> containsByte "=" key' = false -> key <> key' ->
  find (keyed key') (updateLines key value lines) = find (keyed key') lines.
Proof.
  intros Hk Hk' Hne.
  assert (Hother : forall l, keyed key l = true -> keyed key' l = false).
  { intros l Hl. destruct (keyed key' l) eqn:Hl'; [|reflexivity].
    exfalso. apply Hne. exact (keyed_distinct key key' l Hk Hk' Hl Hl'). }
  pose proof (Hother _ (keyed_keyLine key value)) as Hkv.
  destruct (findIndex (keyed key) lines) as [i|] eqn:Hi.
  - destruct (findIndex_Some_split _ _ _ Hi) as [before [old [after [-> [_ [Hb Ho]]]]]].
    rewrite (updateLines_found key value before old after Hb Ho).
    rewrite !find_app_split. cbn [find]. rewrite Hkv, (Hother _ Ho). reflexivity.
  - pose proof (findIndex_None_all _ _ Hi) as Hall.
    destruct (String.eqb_spec (List.last lines "x") "") as [Hlast|Hlast].
    + assert (Hnil : lines <> []) by (intros ->; discriminate Hlast).
      rewrite (app_removelast_last "x" Hnil), Hlast in Hall |- *.
      rewrite updateLines_blank_end.
      * rewrite !find_app_split. cbn [find]. rewrite Hkv. reflexivity.
      * intros y Hy. apply Hall, in_or_app. left. exact Hy.
    + rewrite (updateLines_append key value lines Hall Hlast).
      rewrite find_app_split. cbn [find]. rewrite Hkv.
      destruct (find (keyed key') lines); reflexivity.
Qed.

(** X16. An update leaves the other keys alone: for two different keys
    without '=' (and key and value without line feed), the first line
    starting with the other key= is after a successful [updateEnvFile] what
    it was before. *)
Theorem updateEnvFile_keeps_other_keys key key' value input w :
  containsByte lf key = false -> containsByte lf value = false ->
  containsByte "=" key = false -> containsByte "=" key' = false -> key <> key' ->
  envFile w = FileContent input ->
  fst (updateEnvFile key value w) = None ->
  exists output,
    envFile (snd (updateEnvFile key value w)) = FileContent output
    /\ find (keyed key') (Split output lf) = find (keyed key') (Split input lf).
Proof.
  intros Hk Hv He He' Hne Hf Hok. destruct (updateEnvFile_None_inv _ _ _ Hok) as [Hw Hr].
  rewrite (updateEnvFile_success key value w Hk Hv Hw Hr). cbn [snd withFile envFile].
  eexists. split; [reflexivity|].
  destruct (writtenLines_spec key value (envFile w) Hk Hv) as [Hfree _].
  rewrite Split_written; [|apply writtenLines_nonempty; assumption|exact Hfree].
  rewrite find_app_split. cbn [find]. rewrite keyed_blank.
  rewrite Hf. cbn [writtenLines]. rewrite find_dropTrailingBlank.
  rewrite (find_updateLines_other key key' value _ He He' Hne).
  destruct (find (keyed key') (Split input lf)); reflexivity.
Qed.




(** X18. The file [updateEnvFile] writes (key and value without line
    feed) is not blank and ends with exactly one line feed: it is a
    non-empty text that does not end with a line feed, followed by one. *)
Theorem updateEnvFile_ends_with_one_line_feed key value w :
  containsByte lf key = false -> containsByte lf value = false ->
  fst (updateEnvFile key value w) = None ->
  exists body,
    envFile (snd (updateEnvFile key value w)) = FileContent (body ++ newline)%string
    /\ body <> ""
    /\ TrimRight body lf = body.
Proof.
  intros Hk Hv Hok. destruct (updateEnvFile_None_inv _ _ _ Hok) as [Hw Hr].
  rewrite (updateEnvFile_success key value w Hk Hv Hw Hr). cbn [snd withFile envFile].
  destruct (writtenLines_spec key value (envFile w) Hk Hv) as [Hfree [_ Hdrop]].
  pose proof (writtenLines_nonempty key value (envFile w) Hk Hv) as Hnil.
  exists (Join (writtenLines key value (envFile w)) newline). split; [reflexivity|]. split.
  - destruct (dropTrailingBlank_Join (writtenLines key value (envFile w))) as [H|H];
      rewrite Hdrop in H; [contradiction|exact H].
  - rewrite (TrimRight_Join _ Hfree), Hdrop. reflexivity.
Qed.

(** *** Every command is answered *)

Lemma answered_app events events' :
  answered events' = true -> answered (events ++ events') = true.
Proof.
  unfold answered, finalEvent. rewrite rev_app_distr.
  destruct (rev events') as [|e rest]; [discriminate|]. intros H. exact H.
Qed.

Lemma answered_deliver processingMsg finalMessage :
  answered (deliverEvents processingMsg finalMessage) = true.
Proof. unfold deliverEvents. destruct processingMsg; [destruct (chatEdit _)|]; reflexivity. Qed.

Lemma answered_report processingMsg msg : answered (reportEvents processingMsg msg) = true.
Proof. destruct processingMsg; reflexivity. Qed.

Lemma rankingCommand_answered w :
  exists events,
    trace (snd (rankingCommand w)) = trace w ++ events /\ answered events = true.
Proof.
  destruct (lolPlayersEnv w) as [|p ps] eqn:Hw.
  - eexists. split; [|shelve].
    unfold rankingCommand, getPlayers, bind. rewrite Hw. reflexivity.
    Unshelve. reflexivity.
  - assert (Hne : lolPlayersEnv w <> []) by (rewrite Hw; discriminate).
    eexists. split.
    + rewrite (rankingCommand_run w Hne). cbn [snd]. rewrite trace_addTrace. reflexivity.
    + apply (answered_app [_]), answered_app, answered_deliver.
Qed.

Lemma rankCommand_answered content w :
  exists events,
    trace (snd (rankCommand content w)) = trace w ++ events /\ answered events = true.
Proof.
  unfold rankCommand. cbv zeta.
  destruct (length (Split content " ") <? 2)%nat.
  - rewrite send_run. eexists. split; [reflexivity|reflexivity].
  - rewrite (bind_run _ _ _ _ _ (rankLoop_infos _ [] w)).
    rewrite send_run, addTrace_app. eexists. split; [reflexivity|].
    apply answered_app. reflexivity.
Qed.

Lemma addCommand_answered content w :
  exists events,
    trace (snd (addCommand content w)) = trace w ++ events /\ answered events = true.
Proof.
  destruct (addRejected content (lolPlayersEnv w)) eqn:Hrej.
  - revert Hrej. unfold addRejected, addCommand, addedIdentity. cbv zeta.
    set (id := TrimSpace (TrimPrefix content "!add ")).
    intros H.
    destruct (String.eqb id "").
    { rewrite send_run. eexists. split; reflexivity. }
    destruct (negb _ || _ || _).
    { rewrite send_run. eexists. split; reflexivity. }
    rewrite (bind_run getPlayers _ w (lolPlayersEnv w) w eq_refl).
    destruct (existsb _ _).
    { rewrite send_run. eexists. split; reflexivity. }
    unfold getAccountByRiotID. run_head.
    destruct (remoteAccount _ _) as [account|e]; [discriminate H|].
    rewrite send_run, addTrace_app. eexists. split; reflexivity.
  - rewrite (addCommand_accepted content w Hrej).
    rewrite addPlayerToEnvFile_addTrace.
    destruct (addPlayerToEnvFile_frame (addedIdentity content) w) as [Htrace _].
    destruct (fst (addPlayerToEnvFile (addedIdentity content) w)) as [e|].
    + cbn [snd]. rewrite !trace_addTrace, Htrace, <- app_assoc.
      eexists. split; reflexivity.
    + cbn [snd]. unfold appendPlayer. cbn [snd]. rewrite trace_addTrace. cbn [trace].
      rewrite trace_addTrace, Htrace, <- app_assoc. eexists. split; reflexivity.
Qed.

Lemma handleDayStatsCommand_answered content w :
  exists events,
    trace (snd (handleDayStatsCommand content w)) = trace w ++ events /\ answered events = true.
Proof.
  unfold handleDayStatsCommand.
  destruct (length (Split content " ") <? 2)%nat.
  { rewrite send_run. eexists. split; reflexivity. }
  cbv zeta.
  destruct (negb _ || _ || _).
  { rewrite send_run. eexists. split; reflexivity. }
  rewrite (bind_run timeNow _ w (clock w) w eq_refl).
  destruct (dayWindow _ _) as [[startTime endTime]|e].
  2: { rewrite send_run. eexists. split; reflexivity. }
  rewrite (bind_run _ _ _ _ _ (ChannelMessageSend_run _ _)).
  unfold getAccountByRiotID, getMatchIDsByPUUIDInTimeRange. run_head.
  destruct (remoteAccount _ _) as [account|e].
  2: { rewrite report_run, addTrace_app. eexists. split; [reflexivity|].
       apply answered_app, answered_report. }
  run_head. destruct (remoteMatchIDs _ _ _ _ _) as [matchIDs|e].
  2: { rewrite report_run, addTrace_app. eexists. split; [reflexivity|].
       apply answered_app, answered_report. }
  destruct (length matchIDs =? 0)%nat.
  { rewrite report_run, addTrace_app. eexists. split; [reflexivity|].
    apply answered_app, answered_report. }
  rewrite (bind_run _ _ _ _ _ (tallyLoop_run _ _ _ _ _ _)).
  rewrite deliver_run, !addTrace_app. eexists. split; [reflexivity|].
  apply answered_app, answered_app, answered_deliver.
Qed.

(** X19. The bot answers commands and nothing else. A message of the bot
    itself, or one that is no command, changes nothing: no chat message,
    no remote call, no file access. A command of someone else always ends
    with a chat message (sent or edited), whatever the remote service and
    the file system do. *)
Theorem messageCreate_answers_commands_only :
  (forall m w,
      authorIsSelf m = true \/ isCommand (Content m) = false -> messageCreate m w = (tt, w))
  /\ (forall m w,
         authorIsSelf m = false -> isCommand (Content m) = true ->
         exists events,
           trace (snd (messageCreate m w)) = trace w ++ events /\ answered events = true).
Proof.
  split.
  - intros m w [Hself|Hcmd]; unfold messageCreate.
    + rewrite Hself. reflexivity.
    + unfold isCommand in Hcmd.
      apply orb_false_iff in Hcmd as [Hcmd Hhelp]. apply orb_false_iff in Hcmd as [Hcmd Hstats].
      apply orb_false_iff in Hcmd as [Hcmd Hadd]. apply orb_false_iff in Hcmd as [Hranking Hrank].
      rewrite Hranking, Hrank, Hadd, Hstats, Hhelp. destruct (authorIsSelf m); reflexivity.
  - intros m w Hself Hcmd. unfold messageCreate. rewrite Hself.
    destruct (String.eqb (Content m) "!ranking") eqn:Hranking; [apply rankingCommand_answered|].
    destruct (HasPrefix (Content m) "!rank") eqn:Hrank; [apply rankCommand_answered|].
    destruct (HasPrefix (Content m) "!add ") eqn:Hadd; [apply addCommand_answered|].
    destruct (HasPrefix (Content m) "!daystats ") eqn:Hstats;
      [apply handleDayStatsCommand_answered|].
    destruct (String.eqb (Content m) "!help") eqn:Hhelp.
    + rewrite send_run. eexists. split; reflexivity.
    + unfold isCommand in Hcmd. rewrite Hranking, Hrank, Hadd, Hstats, Hhelp in Hcmd.
      discriminate Hcmd.
Qed.

(** *** The typed date and the window *)

Lemma yearOfEra_inverse yoe doy :
  0 <= yoe <= 399 -> 0 <= doy <= 365 ->
  (doy = 365 -> (yoe + 1) mod 4 = 0 /\ ((yoe + 1) mod 100 <> 0 \/ yoe = 399)) ->
  0 <= Time.daysBeforeYearOfEra yoe + doy < 146097
  /\ (Time.daysBeforeYearOfEra yoe + doy - (Time.daysBeforeYearOfEra yoe + doy) / 1460
      + (Time.daysBeforeYearOfEra yoe + doy) / 36524
      - (Time.daysBeforeYearOfEra yoe + doy) / 146096) / 365 = yoe.
Proof.
  intros Hy Hd Hleap. unfold Time.daysBeforeYearOfEra. div_lia.
Qed.

Lemma isLeap_spec year :
  Time.isLeap year = true <-> year mod 4 = 0 /\ (year mod 100 <> 0 \/ year mod 400 = 0).
Proof.
  unfold Time.isLeap.
  rewrite andb_true_iff, orb_true_iff, negb_true_iff, !Z.eqb_eq, Z.eqb_neq.
  reflexivity.
Qed.

Lemma civilFromDays_daysFromCivil y m d :
  1 <= m <= 12 -> 1 <= d <= Time.daysIn m y ->
  Time.civilFromDays (Time.daysFromCivil y m d) = (y, m, d).
Proof.
  intros Hm Hd.
  unfold Time.daysFromCivil. cbv zeta.
  set (y' := if m <=? 2 then y - 1 else y).
  set (era := y' / 400). set (yoe := y' mod 400).
  set (mp := if 2 <? m then m - 3 else m + 9).
  set (doy := (153 * mp + 2) / 5 + d - 1).
  assert (Hyoe : 0 <= yoe <= 399) by (subst yoe; pose proof (Z.mod_pos_bound y' 400); lia).
  assert (Hy' : y' = 400 * era + yoe) by (apply Z.div_mod; lia).
  assert (Hdays : d <= 31 /\ (m = 2 -> d <= 29) /\ (m = 2 -> d = 29 -> Time.isLeap y = true)
                  /\ (m = 4 \/ m = 6 \/ m = 9 \/ m = 11 -> d <= 30)).
  { unfold Time.daysIn in Hd.
    destruct (Z.eqb_spec m 2) as [->|H2].
    - destruct (Time.isLeap y); repeat split; intros; try lia; try reflexivity.
    - destruct (Z.eqb_spec m 4), (Z.eqb_spec m 6), (Z.eqb_spec m 9), (Z.eqb_spec m 11);
        cbn [orb] in Hd; repeat split; intros; lia. }
  destruct Hdays as [H31 [H29 [Hleap H30]]].
  assert (Hmp : 0 <= mp <= 11 /\ (m = if mp <? 10 then mp + 3 else mp - 9)).
  { subst mp. destruct (Z.ltb_spec 2 m).
    - destruct (Z.ltb_spec (m - 3) 10); lia.
    - destruct (Z.ltb_spec (m + 9) 10); lia. }
  assert (Hdoy : 0 <= doy <= 365 /\ (doy = 365 -> m = 2 /\ d = 29)
                 /\ (5 * doy + 2) / 153 = mp).
  { subst doy mp. destruct (Z.ltb_spec 2 m).
    - assert (Hc : m = 3 \/ m = 4 \/ m = 5 \/ m = 6 \/ m = 7 \/ m = 8 \/ m = 9 \/ m = 10
                   \/ m = 11 \/ m = 12) by lia.
      destruct Hc as [->|[->|[->|[->|[->|[->|[->|[->|[->| ->]]]]]]]]]; div_lia.
    - assert (Hc : m = 1 \/ m = 2) by lia.
      destruct Hc as [->| ->]; div_lia. }
  destruct Hdoy as [Hdoy [H365 Hmp']].
  assert (Hl : doy = 365 -> (yoe + 1) mod 4 = 0 /\ ((yoe + 1) mod 100 <> 0 \/ yoe = 399)).
  { intros E. destruct (H365 E) as [-> ->]. specialize (Hleap eq_refl eq_refl).
    apply isLeap_spec in Hleap. subst y'. change (2 <=? 2) with true in Hy'. cbv iota in Hy'.
    clear - Hleap Hy' Hyoe. Z.to_euclidean_division_equations. lia. }
  destruct (yearOfEra_inverse yoe doy Hyoe Hdoy Hl) as [Hdoe Hinv].
  set (doe := Time.daysBeforeYearOfEra yoe + doy) in *.
  unfold Time.civilFromDays. cbv zeta.
  replace (era * 146097 + doe - 719468 + 719468) with (doe + era * 146097) by lia.
  rewrite Z.div_add, Z.mod_add by lia.
  rewrite (Z.div_small doe), (Z.mod_small doe) by lia.
  rewrite Hinv. cbn [Z.add].
  replace (doe - Time.daysBeforeYearOfEra yoe) with doy by (subst doe; lia).
  rewrite Hmp'. destruct Hmp as [Hmp Hm'].
  rewrite <- Hm'.
  replace (doy - (153 * mp + 2) / 5 + 1) with d by (subst doy; lia).
  f_equal. f_equal. subst y'. destruct (m <=? 2); lia.
Qed.

Lemma isDigit_In c : Time.isDigit c = true -> In c digitChars.
Proof.
  destruct c as [b0 b1 b2 b3 b4 b5 b6 b7].
  destruct b0, b1, b2, b3, b4, b5, b6, b7; intros H; try discriminate H;
    unfold digitChars; cbn [In]; repeat (first [left; reflexivity | right]).
Qed.

Lemma format4_digits :
  forallb (fun a => forallb (fun b => forallb (fun c => forallb (fun d =>
    String.eqb
      (Fmt.padZero 4 (Fmt.d (Time.digitVal a * 1000 + Time.digitVal b * 100
                             + Time.digitVal c * 10 + Time.digitVal d)))
      (String a (String b (String c (String d EmptyString)))))
    digitChars) digitChars) digitChars) digitChars = true.
Proof. vm_compute. reflexivity. Qed.

Lemma format2_digits :
  forallb (fun a => forallb (fun b =>
    String.eqb (Fmt.padZero 2 (Fmt.d (Time.digitVal a * 10 + Time.digitVal b)))
               (String a (String b EmptyString)))
    digitChars) digitChars = true.
Proof. vm_compute. reflexivity. Qed.

Lemma format4 a b c d :
  Time.isDigit a = true -> Time.isDigit b = true -> Time.isDigit c = true ->
  Time.isDigit d = true ->
  Fmt.padZero 4 (Fmt.d (Time.digitVal a * 1000 + Time.digitVal b * 100
                        + Time.digitVal c * 10 + Time.digitVal d))
  = String a (String b (String c (String d EmptyString))).
Proof.
  intros Ha Hb Hc Hd. pose proof format4_digits as H.
  rewrite forallb_forall in H. specialize (H a (isDigit_In a Ha)).
  rewrite forallb_forall in H. specialize (H b (isDigit_In b Hb)).
  rewrite forallb_forall in H. specialize (H c (isDigit_In c Hc)).
  rewrite forallb_forall in H. specialize (H d (isDigit_In d Hd)).
  apply String.eqb_eq in H. exact H.
Qed.

Lemma format2 a b :
  Time.isDigit a = true -> Time.isDigit b = true ->
  Fmt.padZero 2 (Fmt.d (Time.digitVal a * 10 + Time.digitVal b))
  = String a (String b EmptyString).
Proof.
  intros Ha Hb. pose proof format2_digits as H.
  rewrite forallb_forall in H. specialize (H a (isDigit_In a Ha)).
  rewrite forallb_forall in H. specialize (H b (isDigit_In b Hb)).
  apply String.eqb_eq in H. exact H.
Qed.

Lemma localDay_of_midnight y m d :
  1 <= m <= 12 ->
  Time.localDay (Time.Date y m d 0 0 0 Time.jst) Time.jst = Time.daysFromCivil y m d.
Proof.
  intros Hm. unfold Time.localDay, Time.Date, Time.secondsPerDay. cbv zeta.
  replace ((m - 1) / 12) with 0 by div_lia.
  replace ((m - 1) mod 12 + 1) with m by div_lia.
  replace (y + 0) with y by lia.
  replace (Time.daysFromCivil y m d * 86400 + 0 * 3600 + 0 * 60 + 0 - Time.jst + Time.jst)
    with (Time.daysFromCivil y m d * 86400) by lia.
  apply Z.div_mul. lia.
Qed.

(** X20. The window of a typed date is that date. When [!daystats] gets a
    date that parses, the civil date (zone +9h) of the window start is
    exactly the date typed (its four, two and two digits read as numbers),
    and the start is shown as the typed digits with slashes, YYYY/MM/DD. *)
Theorem typed_date_is_the_window_date dateStr now startTime endTime :
  dateStr <> "" ->
  dayWindow dateStr now = Ok (startTime, endTime) ->
  Time.Year startTime Time.jst = decimalOf (substring 0 4 dateStr)
  /\ Time.Month startTime Time.jst = decimalOf (substring 4 2 dateStr)
  /\ Time.Day startTime Time.jst = decimalOf (substring 6 2 dateStr)
  /\ Time.Format_2006_01_02 startTime Time.jst
     = (substring 0 4 dateStr ++ "/" ++ substring 4 2 dateStr ++ "/"
        ++ substring 6 2 dateStr)%string.
Proof.
  intros Hne Hwin. unfold dayWindow, targetDateOf in Hwin.
  destruct (String.eqb_spec dateStr "") as [E|_]; [contradiction|].
  destruct (Time.ParseInLocation_20060102 dateStr Time.jst) as [target|e] eqn:Hparse;
    [|discriminate Hwin].
  injection Hwin as Hstart _.
  unfold Time.ParseInLocation_20060102 in Hparse.
  destruct dateStr as [|y1 [|y2 [|y3 [|y4 [|m1 [|m2 [|d1 [|d2 [|? ?]]]]]]]]];
    try discriminate Hparse.
  destruct (forallb Time.isDigit [y1; y2; y3; y4; m1; m2; d1; d2]) eqn:Hdigits;
    [|discriminate Hparse].
  cbv zeta in Hparse.
  set (year := Time.digitVal y1 * 1000 + Time.digitVal y2 * 100 + Time.digitVal y3 * 10
               + Time.digitVal y4) in *.
  set (month := Time.digitVal m1 * 10 + Time.digitVal m2) in *.
  set (day := Time.digitVal d1 * 10 + Time.digitVal d2) in *.
  destruct (Z.leb_spec month 0) as [|Hm1]; [discriminate Hparse|].
  destruct (Z.ltb_spec 12 month) as [|Hm2]; [discriminate Hparse|].
  cbn [orb] in Hparse.
  destruct (Z.ltb_spec day 1) as [|Hd1]; [discriminate Hparse|].
  destruct (Z.ltb_spec (Time.daysIn month year) day) as [|Hd2]; [discriminate Hparse|].
  cbn [orb] in Hparse. injection Hparse as Htarget.
  assert (Hm : 1 <= month <= 12) by lia.
  assert (Hd : 1 <= day <= Time.daysIn month year) by lia.
  rewrite startTimeOf_spec, <- Htarget, (localDay_of_midnight _ _ _ Hm) in Hstart.
  destruct (local_of_start (Time.daysFromCivil year month day)) as [Hday Hsec].
  rewrite Hstart in Hday, Hsec.
  assert (HY : Time.Year startTime Time.jst = year)
    by (unfold Time.Year; rewrite Hday, (civilFromDays_daysFromCivil _ _ _ Hm Hd); reflexivity).
  assert (HM : Time.Month startTime Time.jst = month)
    by (unfold Time.Month; rewrite Hday, (civilFromDays_daysFromCivil _ _ _ Hm Hd); reflexivity).
  assert (HD : Time.Day startTime Time.jst = day)
    by (unfold Time.Day; rewrite Hday, (civilFromDays_daysFromCivil _ _ _ Hm Hd); reflexivity).
  cbn [forallb] in Hdigits.
  repeat (apply andb_true_iff in Hdigits as [?Hdig Hdigits]).
  split; [rewrite HY; unfold year, decimalOf; cbn [substring decimalFrom]; lia|].
  split; [rewrite HM; unfold month, decimalOf; cbn [substring decimalFrom]; lia|].
  split; [rewrite HD; unfold day, decimalOf; cbn [substring decimalFrom]; lia|].
  unfold Time.Format_2006_01_02. rewrite HY, HM, HD.
  unfold year, month, day. rewrite format4, !format2 by assumption.
  reflexivity.
Qed.

End Bot.

(** ** The properties on concrete inputs *)

Local Open Scope list_scope.

Local Abbreviation sampleRankingBody :=
  (rankingBody Sample.same Sample.account Sample.summoner Sample.league).
Local Abbreviation sampleRankingCommand :=
  (rankingCommand Sample.same Sample.same Sample.same Sample.same
     Sample.account Sample.summoner Sample.league Sample.chat Sample.chat).
Local Abbreviation sampleMessageCreate :=
  (messageCreate Sample.same Sample.same Sample.same Sample.same
     Sample.account Sample.summoner Sample.league Sample.matchIDs Sample.matchDetails
     Sample.chat Sample.chat).
Local Abbreviation sampleAddCommand := (addCommand Sample.account Sample.chat).
Local Abbreviation sampleDayStats :=
  (handleDayStatsCommand Sample.account Sample.matchIDs Sample.matchDetails
     Sample.chat Sample.chat).

(** C4 on "gold iv", on Silver against gold, and on an unknown tier. *)
Lemma getRankValues_ordinals_witness :
  getRankValues Sample.same "gold" "iv" = getRankValues Sample.same "GOLD" "IV"
  /\ fst (getRankValues Sample.same "Silver" "") < fst (getRankValues Sample.same "gold" "i")
  /\ fst (getRankValues Sample.same "WOOD" "IV") = 0.
Proof.
  destruct (getRankValues_ordinals Sample.same) as [Hcase [_ [_ [Hmono [_ [Hunknown _]]]]]].
  split; [apply Hcase; reflexivity|].
  split; [apply (Hmono 3%nat 4%nat "SILVER" "GOLD"); try reflexivity; repeat constructor|].
  apply Hunknown. intros Hin.
  repeat (apply elem_of_cons in Hin as [Hin|Hin]; [discriminate Hin|]).
  inversion Hin.
Defined.

(** C1 on a roster whose first player is unranked and second is Iron IV. *)
Lemma unranked_sorts_after_ranked_witness :
  Sort.SliceStable rankLess
    (fst (forEach ["Bob#1"; "Ann#3"] sampleRankingBody [] (Sample.world [] FileAbsent))) !! 1%nat
  = Some (unrankedInfo "Bob#1")
  /\ Sort.SliceStable rankLess
       (fst (forEach ["Bob#1"; "Ann#3"] sampleRankingBody [] (Sample.world [] FileAbsent))) !! 0%nat
     = Some (rankedInfo Sample.same "Ann#3" Sample.soloIronIV)
  /\ (0 < 1)%nat.
Proof.
  split; [reflexivity|]. split; [reflexivity|].
  apply (proj2 (proj2 (proj2
           (unranked_sorts_after_ranked Sample.same Sample.account Sample.summoner Sample.league)))
           ["Bob#1"; "Ann#3"] (Sample.world [] FileAbsent) 1%nat 0%nat
           "Bob#1" "Ann#3" Sample.soloIronIV); reflexivity.
Defined.

(** C5 on three players of which two carry the same key. *)
Lemma leaderboard_sort_descending_stable_witness :
  keyLe (sortKey (unrankedInfo "Bob#1")) (sortKey (rankedInfo Sample.same "Ann#3" Sample.soloIronIV))
  /\ List.filter (fun p => keyEqb (sortKey p) (-1, -1, 0))
       (Sort.SliceStable rankLess
          [unrankedInfo "Bob#1"; rankedInfo Sample.same "Ann#3" Sample.soloIronIV;
           unrankedInfo "Cid#2"])
     = [unrankedInfo "Bob#1"; unrankedInfo "Cid#2"].
Proof.
  destruct (leaderboard_sort_descending_stable
              [unrankedInfo "Bob#1"; rankedInfo Sample.same "Ann#3" Sample.soloIronIV;
               unrankedInfo "Cid#2"]) as [_ [Hsorted Hstable]].
  split.
  - apply (Hsorted 0%nat 1%nat); [reflexivity|reflexivity|repeat constructor].
  - rewrite Hstable. reflexivity.
Defined.

(** C6 on a roster of three whose second player fails Account resolution. *)
Lemma leaderboard_omits_failed_players_witness :
  exists line1 line2,
    imap (rankingLine Sample.same Sample.same Sample.same)
      (Sort.SliceStable rankLess
         (fst (forEach ["Bob#1"; "Ghost#2"; "Ann#3"] sampleRankingBody []
                 (Sample.world ["Bob#1"; "Ghost#2"; "Ann#3"] FileAbsent))))
    = [line1; line2]
    /\ (List.last (trace (snd (sampleRankingCommand
                                (Sample.world ["Bob#1"; "Ghost#2"; "Ann#3"] FileAbsent)))) EvSleep
        = EvEdit (Join [rankingTitle; line1; line2] newline)
        \/ List.last (trace (snd (sampleRankingCommand
                                   (Sample.world ["Bob#1"; "Ghost#2"; "Ann#3"] FileAbsent)))) EvSleep
           = EvSend (Join [rankingTitle; line1; line2] newline)).
Proof.
  apply (proj2 (proj2 (proj2
           (leaderboard_omits_failed_players Sample.same Sample.same Sample.same Sample.same
              Sample.account Sample.summoner Sample.league Sample.chat Sample.chat)))
           "Bob#1" "Ghost#2" "Ann#3"); reflexivity.
Defined.

(** C3 on a match won by the queried player at the very start of the
    window. *)
Lemma day_window_tally_witness :
  tallyMatch "puuid-Ann" 1704052800 1704139200
    {| GameCreation := 1704052800000; QueueID := 420;
       Participants := [ {| part_PUUID := "puuid-Bob"; Win := false |};
                         {| part_PUUID := "puuid-Ann"; Win := true |} ] |} (2, 1)
  = (3, 1).
Proof.
  apply (proj1 (proj2 (day_window_tally Sample.matchDetails))
           "puuid-Ann" 1704052800 1704139200 _ 2 1
           [ {| part_PUUID := "puuid-Bob"; Win := false |} ]
           {| part_PUUID := "puuid-Ann"; Win := true |} []).
  - unfold inWindow. split; [discriminate|reflexivity].
  - reflexivity.
  - reflexivity.
  - intros q [<-|[]]. discriminate.
  - reflexivity.
Defined.

(** C3 as stated fails on a match inside the window, in queue 420, in
    which the player does not appear: it passes the time and queue test
    and leaves both counters as they were. *)
Lemma tally_unchanged_without_the_player :
  1704052800 <= Z.quot (GameCreation Sample.strangerMatch) 1000
  /\ Z.quot (GameCreation Sample.strangerMatch) 1000 < 1704139200
  /\ QueueID Sample.strangerMatch = 420
  /\ tallyMatch "puuid-Ann" 1704052800 1704139200 Sample.strangerMatch (0, 0) = (0, 0).
Proof.
  split; [discriminate|]. split; [reflexivity|]. split; reflexivity.
Defined.

(** C2 on the date 20240101 and on 04:13 of 2024-01-01. *)
Lemma day_window_witness :
  (1704139200 = 1704052800 + 86400 /\ Time.Hour 1704052800 Time.jst = 5)
  /\ dayWindow "" 1704050000
     = Ok (Time.Date 2024 1 0 5 0 0 Time.jst, Time.Date 2024 1 1 5 0 0 Time.jst).
Proof.
  destruct day_window_spans_one_day_from_5am
    as [_ [_ [_ [_ [_ [Hbefore [_ [_ Hevery]]]]]]]].
  split.
  - destruct (Hevery "20240101" 0 1704052800 1704139200 eq_refl) as [Hend [Hhour _]].
    split; [exact Hend|exact Hhour].
  - apply (Hbefore 1704050000). reflexivity.
Defined.





(** C9 on a second upsert of a player into a file that holds another. *)
Lemma upsert_existing_player_adds_no_duplicate_witness :
  addPlayerToEnvFile "Zed#9"
    (snd (addPlayerToEnvFile "Zed#9"
            (Sample.world [] (FileContent ("LOL_PLAYERS=Bob#1" ++ newline)%string))))
  = addPlayerToEnvFile "Zed#9"
      (Sample.world [] (FileContent ("LOL_PLAYERS=Bob#1" ++ newline)%string))
  /\ envFile (snd (addPlayerToEnvFile "Zed#9"
                     (Sample.world [] (FileContent ("LOL_PLAYERS=Bob#1" ++ newline)%string))))
     = FileContent ("LOL_PLAYERS=Bob#1,Zed#9" ++ newline)%string.
Proof.
  split; [|reflexivity].
  apply (proj1 (proj2 (proj2
           (upsert_existing_player_adds_no_duplicate Sample.account Sample.chat)))).
  reflexivity.
Defined.

(** C10 on a roster file that cannot be written. *)
Lemma add_player_updates_memory_after_persisting_witness :
  lolPlayersEnv (snd (sampleAddCommand "!add Zed#9" (Sample.readOnlyWorld ["Bob#1"] FileAbsent)))
  = ["Bob#1"]
  /\ envFile (snd (sampleAddCommand "!add Zed#9" (Sample.readOnlyWorld ["Bob#1"] FileAbsent)))
     = FileAbsent
  /\ exists events,
       trace (snd (sampleAddCommand "!add Zed#9" (Sample.readOnlyWorld ["Bob#1"] FileAbsent)))
       = [] ++ events
       /\ ~ In (EvSend (addedMessage (addedIdentity "!add Zed#9"))) events.
Proof.
  apply (proj1 (add_player_updates_memory_after_persisting Sample.account Sample.chat)
           "!add Zed#9" (Sample.readOnlyWorld ["Bob#1"] FileAbsent) "write failed").
  reflexivity.
Defined.

(** *** Further properties on concrete inputs *)

Local Abbreviation sampleRankCommand :=
  (rankCommand Sample.account Sample.summoner Sample.league Sample.chat).

(** X1 on a Gold I, an Iron IV and an unranked player. *)
Lemma rankLess_strict_weak_order_witness :
  rankLess
    (rankedInfo Sample.same "Cid#2"
       {| QueueType := "RANKED_SOLO_5x5"; entry_Tier := "GOLD"; entry_Rank := "I";
          entry_LeaguePoints := 10; Wins := 1; Losses := 2 |})
    (unrankedInfo "Bob#1") = true.
Proof.
  apply (proj1 (proj2 (proj2 rankLess_strict_weak_order)) _
           (rankedInfo Sample.same "Ann#3" Sample.soloIronIV)); reflexivity.
Defined.

(** X3 on a board that is already in order. *)
Lemma leaderboard_order_determined_witness :
  Sort.SliceStable rankLess
    [rankedInfo Sample.same "Ann#3" Sample.soloIronIV; unrankedInfo "Bob#1"]
  = [rankedInfo Sample.same "Ann#3" Sample.soloIronIV; unrankedInfo "Bob#1"].
Proof.
  apply (proj1 (proj2 leaderboard_order_determined)).
  intros i j a b Hi Hj Hlt.
  destruct i as [|[|i]], j as [|[|j]]; try discriminate Hi; try discriminate Hj; try lia.
  injection Hi as <-. injection Hj as <-. left. vm_compute. left. reflexivity.
Defined.

(** X4 on a roster of three: the first line of the board. *)
Lemma leaderboard_lists_resolving_members_witness :
  exists rest,
    rankedMessages Sample.same Sample.same Sample.same
      (Sort.SliceStable rankLess
         (fst (forEach ["Bob#1"; "Ghost#2"; "Ann#3"] sampleRankingBody []
                 (Sample.world [] FileAbsent)))) !! 1%nat
    = Some ("**" ++ Fmt.d (Z.of_nat 0 + 1) ++ "位**： [`"
            ++ RiotID (rankedInfo Sample.same "Ann#3" Sample.soloIronIV)
            ++ "`](<https://www.op.gg/summoners/jp/" ++ rest)%string.
Proof.
  exact (proj2 (proj2 (proj2
           (leaderboard_lists_resolving_members Sample.same Sample.same Sample.same Sample.same
              Sample.account Sample.summoner Sample.league
              ["Bob#1"; "Ghost#2"; "Ann#3"] (Sample.world [] FileAbsent))))
           0%nat (rankedInfo Sample.same "Ann#3" Sample.soloIronIV) eq_refl).
Defined.

(** X5 on a roster whose only member fails Account resolution. *)
Lemma ranking_without_data_witness :
  trace (snd (sampleRankingCommand (Sample.world ["Ghost#2"] FileAbsent)))
  = trace (Sample.world ["Ghost#2"] FileAbsent)
    ++ EvSend "ランキング集計中です。少々お待ちください... ⏳"
       :: flat_map (playerEvents Sample.account Sample.summoner) ["Ghost#2"]
    ++ deliverEvents Sample.chat (Sample.chat "ランキング集計中です。少々お待ちください... ⏳")
         noRankDataMessage.
Proof.
  apply (proj1 (proj2
           (ranking_without_data Sample.same Sample.same Sample.same Sample.same
              Sample.account Sample.summoner Sample.league Sample.chat Sample.chat))
           (Sample.world ["Ghost#2"] FileAbsent)); [discriminate|reflexivity].
Defined.

(** X7 on a lookup of a ranked player and of a name without a tag. *)
Lemma rank_answers_every_argument_witness :
  sampleRankCommand "!rank Ann#3 Nobody" (Sample.world [] FileAbsent)
  = (tt, addTrace
           (flat_map (playerEvents Sample.account Sample.summoner) ["Ann#3"; "Nobody"]
            ++ [EvSend (Join (map (rankInfoOf Sample.account Sample.summoner Sample.league)
                                ["Ann#3"; "Nobody"]) newline)])
           (Sample.world [] FileAbsent)).
Proof.
  apply (proj1 (rank_answers_every_argument Sample.account Sample.summoner Sample.league
                  Sample.chat) "!rank Ann#3 Nobody" (Sample.world [] FileAbsent)).
  simpl. lia.
Defined.

(** X8 on an identity without a tag. *)
Lemma add_rejects_before_persisting_witness :
  exists text,
    sampleAddCommand "!add NameOnly" (Sample.world ["Bob#1"] FileAbsent)
    = (tt, addTrace [EvSend text] (Sample.world ["Bob#1"] FileAbsent)).
Proof.
  apply (proj1 (add_rejects_before_persisting Sample.account Sample.chat)
           "!add NameOnly" (Sample.world ["Bob#1"] FileAbsent)).
  left. reflexivity.
Defined.


(** X10 on a date of seven digits. *)
Lemma daystats_rejects_before_calling_witness :
  exists text,
    sampleDayStats "!daystats Ann#3 2024010" (Sample.world [] FileAbsent)
    = (tt, addTrace [EvSend text] (Sample.world [] FileAbsent)).
Proof.
  apply (proj1 (proj2
           (daystats_rejects_before_calling Sample.account Sample.matchIDs Sample.matchDetails
              Sample.chat Sample.chat))
           "!daystats Ann#3 2024010" (Sample.world [] FileAbsent) "cannot parse");
    [simpl; lia|reflexivity].
Defined.

(** X11 on a player whose account call fails. *)
Lemma daystats_stops_at_first_failure_witness :
  exists text,
    sampleDayStats "!daystats Ghost#2 20240101" (Sample.world [] FileAbsent)
    = (tt, addTrace
             ([EvSend (statsProcessing "Ghost#2" 1704052800 1704139200);
               accountCall "Ghost#2"]
              ++ reportEvents (Sample.chat (statsProcessing "Ghost#2" 1704052800 1704139200))
                   text)
             (Sample.world [] FileAbsent)).
Proof.
  apply (proj1 (daystats_stops_at_first_failure Sample.account Sample.matchIDs
                  Sample.matchDetails Sample.chat Sample.chat
                  "!daystats Ghost#2 20240101" (Sample.world [] FileAbsent)
                  1704052800 1704139200 ltac:(simpl; lia) eq_refl eq_refl)
           "Riot Account API returned status code: 404").
  reflexivity.
Defined.

(** X12 on a player with two listed matches. *)
Lemma daystats_fetches_listed_matches_witness :
  sampleDayStats "!daystats Ann#3 20240101" (Sample.world [] FileAbsent)
  = (tt, addTrace
           ([EvSend (statsProcessing "Ann#3" 1704052800 1704139200);
             accountCall "Ann#3";
             EvMatchIDs "puuid-Ann" 1704052800 1704139200 420 100]
            ++ flat_map matchEvents ["JP1_1"; "JP1_2"]
            ++ deliverEvents Sample.chat
                 (Sample.chat (statsProcessing "Ann#3" 1704052800 1704139200))
                 (dayStatsResult "Ann#3" 1704052800 1704139200
                    (fst (fold_left (tallyStep Sample.matchDetails "puuid-Ann"
                                       1704052800 1704139200) ["JP1_1"; "JP1_2"] (0, 0)))
                    (snd (fold_left (tallyStep Sample.matchDetails "puuid-Ann"
                                       1704052800 1704139200) ["JP1_1"; "JP1_2"] (0, 0)))))
           (Sample.world [] FileAbsent)).
Proof.
  apply (daystats_fetches_listed_matches Sample.account Sample.matchIDs Sample.matchDetails
           Sample.chat Sample.chat "!daystats Ann#3 20240101" (Sample.world [] FileAbsent)
           1704052800 1704139200
           {| acc_PUUID := "puuid-Ann"; acc_GameName := "Ann"; acc_TagLine := "3" |}
           ["JP1_1"; "JP1_2"]);
    [simpl; lia|reflexivity|reflexivity|reflexivity|reflexivity|discriminate].
Defined.

(** X14 on two matches listed in either order. *)
Lemma tally_is_order_independent_witness :
  fold_left (tallyStep Sample.matchDetails "puuid-Ann" 1704052800 1704139200)
    ["JP1_1"; "JP1_2"] (0, 0)
  = fold_left (tallyStep Sample.matchDetails "puuid-Ann" 1704052800 1704139200)
      ["JP1_2"; "JP1_1"] (0, 0).
Proof.
  apply (proj1 (tally_is_order_independent Sample.matchDetails "puuid-Ann"
                  1704052800 1704139200)).
  apply perm_swap.
Defined.

(** X15 on a file that holds the key twice. *)
Lemma updateEnvFile_then_lookup_witness :
  exists output,
    envFile (snd (updateEnvFile "LOL_PLAYERS" "Ann#3"
                    (Sample.world []
                       (FileContent ("A=1" ++ newline ++ "LOL_PLAYERS=Bob#1" ++ newline
                                     ++ "LOL_PLAYERS=Cid#2" ++ newline)%string))))
    = FileContent output
    /\ find (keyed "LOL_PLAYERS") (Split output lf) = Some (keyLine "LOL_PLAYERS" "Ann#3").
Proof.
  apply updateEnvFile_then_lookup; reflexivity.
Defined.

(** X16 on a file with another key before and after the updated one. *)
Lemma updateEnvFile_keeps_other_keys_witness :
  exists output,
    envFile (snd (updateEnvFile "LOL_PLAYERS" "Ann#3"
                    (Sample.world []
                       (FileContent ("LOL_PLAYERS=Bob#1" ++ newline
                                     ++ "RIOT_API_KEY=k" ++ newline)%string))))
    = FileContent output
    /\ find (keyed "RIOT_API_KEY") (Split output lf)
       = find (keyed "RIOT_API_KEY") (Split ("LOL_PLAYERS=Bob#1" ++ newline ++ "RIOT_API_KEY=k" ++ newline)%string lf).
Proof.
  apply updateEnvFile_keeps_other_keys;
    [reflexivity|reflexivity|reflexivity|reflexivity|discriminate|reflexivity|reflexivity].
Defined.


(** X18 on a file that ends without a line feed. *)
Lemma updateEnvFile_ends_with_one_line_feed_witness :
  exists body,
    envFile (snd (updateEnvFile "LOL_PLAYERS" "Ann#3" (Sample.world [] (FileContent "A=1"))))
    = FileContent (body ++ newline)%string
    /\ body <> ""
    /\ TrimRight body lf = body.
Proof.
  apply updateEnvFile_ends_with_one_line_feed; reflexivity.
Defined.

(** X19 on the help command. *)
Lemma messageCreate_answers_commands_only_witness :
  exists events,
    trace (snd (sampleMessageCreate {| authorIsSelf := false; Content := "!help" |}
                  (Sample.world [] FileAbsent)))
    = trace (Sample.world [] FileAbsent) ++ events
    /\ answered events = true.
Proof.
  apply (proj2 (messageCreate_answers_commands_only Sample.same Sample.same Sample.same
                  Sample.same Sample.account Sample.summoner Sample.league Sample.matchIDs
                  Sample.matchDetails Sample.chat Sample.chat)); reflexivity.
Defined.

(** X20 on the leap day of 2024. *)
Lemma typed_date_is_the_window_date_witness :
  Time.Year 1709150400 Time.jst = decimalOf (substring 0 4 "20240229")
  /\ Time.Month 1709150400 Time.jst = decimalOf (substring 4 2 "20240229")
  /\ Time.Day 1709150400 Time.jst = decimalOf (substring 6 2 "20240229")
  /\ Time.Format_2006_01_02 1709150400 Time.jst
     = (substring 0 4 "20240229" ++ "/" ++ substring 4 2 "20240229" ++ "/"
        ++ substring 6 2 "20240229")%string.
Proof.
  apply (typed_date_is_the_window_date "20240229" 0 1709150400 1709236800);
    [discriminate|reflexivity].
Defined.
